(** * Algorand SDK example scripts: a shallow embedding and its properties

    The repository is a collection of JavaScript example functions that
    drive the [algosdk] package and a remote algod node: build a request
    object, sign it, submit it, wait for confirmation, log, and propagate
    errors.  The functions are embedded as programs of a small state and
    exception monad [Js].  The SDK and the node are not part of the
    repository; they appear as the operations of a [Platform].  Every
    call that crosses into the platform is appended to a ghost [trace],
    which is what the statements about the scripts talk about. *)

From Stdlib Require Import ZArith String List.
From Stdlib.Strings Require Import Byte.
From stdpp Require Import base option list strings gmap pretty.

Set Default Proof Using "Type".

(** ** JavaScript values used by the scripts *)

Abbreviation bytes := (list Byte.byte).

(** An [Error] object: the scripts only ever pass it along. *)
Record JsError := { err_name : string; err_message : string }.

(** Completion of an evaluation, as in ECMAScript: normal or abrupt. *)
Inductive Completion (A : Type) : Type :=
| Normal (a : A)
| Throw (e : JsError).
Arguments Normal {A} a.
Arguments Throw {A} e.

(** ** Data model of the SDK, as far as the scripts read or build it *)

(** [algosdk.Address]: wraps a public key; printed with [toString]. *)
Record Address := { publicKey : bytes }.

(** An account: [{ addr, sk }]. *)
Record Account := { addr : Address; sk : bytes }.

(** A request field that takes [string | Address]. *)
Inductive AddressLike :=
| AddrObj (a : Address)
| AddrStr (s : string).

(** A caller-supplied party, documented as "address or account":
    the scripts test [typeof x === 'string']. *)
Inductive Party :=
| PartyStr (s : string)
| PartyAcct (a : Account).

Record MultisigMetadata :=
  { msig_version : Z; msig_threshold : Z; msig_addrs : list AddressLike }.

Record AlgodClient :=
  { algod_token : string; algod_server : string; algod_port : string }.

Record IndexerClient :=
  { indexer_token : string; indexer_server : string; indexer_port : string }.

Record SuggestedParams :=
  { sp_fee : Z; sp_minFee : Z; sp_firstValid : Z; sp_lastValid : Z;
    sp_genesisID : string; sp_genesisHash : bytes }.

(** The objects handed to the transaction builders.  An absent
    ([undefined]) property is [None]. *)
Record PaymentFields :=
  { pay_sender : AddressLike; pay_receiver : AddressLike; pay_amount : Z;
    pay_note : option bytes; pay_lease : option bytes;
    pay_rekeyTo : option AddressLike; pay_suggestedParams : SuggestedParams }.

Record AssetCreateFields :=
  { acr_sender : AddressLike; acr_total : Z; acr_decimals : Z;
    acr_defaultFrozen : bool;
    acr_manager : AddressLike; acr_reserve : AddressLike;
    acr_freeze : AddressLike; acr_clawback : AddressLike;
    acr_unitName : string; acr_assetName : string; acr_assetURL : string;
    acr_assetMetadataHash : option bytes;
    acr_suggestedParams : SuggestedParams }.

Record AssetConfigFields :=
  { acf_sender : AddressLike; acf_assetIndex : Z;
    acf_manager : option string; acf_reserve : option string;
    acf_freeze : option string; acf_clawback : option string;
    acf_strictEmptyAddressChecking : bool;
    acf_suggestedParams : SuggestedParams }.

Record AssetTransferFields :=
  { axf_sender : AddressLike; axf_receiver : AddressLike;
    axf_assetSender : option string; axf_amount : Z; axf_assetIndex : Z;
    axf_suggestedParams : SuggestedParams }.

Record AssetFreezeFields :=
  { afz_sender : AddressLike; afz_freezeTarget : string;
    afz_assetIndex : Z; afz_frozen : bool;
    afz_suggestedParams : SuggestedParams }.

Record AssetDestroyFields :=
  { ads_sender : AddressLike; ads_assetIndex : Z;
    ads_suggestedParams : SuggestedParams }.

Inductive OnApplicationComplete := NoOpOC.

Record AppCreateFields :=
  { apc_sender : AddressLike; apc_suggestedParams : SuggestedParams;
    apc_onComplete : OnApplicationComplete;
    apc_approvalProgram : bytes; apc_clearProgram : bytes;
    apc_numGlobalByteSlices : Z; apc_numGlobalInts : Z;
    apc_numLocalByteSlices : Z; apc_numLocalInts : Z }.

Record AppUpdateFields :=
  { apu_sender : AddressLike; apu_suggestedParams : SuggestedParams;
    apu_appIndex : Z; apu_approvalProgram : bytes; apu_clearProgram : bytes }.

(** The object of the opt-in, close-out, clear-state and delete builders. *)
Record AppSimpleFields :=
  { aps_sender : AddressLike; aps_suggestedParams : SuggestedParams;
    aps_appIndex : Z }.

Record AppNoOpFields :=
  { apn_sender : AddressLike; apn_suggestedParams : SuggestedParams;
    apn_appIndex : Z; apn_appArgs : list bytes;
    apn_accounts : option (list string);
    apn_foreignApps : option (list Z); apn_foreignAssets : option (list Z) }.

(** One constructor per SDK builder the scripts call. *)
Inductive TxnRequest :=
| MakePayment (f : PaymentFields)
| MakeAssetCreate (f : AssetCreateFields)
| MakeAssetConfig (f : AssetConfigFields)
| MakeAssetTransfer (f : AssetTransferFields)
| MakeAssetFreeze (f : AssetFreezeFields)
| MakeAssetDestroy (f : AssetDestroyFields)
| MakeApplicationCreate (f : AppCreateFields)
| MakeApplicationUpdate (f : AppUpdateFields)
| MakeApplicationOptIn (f : AppSimpleFields)
| MakeApplicationNoOp (f : AppNoOpFields)
| MakeApplicationDelete (f : AppSimpleFields)
| MakeApplicationCloseOut (f : AppSimpleFields)
| MakeApplicationClearState (f : AppSimpleFields).

(** A [Transaction] object: built from a request; [group] is the one
    property written after construction (by [assignGroupID]). *)
Record Transaction := { txn_fields : TxnRequest; txn_group : option bytes }.

(** Transactions are JavaScript objects: the scripts hold references. *)
Definition TxnRef := nat.

(** Result of the multisig and logic-signature signing helpers. *)
Record SignedBlob := { sb_txID : string; sb_blob : bytes }.

Record LogicSigAccount :=
  { lsig_program : bytes; lsig_args : list bytes; lsig_sig : option bytes }.

(** The pending-transaction record returned by the confirmation wait;
    only the properties the scripts read. *)
Record Confirmation :=
  { confirmedRound : option Z;
    assetIndex : option Z;
    applicationIndex : option Z }.

Record SubmitResponse := { txId : string }.

Record CompileResponse := { compile_hash : string; compile_result : string }.

(** Application state as algod reports it. *)
Record TealValue := { tv_type : Z; tv_bytes : string; tv_uint : Z }.
Record StateItem := { si_key : string; si_value : TealValue }.

Record ApplicationParams := { global_state : option (list StateItem) }.
Record Application := { app_id : Z; app_params : ApplicationParams }.

Record AppLocalState := { als_id : Z; als_key_value : option (list StateItem) }.
Record AssetHolding := { ah_asset_id : Z; ah_amount : Z }.

Record AccountInfo :=
  { ai_amount : Z; ai_status : string;
    ai_assets : option (list AssetHolding);
    ai_created_apps : option (list Application);
    ai_apps_local_state : option (list AppLocalState) }.

(** A decoded state value: text for byte slices, the number otherwise. *)
Inductive StateVal :=
| SVText (s : string)
| SVUint (n : Z).

(** ABI material for the composer example. *)
Inductive ABIValue :=
| AbiString (s : string)
| AbiUint (n : Z)
| AbiBool (b : bool)
| AbiBytes (b : bytes).

Record ABIArgSpec := { arg_type : string; arg_name : string }.
Record ABIMethodParams :=
  { am_name : string; am_args : list ABIArgSpec; am_returns : string }.
Record ABIContractParams :=
  { ac_name : string; ac_methods : list ABIMethodParams }.

Inductive TransactionSigner := BasicAccountSigner (a : Account).

Record MethodCall :=
  { mc_appID : Z; mc_method : ABIMethodParams; mc_methodArgs : list ABIValue;
    mc_sender : AddressLike; mc_suggestedParams : SuggestedParams;
    mc_signer : TransactionSigner }.

Record ABIResult := { ar_txID : string; ar_returnValue : option ABIValue }.
Record ExecResult :=
  { ex_confirmedRound : Z; ex_txIDs : list string;
    ex_methodResults : list ABIResult }.

(** What is sent with [sendRawTransaction]: one blob or an array. *)
Inductive RawPayload :=
| OneBlob (b : bytes)
| ManyBlobs (bs : list bytes).

(** ** The platform: SDK, runtime and node

    None of this is code of the repository.  Pure SDK functions are
    functions; whatever depends on the node or on entropy threads the
    hidden state [Remote].  A function that may throw returns a
    [Completion]. *)
Class Platform := {
  Remote : Type;
  (* accounts *)
  sdk_generateAccount : Remote -> Account * Remote;
  sdk_secretKeyToMnemonic : bytes -> Completion string;
  sdk_mnemonicToSecretKey : string -> Completion Account;
  sdk_multisigAddress : MultisigMetadata -> Completion Address;
  sdk_addressToString : Address -> string;
  (* transactions *)
  sdk_makeTxn : TxnRequest -> Completion unit;
  sdk_computeGroupID : list Transaction -> Completion bytes;
  sdk_signTxn : Transaction -> bytes -> Completion bytes;
  sdk_signMultisigTransaction :
    Transaction -> MultisigMetadata -> bytes -> Completion SignedBlob;
  sdk_appendSignMultisigTransaction :
    bytes -> MultisigMetadata -> bytes -> Completion SignedBlob;
  (* logic signatures *)
  sdk_checkLogicSig : bytes -> list bytes -> Completion unit;
  sdk_logicSigAddress : LogicSigAccount -> Completion Address;
  sdk_logicSigSign : LogicSigAccount -> bytes -> Completion bytes;
  sdk_signLogicSigTransaction :
    Transaction -> LogicSigAccount -> Completion SignedBlob;
  (* ABI *)
  sdk_checkABIContract : ABIContractParams -> Completion unit;
  sdk_getMethodByName :
    ABIContractParams -> string -> Completion ABIMethodParams;
  sdk_checkMethodCall : MethodCall -> Completion unit;
  (* runtime *)
  TextEncoder_encode : string -> bytes;
  Buffer_from_base64 : string -> bytes;
  Buffer_toString : bytes -> string;
  (* algod *)
  net_accountInformation :
    AlgodClient -> string -> Remote -> Completion AccountInfo * Remote;
  net_getTransactionParams :
    AlgodClient -> Remote -> Completion SuggestedParams * Remote;
  net_sendRawTransaction :
    AlgodClient -> RawPayload -> Remote -> Completion SubmitResponse * Remote;
  net_waitForConfirmation :
    AlgodClient -> string -> Z -> Remote -> Completion Confirmation * Remote;
  net_compile :
    AlgodClient -> string -> Remote -> Completion CompileResponse * Remote;
  net_getApplicationByID :
    AlgodClient -> Z -> Remote -> Completion Application * Remote;
  net_execute :
    AlgodClient -> list MethodCall -> Z -> Remote ->
    Completion ExecResult * Remote
}.

(** ** Ghost trace of platform calls *)

Inductive Call :=
| CGenerateAccount
| CSecretKeyToMnemonic (key : bytes)
| CMnemonicToSecretKey (mnemonic : string)
| CMultisigAddress (p : MultisigMetadata)
| CMakeTxn (req : TxnRequest)
| CAssignGroupID (txns : list TxnRef)
| CSignTxn (txn : TxnRef) (obj : option Transaction) (key : bytes)
| CSignMultisigTransaction
    (txn : TxnRef) (obj : option Transaction) (p : MultisigMetadata)
    (key : bytes)
| CAppendSignMultisigTransaction
    (blob : bytes) (p : MultisigMetadata) (key : bytes)
| CNewLogicSigAccount (program : bytes) (args : list bytes)
| CLogicSigAddress (l : LogicSigAccount)
| CLogicSigSign (l : LogicSigAccount) (key : bytes)
| CSignLogicSigTransaction
    (txn : TxnRef) (obj : option Transaction) (l : LogicSigAccount)
| CNewABIContract (p : ABIContractParams)
| CGetMethodByName (c : ABIContractParams) (name : string)
| CAddMethodCall (mc : MethodCall)
| CAccountInformation (client : AlgodClient) (address : string)
| CGetTransactionParams (client : AlgodClient)
| CSendRawTransaction (client : AlgodClient) (payload : RawPayload)
| CWaitForConfirmation (client : AlgodClient) (id : string) (waitRounds : Z)
| CCompile (client : AlgodClient) (source : string)
| CGetApplicationByID (client : AlgodClient) (appId : Z)
| CExecute (client : AlgodClient) (calls : list MethodCall) (waitRounds : Z).

(** What a call gave back, as far as the statements below need it. *)
Inductive Payload :=
| PUnit
| PAccount (a : Account)
| PAddress (a : Address)
| PString (s : string)
| PBytes (b : bytes)
| PSigned (b : SignedBlob)
| PParams (p : SuggestedParams)
| PSubmitted (r : SubmitResponse)
| PConfirmation (c : Confirmation)
| PCompiled (r : CompileResponse)
| PAccountInfo (i : AccountInfo)
| PApplication (a : Application)
| PMethod (m : ABIMethodParams)
| PExec (r : ExecResult).

Inductive Reply :=
| Gave (p : Payload)
| Threw (e : JsError).

Record Step := { step_call : Call; step_reply : Reply }.

Definition reply_of {A} (show : A -> Payload) (r : Completion A) : Reply :=
  match r with
  | Normal a => Gave (show a)
  | Throw e => Threw e
  end.

(** ** Console *)

Inductive Shown :=
| ShStr (s : string)
| ShNum (n : Z)
| ShOptNum (n : option Z)
| ShBool (b : bool)
| ShState (m : gmap string StateVal)
| ShAbi (v : option ABIValue)
| ShOptStr (s : option string).

Inductive LogLine :=
| ConsoleLog (args : list Shown)
| ConsoleError (context : string) (e : JsError).

(** ** The monad of script evaluation *)

Section Monad.
Context `{Platform}.

Record World :=
  { remote : Remote;
    heap : list Transaction;
    console : list LogLine;
    trace : list Step }.

Definition Js (A : Type) : Type := World -> Completion A * World.

Definition Js_pure {A} (a : A) : Js A := fun w => (Normal a, w).

Definition Js_then {A B} (f : A -> Js B) (m : Js A) : Js B := fun w =>
  match m w with
  | (Normal a, w') => f a w'
  | (Throw e, w') => (Throw e, w')
  end.

(** [throw e] *)
Definition throw {A} (e : JsError) : Js A := fun w => (Throw e, w).

(** [try { body } catch (error) { handler }] *)
Definition try_catch {A} (body : Js A) (handler : JsError -> Js A) : Js A :=
  fun w =>
    match body w with
    | (Normal a, w') => (Normal a, w')
    | (Throw e, w') => handler e w'
    end.

Definition console_log (args : list Shown) : Js unit := fun w =>
  (Normal tt,
   {| remote := remote w; heap := heap w;
      console := console w ++ [ConsoleLog args]; trace := trace w |}).

Definition console_error (context : string) (e : JsError) : Js unit :=
  fun w =>
    (Normal tt,
     {| remote := remote w; heap := heap w;
        console := console w ++ [ConsoleError context e];
        trace := trace w |}).

(** A call into the platform: run it on the hidden state and note it. *)
Definition external {A} (c : Call) (show : A -> Payload)
    (f : Remote -> Completion A * Remote) : Js A := fun w =>
  let '(r, s) := f (remote w) in
  (r, {| remote := s; heap := heap w; console := console w;
         trace := trace w ++
                  [{| step_call := c; step_reply := reply_of show r |}] |}).

Definition pure_call {A} (c : Call) (show : A -> Payload)
    (r : Completion A) : Js A :=
  external c show (fun s => (r, s)).

(** Object store for transactions. *)
Definition alloc (t : Transaction) : Js TxnRef := fun w =>
  (Normal (length (heap w)),
   {| remote := remote w; heap := heap w ++ [t];
      console := console w; trace := trace w |}).

Definition deref (r : TxnRef) : Js (option Transaction) := fun w =>
  (Normal (heap w !! r), w).

Definition set_group (gid : bytes) (t : Transaction) : Transaction :=
  {| txn_fields := txn_fields t; txn_group := Some gid |}.

Definition write_group (gid : bytes) (r : TxnRef) : Js unit := fun w =>
  (Normal tt,
   {| remote := remote w; heap := alter (set_group gid) r (heap w);
      console := console w; trace := trace w |}).
End Monad.

#[export] Instance Js_ret `{Platform} : MRet Js := @Js_pure _.
#[export] Instance Js_bind `{Platform} : MBind Js := @Js_then _.

(** The error a member access on [undefined] raises. *)
Definition TypeError (what : string) : JsError :=
  {| err_name := "TypeError"; err_message := what |}.

(** ** The SDK entry points as monadic primitives *)

Section Primitives.
Context `{Platform}.

Definition algosdk_generateAccount : Js Account :=
  external CGenerateAccount PAccount
    (fun s => let '(a, s') := sdk_generateAccount s in (Normal a, s')).

Definition algosdk_secretKeyToMnemonic (key : bytes) : Js string :=
  pure_call (CSecretKeyToMnemonic key) PString (sdk_secretKeyToMnemonic key).

Definition algosdk_mnemonicToSecretKey (mnemonic : string) : Js Account :=
  pure_call (CMnemonicToSecretKey mnemonic) PAccount
    (sdk_mnemonicToSecretKey mnemonic).

Definition algosdk_multisigAddress (p : MultisigMetadata) : Js Address :=
  pure_call (CMultisigAddress p) PAddress (sdk_multisigAddress p).

(** Every [make...Txn...FromObject] builder: the SDK checks the
    request, then a fresh [Transaction] object exists. *)
Definition makeTxn (req : TxnRequest) : Js TxnRef :=
  _ ← pure_call (CMakeTxn req) (fun _ => PUnit) (sdk_makeTxn req);
  alloc {| txn_fields := req; txn_group := None |}.

(** [txn.signTxn(sk)] reads the object as it is when signing. *)
Definition signTxn (txn : TxnRef) (key : bytes) : Js bytes :=
  obj ← deref txn;
  pure_call (CSignTxn txn obj key) PBytes
    (match obj with
     | Some t => sdk_signTxn t key
     | None => Throw (TypeError "signTxn")
     end).

Definition algosdk_signMultisigTransaction
    (txn : TxnRef) (p : MultisigMetadata) (key : bytes) : Js SignedBlob :=
  obj ← deref txn;
  pure_call (CSignMultisigTransaction txn obj p key) PSigned
    (match obj with
     | Some t => sdk_signMultisigTransaction t p key
     | None => Throw (TypeError "signMultisigTransaction")
     end).

Definition algosdk_appendSignMultisigTransaction
    (blob : bytes) (p : MultisigMetadata) (key : bytes) : Js SignedBlob :=
  pure_call (CAppendSignMultisigTransaction blob p key) PSigned
    (sdk_appendSignMultisigTransaction blob p key).

Definition algosdk_signLogicSigTransaction
    (txn : TxnRef) (l : LogicSigAccount) : Js SignedBlob :=
  obj ← deref txn;
  pure_call (CSignLogicSigTransaction txn obj l) PSigned
    (match obj with
     | Some t => sdk_signLogicSigTransaction t l
     | None => Throw (TypeError "signLogicSigTransaction")
     end).

(** [new algosdk.LogicSigAccount(program, args)] *)
Definition new_LogicSigAccount (program : bytes) (args : list bytes)
    : Js LogicSigAccount :=
  _ ← pure_call (CNewLogicSigAccount program args) (fun _ => PUnit)
        (sdk_checkLogicSig program args);
  mret {| lsig_program := program; lsig_args := args; lsig_sig := None |}.

(** [logicSigAccount.address()] *)
Definition lsig_address (l : LogicSigAccount) : Js Address :=
  pure_call (CLogicSigAddress l) PAddress (sdk_logicSigAddress l).

(** [logicSigAccount.sign(sk)] stores the signature in the object. *)
Definition lsig_sign (l : LogicSigAccount) (key : bytes)
    : Js LogicSigAccount :=
  sig ← pure_call (CLogicSigSign l key) PBytes (sdk_logicSigSign l key);
  mret {| lsig_program := lsig_program l; lsig_args := lsig_args l;
          lsig_sig := Some sig |}.

(** [new algosdk.ABIContract(params)] *)
Definition new_ABIContract (p : ABIContractParams) : Js ABIContractParams :=
  _ ← pure_call (CNewABIContract p) (fun _ => PUnit)
        (sdk_checkABIContract p);
  mret p.

Definition contract_getMethodByName (c : ABIContractParams) (name : string)
    : Js ABIMethodParams :=
  pure_call (CGetMethodByName c name) PMethod (sdk_getMethodByName c name).

(** [atc.addMethodCall(params)]: the composer is the list of calls. *)
Definition atc_addMethodCall (atc : list MethodCall) (mc : MethodCall)
    : Js (list MethodCall) :=
  _ ← pure_call (CAddMethodCall mc) (fun _ => PUnit)
        (sdk_checkMethodCall mc);
  mret (atc ++ [mc]).

Definition atc_execute
    (atc : list MethodCall) (client : AlgodClient) (waitRounds : Z)
    : Js ExecResult :=
  external (CExecute client atc waitRounds) PExec
    (net_execute client atc waitRounds).

(** The algod requests, each followed by [.do()]. *)
Definition accountInformation (client : AlgodClient) (address : string)
    : Js AccountInfo :=
  external (CAccountInformation client address) PAccountInfo
    (net_accountInformation client address).

Definition getTransactionParams (client : AlgodClient)
    : Js SuggestedParams :=
  external (CGetTransactionParams client) PParams
    (net_getTransactionParams client).

Definition sendRawTransaction (client : AlgodClient) (payload : RawPayload)
    : Js SubmitResponse :=
  external (CSendRawTransaction client payload) PSubmitted
    (net_sendRawTransaction client payload).

Definition algosdk_waitForConfirmation
    (client : AlgodClient) (id : string) (waitRounds : Z)
    : Js Confirmation :=
  external (CWaitForConfirmation client id waitRounds) PConfirmation
    (net_waitForConfirmation client id waitRounds).

Definition compile (client : AlgodClient) (source : string)
    : Js CompileResponse :=
  external (CCompile client source) PCompiled (net_compile client source).

Definition getApplicationByID (client : AlgodClient) (appId : Z)
    : Js Application :=
  external (CGetApplicationByID client appId) PApplication
    (net_getApplicationByID client appId).

(** Modelled from the spec: [algosdk.assignGroupID] is SDK code, not
    under src/.  The spec: "Assigning a group identifier to a set of
    prepared requests must make every request in the set carry the same
    identifier and must fail (or be meaningless) for an empty set."
    One identifier is computed from the objects as they are (the
    computation may throw) and written into each of them in place. *)
Definition algosdk_assignGroupID (txns : list TxnRef) : Js unit :=
  objs ← mapM deref txns;
  gid ← pure_call (CAssignGroupID txns) PBytes
          (sdk_computeGroupID (omap id objs));
  _ ← mapM (write_group gid) txns;
  mret tt.

(** [buf.toString()] after [Buffer.from(s, 'base64')] *)
Definition base64_text (s : string) : string :=
  Buffer_toString (Buffer_from_base64 s).
End Primitives.

(** ** Small pieces of JavaScript the scripts rely on *)

(** Truthiness of a string: only the empty string is falsy. *)
Definition truthy (s : string) : bool := negb (String.eqb s "").

Definition newline : string := String (Ascii.ascii_of_nat 10) EmptyString.

(** [new algosdk.Algodv2(token, server, port)] *)
Definition new_Algodv2 (token server port : string) : AlgodClient :=
  {| algod_token := token; algod_server := server; algod_port := port |}.

(** [new algosdk.Indexer(token, server, port)] *)
Definition new_Indexer (token server port : string) : IndexerClient :=
  {| indexer_token := token; indexer_server := server;
     indexer_port := port |}.

(** [o[key] = v] on an object literal, for a primitive [v]: an own
    property is written, except for the key [__proto__], which is the
    accessor of [Object.prototype] and ignores primitives. *)
Definition js_assign (key : string) (v : StateVal)
    (o : gmap string StateVal) : gmap string StateVal :=
  if bool_decide (key = "__proto__") then o else <[key := v]> o.

Section Helpers.
Context `{Platform}.

(** [typeof x === 'string' ? x : x.addr.toString()] *)
Definition addressOf (p : Party) : string :=
  match p with
  | PartyStr s => s
  | PartyAcct a => sdk_addressToString (addr a)
  end.

(** [x ? (typeof x === 'string' ? x : x.addr.toString()) : undefined] *)
Definition optionalAddressOf (p : option Party) : option string :=
  match p with
  | None => None
  | Some (PartyStr s) => if truthy s then Some s else None
  | Some (PartyAcct a) => Some (sdk_addressToString (addr a))
  end.

(** [array.map((x, index) => ...)] with an effectful callback *)
Fixpoint mapM_indexed {A B} (f : A -> nat -> Js B) (index : nat)
    (l : list A) : Js (list B) :=
  match l with
  | [] => mret []
  | x :: l =>
      y ← f x index;
      ys ← mapM_indexed f (S index) l;
      mret (y :: ys)
  end.

(** [for (...) acc = step(acc, x)] with an effectful body *)
Fixpoint for_each_acc {A B} (step : B -> A -> Js B) (acc : B)
    (l : list A) : Js B :=
  match l with
  | [] => mret acc
  | x :: l => acc' ← step acc x; for_each_acc step acc' l
  end.

(** The body shared by the two state readers' [for ... of] loops:
    decode the key, pick the value by its type tag, assign. *)
Definition decode_into (state : gmap string StateVal) (stateItem : StateItem)
    : gmap string StateVal :=
  let key := base64_text (si_key stateItem) in
  let value :=
    if bool_decide (tv_type (si_value stateItem) = 1%Z)
    then SVText (base64_text (tv_bytes (si_value stateItem)))
    else SVUint (tv_uint (si_value stateItem)) in
  js_assign key value state.
End Helpers.

(** ** Account management examples (src/unnamed/part_000) *)

Module AccountManagement.
Section Code.
Context `{Platform}.

Record Generated := { account : Account; mnemonic : string }.

Record MultisigAccount :=
  { multisigParams : MultisigMetadata; multisigAddress : Address }.

Definition generateAccount : Js Generated :=
  account ← algosdk_generateAccount;
  console_log [ShStr "Generated Account Address:";
               ShStr (sdk_addressToString (addr account))];;
  mnemonic ← algosdk_secretKeyToMnemonic (sk account);
  console_log [ShStr "Account Mnemonic:"; ShStr mnemonic];;
  mret {| account := account; mnemonic := mnemonic |}.

Definition recoverAccount (mnemonic : string) : Js Account :=
  recoveredAccount ← algosdk_mnemonicToSecretKey mnemonic;
  console_log [ShStr "Recovered Account Address:";
               ShStr (sdk_addressToString (addr recoveredAccount))];;
  mret recoveredAccount.

Definition createMultisigAccount
    (addresses : list AddressLike) (threshold : Z) : Js MultisigAccount :=
  let multisigParams :=
    {| msig_version := 1; msig_threshold := threshold;
       msig_addrs := addresses |} in
  multisigAddress ← algosdk_multisigAddress multisigParams;
  console_log [ShStr "Multisig Address:";
               ShStr (sdk_addressToString multisigAddress)];;
  mret {| multisigParams := multisigParams;
          multisigAddress := multisigAddress |}.

Definition checkAccountInfo (address : string) : Js AccountInfo :=
  try_catch
    (let algodToken := "" in
     let algodServer := "https://testnet-api.algonode.cloud" in
     let algodPort := "" in
     let algodClient := new_Algodv2 algodToken algodServer algodPort in
     accountInfo ← accountInformation algodClient address;
     console_log [ShStr "Account Balance:"; ShNum (ai_amount accountInfo);
                  ShStr "microAlgos"];;
     console_log [ShStr "Account Status:"; ShStr (ai_status accountInfo)];;
     match ai_assets accountInfo with
     | Some assets =>
         if bool_decide (0 < length assets) then
           console_log [ShStr "Account Assets:"];;
           mapM (fun asset =>
                   console_log
                     [ShStr ("- Asset ID: " +:+ pretty (ah_asset_id asset)
                             +:+ ", Amount: " +:+ pretty (ah_amount asset))])
                assets;;
           mret tt
         else mret tt
     | None => mret tt
     end;;
     match ai_created_apps accountInfo with
     | Some apps =>
         if bool_decide (0 < length apps) then
           console_log [ShStr "Created Applications:";
                        ShNum (Z.of_nat (length apps))]
         else mret tt
     | None => mret tt
     end;;
     mret accountInfo)
    (fun error =>
       console_error "Error checking account info:" error;;
       throw error).

Definition rekeyAccount (account authAccount : Account) : Js Confirmation :=
  try_catch
    (let algodToken := "" in
     let algodServer := "https://testnet-api.algonode.cloud" in
     let algodPort := "" in
     let algodClient := new_Algodv2 algodToken algodServer algodPort in
     suggestedParams ← getTransactionParams algodClient;
     txn ← makeTxn (MakePayment
       {| pay_sender := AddrObj (addr account);
          pay_receiver := AddrObj (addr account);
          pay_amount := 0;
          pay_note := None; pay_lease := None;
          pay_rekeyTo := Some (AddrObj (addr authAccount));
          pay_suggestedParams := suggestedParams |});
     signedTxn ← signTxn txn (sk account);
     submitted ← sendRawTransaction algodClient (OneBlob signedTxn);
     console_log [ShStr "Rekey Transaction ID:"; ShStr (txId submitted)];;
     confirmedTxn ←
       algosdk_waitForConfirmation algodClient (txId submitted) 5;
     console_log [ShStr "Rekey transaction confirmed in round:";
                  ShOptNum (confirmedRound confirmedTxn)];;
     console_log
       [ShStr ("Account " +:+ sdk_addressToString (addr account)
               +:+ " has been rekeyed to "
               +:+ sdk_addressToString (addr authAccount))];;
     mret confirmedTxn)
    (fun error =>
       console_error "Error rekeying account:" error;;
       throw error).

Definition sendWithRekeyedAccount
    (originalAccount authAccount : Account) (receiverAddress : string)
    (amount : Z) : Js Confirmation :=
  try_catch
    (let algodToken := "" in
     let algodServer := "https://testnet-api.algonode.cloud" in
     let algodPort := "" in
     let algodClient := new_Algodv2 algodToken algodServer algodPort in
     suggestedParams ← getTransactionParams algodClient;
     txn ← makeTxn (MakePayment
       {| pay_sender := AddrObj (addr originalAccount);
          pay_receiver := AddrStr receiverAddress;
          pay_amount := amount;
          pay_note := None; pay_lease := None; pay_rekeyTo := None;
          pay_suggestedParams := suggestedParams |});
     signedTxn ← signTxn txn (sk authAccount);
     submitted ← sendRawTransaction algodClient (OneBlob signedTxn);
     console_log [ShStr "Transaction ID:"; ShStr (txId submitted)];;
     confirmedTxn ←
       algosdk_waitForConfirmation algodClient (txId submitted) 5;
     console_log [ShStr "Transaction confirmed in round:";
                  ShOptNum (confirmedRound confirmedTxn)];;
     mret confirmedTxn)
    (fun error =>
       console_error "Error sending with rekeyed account:" error;;
       throw error).

(** The driver: everything that needs funds is commented out in the
    source, so it generates, recovers and derives a multisig address. *)
Definition runAccountExamples : Js unit :=
  try_catch
    (console_log [ShStr "===== ALGORAND ACCOUNT MANAGEMENT EXAMPLES ====="];;
     console_log [ShStr (newline +:+ "----- Generating Accounts -----")];;
     g1 ← generateAccount;
     g2 ← generateAccount;
     g3 ← generateAccount;
     console_log [ShStr (newline +:+ "----- Recovering Account -----")];;
     recoveredAccount ← recoverAccount (mnemonic g1);
     console_log
       [ShStr "Account recovery successful:";
        ShBool (bool_decide
                  (sdk_addressToString (addr (account g1))
                   = sdk_addressToString (addr recoveredAccount)))];;
     console_log
       [ShStr (newline +:+ "----- Creating Multisig Account -----")];;
     _ ← createMultisigAccount
           [AddrObj (addr (account g1)); AddrObj (addr (account g2));
            AddrObj (addr (account g3))] 2;
     console_log
       [ShStr (newline +:+ "The following examples require funded accounts on TestNet and won't execute successfully without them.")];;
     console_log
       [ShStr "To fund test accounts, use the Algorand TestNet faucet: https://bank.testnet.algorand.network/"];;
     console_log
       [ShStr (newline +:+ "===== ACCOUNT EXAMPLES COMPLETE =====")])
    (fun error => console_error "Error running account examples:" error).
End Code.
End AccountManagement.


(** ** Transaction operations (src/transaction-operations.js) *)

Module TransactionOperations.
Section Code.
Context `{Platform}.

Definition getAlgodClient : Js AlgodClient :=
  let algodToken := "" in
  let algodServer := "https://testnet-api.algonode.cloud" in
  let algodPort := "" in
  let algodClient := new_Algodv2 algodToken algodServer algodPort in
  mret algodClient.

(** [note = ""] is the default of the fourth parameter. *)
Definition sendPayment (sender : Account) (receiver : Party) (amount : Z)
    (note : option string) : Js Confirmation :=
  let note := default "" note in
  try_catch
    (algodClient ← getAlgodClient;
     suggestedParams ← getTransactionParams algodClient;
     let receiverAddress := addressOf receiver in
     txn ← makeTxn (MakePayment
       {| pay_sender := AddrObj (addr sender);
          pay_receiver := AddrStr receiverAddress;
          pay_amount := amount;
          pay_note :=
            if truthy note then Some (TextEncoder_encode note) else None;
          pay_lease := None; pay_rekeyTo := None;
          pay_suggestedParams := suggestedParams |});
     signedTxn ← signTxn txn (sk sender);
     submitted ← sendRawTransaction algodClient (OneBlob signedTxn);
     console_log [ShStr "Payment Transaction ID:"; ShStr (txId submitted)];;
     confirmedTxn ←
       algosdk_waitForConfirmation algodClient (txId submitted) 5;
     console_log [ShStr "Transaction confirmed in round:";
                  ShOptNum (confirmedRound confirmedTxn)];;
     mret confirmedTxn)
    (fun error => console_error "Error sending payment:" error;; throw error).

(** [url = ""] and [metadataHash = undefined] are parameter defaults.
    The function returns the asset id read off the confirmation. *)
Definition createAsset (creator : Account) (assetName unitName : string)
    (totalIssuance decimals : Z) (url : option string)
    (metadataHash : option bytes) : Js (option Z) :=
  let url := default "" url in
  try_catch
    (algodClient ← getAlgodClient;
     suggestedParams ← getTransactionParams algodClient;
     txn ← makeTxn (MakeAssetCreate
       {| acr_sender := AddrObj (addr creator);
          acr_total := totalIssuance;
          acr_decimals := decimals;
          acr_defaultFrozen := false;
          acr_manager := AddrObj (addr creator);
          acr_reserve := AddrObj (addr creator);
          acr_freeze := AddrObj (addr creator);
          acr_clawback := AddrObj (addr creator);
          acr_unitName := unitName;
          acr_assetName := assetName;
          acr_assetURL := url;
          acr_assetMetadataHash := metadataHash;
          acr_suggestedParams := suggestedParams |});
     signedTxn ← signTxn txn (sk creator);
     submitted ← sendRawTransaction algodClient (OneBlob signedTxn);
     console_log [ShStr "Asset Creation Transaction ID:";
                  ShStr (txId submitted)];;
     confirmedTxn ←
       algosdk_waitForConfirmation algodClient (txId submitted) 5;
     console_log [ShStr "Asset created in round:";
                  ShOptNum (confirmedRound confirmedTxn)];;
     let assetId := assetIndex confirmedTxn in
     console_log [ShStr "Asset ID:"; ShOptNum assetId];;
     mret assetId)
    (fun error => console_error "Error creating asset:" error;; throw error).

Definition configureAsset (manager : Account) (assetId : Z)
    (newManager newReserve newFreeze newClawback : option Party)
    : Js Confirmation :=
  try_catch
    (algodClient ← getAlgodClient;
     suggestedParams ← getTransactionParams algodClient;
     let managerAddr := optionalAddressOf newManager in
     let reserveAddr := optionalAddressOf newReserve in
     let freezeAddr := optionalAddressOf newFreeze in
     let clawbackAddr := optionalAddressOf newClawback in
     txn ← makeTxn (MakeAssetConfig
       {| acf_sender := AddrObj (addr manager);
          acf_assetIndex := assetId;
          acf_manager := managerAddr;
          acf_reserve := reserveAddr;
          acf_freeze := freezeAddr;
          acf_clawback := clawbackAddr;
          acf_strictEmptyAddressChecking := false;
          acf_suggestedParams := suggestedParams |});
     signedTxn ← signTxn txn (sk manager);
     submitted ← sendRawTransaction algodClient (OneBlob signedTxn);
     console_log [ShStr "Asset Configuration Transaction ID:";
                  ShStr (txId submitted)];;
     confirmedTxn ←
       algosdk_waitForConfirmation algodClient (txId submitted) 5;
     console_log [ShStr "Asset configuration updated in round:";
                  ShOptNum (confirmedRound confirmedTxn)];;
     mret confirmedTxn)
    (fun error => console_error "Error configuring asset:" error;; throw error).

Definition optInToAsset (account : Account) (assetId : Z) : Js Confirmation :=
  try_catch
    (algodClient ← getAlgodClient;
     suggestedParams ← getTransactionParams algodClient;
     txn ← makeTxn (MakeAssetTransfer
       {| axf_sender := AddrObj (addr account);
          axf_receiver := AddrObj (addr account);
          axf_assetSender := None;
          axf_amount := 0;
          axf_assetIndex := assetId;
          axf_suggestedParams := suggestedParams |});
     signedTxn ← signTxn txn (sk account);
     submitted ← sendRawTransaction algodClient (OneBlob signedTxn);
     console_log [ShStr "Opt-in Transaction ID:"; ShStr (txId submitted)];;
     confirmedTxn ←
       algosdk_waitForConfirmation algodClient (txId submitted) 5;
     console_log [ShStr "Opt-in confirmed in round:";
                  ShOptNum (confirmedRound confirmedTxn)];;
     mret confirmedTxn)
    (fun error =>
       console_error "Error opting in to asset:" error;; throw error).

Definition transferAsset (sender : Account) (receiver : Party)
    (assetId amount : Z) : Js Confirmation :=
  try_catch
    (algodClient ← getAlgodClient;
     suggestedParams ← getTransactionParams algodClient;
     let receiverAddress := addressOf receiver in
     txn ← makeTxn (MakeAssetTransfer
       {| axf_sender := AddrObj (addr sender);
          axf_receiver := AddrStr receiverAddress;
          axf_assetSender := None;
          axf_amount := amount;
          axf_assetIndex := assetId;
          axf_suggestedParams := suggestedParams |});
     signedTxn ← signTxn txn (sk sender);
     submitted ← sendRawTransaction algodClient (OneBlob signedTxn);
     console_log [ShStr "Asset Transfer Transaction ID:";
                  ShStr (txId submitted)];;
     confirmedTxn ←
       algosdk_waitForConfirmation algodClient (txId submitted) 5;
     console_log [ShStr "Asset transfer confirmed in round:";
                  ShOptNum (confirmedRound confirmedTxn)];;
     mret confirmedTxn)
    (fun error =>
       console_error "Error transferring asset:" error;; throw error).

Definition freezeAsset (freezeManager : Account) (accountToFreeze : Party)
    (assetId : Z) (freeze : bool) : Js Confirmation :=
  try_catch
    (algodClient ← getAlgodClient;
     suggestedParams ← getTransactionParams algodClient;
     let accountAddress := addressOf accountToFreeze in
     txn ← makeTxn (MakeAssetFreeze
       {| afz_sender := AddrObj (addr freezeManager);
          afz_freezeTarget := accountAddress;
          afz_assetIndex := assetId;
          afz_frozen := freeze;
          afz_suggestedParams := suggestedParams |});
     signedTxn ← signTxn txn (sk freezeManager);
     submitted ← sendRawTransaction algodClient (OneBlob signedTxn);
     console_log [ShStr "Asset Freeze Transaction ID:";
                  ShStr (txId submitted)];;
     confirmedTxn ←
       algosdk_waitForConfirmation algodClient (txId submitted) 5;
     console_log [ShStr "Asset freeze operation confirmed in round:";
                  ShOptNum (confirmedRound confirmedTxn)];;
     mret confirmedTxn)
    (fun error => console_error "Error freezing asset:" error;; throw error).

Definition revokeAsset (clawbackManager : Account) (revokeFrom revokeTo : Party)
    (assetId amount : Z) : Js Confirmation :=
  try_catch
    (algodClient ← getAlgodClient;
     suggestedParams ← getTransactionParams algodClient;
     let revokeFromAddress := addressOf revokeFrom in
     let revokeToAddress := addressOf revokeTo in
     txn ← makeTxn (MakeAssetTransfer
       {| axf_sender := AddrObj (addr clawbackManager);
          axf_receiver := AddrStr revokeToAddress;
          axf_assetSender := Some revokeFromAddress;
          axf_amount := amount;
          axf_assetIndex := assetId;
          axf_suggestedParams := suggestedParams |});
     signedTxn ← signTxn txn (sk clawbackManager);
     submitted ← sendRawTransaction algodClient (OneBlob signedTxn);
     console_log [ShStr "Asset Revoke Transaction ID:";
                  ShStr (txId submitted)];;
     confirmedTxn ←
       algosdk_waitForConfirmation algodClient (txId submitted) 5;
     console_log [ShStr "Asset revoke operation confirmed in round:";
                  ShOptNum (confirmedRound confirmedTxn)];;
     mret confirmedTxn)
    (fun error => console_error "Error revoking asset:" error;; throw error).

Definition destroyAsset (manager : Account) (assetId : Z) : Js Confirmation :=
  try_catch
    (algodClient ← getAlgodClient;
     suggestedParams ← getTransactionParams algodClient;
     txn ← makeTxn (MakeAssetDestroy
       {| ads_sender := AddrObj (addr manager);
          ads_assetIndex := assetId;
          ads_suggestedParams := suggestedParams |});
     signedTxn ← signTxn txn (sk manager);
     submitted ← sendRawTransaction algodClient (OneBlob signedTxn);
     console_log [ShStr "Asset Destroy Transaction ID:";
                  ShStr (txId submitted)];;
     confirmedTxn ←
       algosdk_waitForConfirmation algodClient (txId submitted) 5;
     console_log [ShStr "Asset destroyed in round:";
                  ShOptNum (confirmedRound confirmedTxn)];;
     mret confirmedTxn)
    (fun error => console_error "Error destroying asset:" error;; throw error).

Definition sendAtomicTransactions (sender : Account) (receivers : list Party)
    (amount : Z) : Js Confirmation :=
  try_catch
    (algodClient ← getAlgodClient;
     suggestedParams ← getTransactionParams algodClient;
     txns ← mapM_indexed (fun receiver index =>
       makeTxn (MakePayment
         {| pay_sender := AddrObj (addr sender);
            pay_receiver :=
              match receiver with
              | PartyStr s => AddrStr s
              | PartyAcct a => AddrObj (addr a)
              end;
            pay_amount := amount;
            pay_note :=
              Some (TextEncoder_encode
                      ("Payment " +:+ pretty (index + 1)%nat
                       +:+ " in atomic group"));
            pay_lease := None; pay_rekeyTo := None;
            pay_suggestedParams := suggestedParams |})) 0 receivers;
     algosdk_assignGroupID txns;;
     signedTxns ← mapM (fun txn => signTxn txn (sk sender)) txns;
     submitted ← sendRawTransaction algodClient (ManyBlobs signedTxns);
     console_log [ShStr "Atomic Transaction Group ID:";
                  ShStr (txId submitted)];;
     confirmedTxn ←
       algosdk_waitForConfirmation algodClient (txId submitted) 5;
     console_log [ShStr "Atomic transactions confirmed in round:";
                  ShOptNum (confirmedRound confirmedTxn)];;
     mret confirmedTxn)
    (fun error =>
       console_error "Error sending atomic transactions:" error;;
       throw error).

Definition sendTransactionWithLease (sender : Account) (receiver : Party)
    (amount : Z) (lease : option bytes) : Js Confirmation :=
  try_catch
    (algodClient ← getAlgodClient;
     suggestedParams ← getTransactionParams algodClient;
     let receiverAddress := addressOf receiver in
     txn ← makeTxn (MakePayment
       {| pay_sender := AddrObj (addr sender);
          pay_receiver := AddrStr receiverAddress;
          pay_amount := amount;
          pay_note := None;
          pay_lease := lease;
          pay_rekeyTo := None;
          pay_suggestedParams := suggestedParams |});
     signedTxn ← signTxn txn (sk sender);
     submitted ← sendRawTransaction algodClient (OneBlob signedTxn);
     console_log [ShStr "Transaction with Lease ID:"; ShStr (txId submitted)];;
     confirmedTxn ←
       algosdk_waitForConfirmation algodClient (txId submitted) 5;
     console_log [ShStr "Transaction confirmed in round:";
                  ShOptNum (confirmedRound confirmedTxn)];;
     mret confirmedTxn)
    (fun error =>
       console_error "Error sending transaction with lease:" error;;
       throw error).

Definition runTransactionExamples : Js unit :=
  try_catch
    (console_log [ShStr "===== ALGORAND TRANSACTION EXAMPLES ====="];;
     account1 ← algosdk_generateAccount;
     account2 ← algosdk_generateAccount;
     account3 ← algosdk_generateAccount;
     console_log [ShStr "Account 1:";
                  ShStr (sdk_addressToString (addr account1))];;
     console_log [ShStr "Account 2:";
                  ShStr (sdk_addressToString (addr account2))];;
     console_log [ShStr "Account 3:";
                  ShStr (sdk_addressToString (addr account3))];;
     console_log
       [ShStr (newline +:+ "The following examples require funded accounts on TestNet and won't execute successfully without them.")];;
     console_log
       [ShStr "To fund test accounts, use the Algorand TestNet faucet: https://bank.testnet.algorand.network/"];;
     console_log
       [ShStr (newline +:+ "===== TRANSACTION EXAMPLES COMPLETE =====")])
    (fun error =>
       console_error "Error running transaction examples:" error).
End Code.
End TransactionOperations.


(** ** Smart contracts (src/smart-contracts.js) *)

(** An application argument: [string | Uint8Array]. *)
Inductive AppArg :=
| ArgStr (s : string)
| ArgBytes (b : bytes).

Module SmartContracts.
Section Code.
Context `{Platform}.

Definition getAlgodClient : Js AlgodClient :=
  let algodToken := "" in
  let algodServer := "https://testnet-api.algonode.cloud" in
  let algodPort := "" in
  let algodClient := new_Algodv2 algodToken algodServer algodPort in
  mret algodClient.

Definition compileProgram (programSource : string) : Js bytes :=
  try_catch
    (algodClient ← getAlgodClient;
     compiledProgram ← compile algodClient programSource;
     console_log [ShStr "Program compiled successfully"];;
     let programBytes :=
       Buffer_from_base64 (compile_result compiledProgram) in
     mret programBytes)
    (fun error => console_error "Error compiling program:" error;; throw error).

(** [args = []] is the parameter default. *)
Definition createLogicSignature (programSource : string)
    (args : option (list bytes)) : Js LogicSigAccount :=
  let args := default [] args in
  try_catch
    (programBytes ← compileProgram programSource;
     logicSigAccount ← new_LogicSigAccount programBytes args;
     address ← lsig_address logicSigAccount;
     console_log [ShStr "LogicSig Address:";
                  ShStr (sdk_addressToString address)];;
     mret logicSigAccount)
    (fun error =>
       console_error "Error creating logic signature:" error;; throw error).

Definition createDelegatedLogicSignature (programSource : string)
    (delegatingAccount : Account) (args : option (list bytes))
    : Js LogicSigAccount :=
  let args := default [] args in
  try_catch
    (programBytes ← compileProgram programSource;
     logicSigAccount ← new_LogicSigAccount programBytes args;
     logicSigAccount ← lsig_sign logicSigAccount (sk delegatingAccount);
     console_log [ShStr "Delegated LogicSig created for account:";
                  ShStr (sdk_addressToString (addr delegatingAccount))];;
     mret logicSigAccount)
    (fun error =>
       console_error "Error creating delegated logic signature:" error;;
       throw error).

Definition sendWithLogicSignature (logicSigAccount : LogicSigAccount)
    (receiver : Party) (amount : Z) : Js Confirmation :=
  try_catch
    (algodClient ← getAlgodClient;
     suggestedParams ← getTransactionParams algodClient;
     let receiverAddress := addressOf receiver in
     address ← lsig_address logicSigAccount;
     txn ← makeTxn (MakePayment
       {| pay_sender := AddrStr (sdk_addressToString address);
          pay_receiver := AddrStr receiverAddress;
          pay_amount := amount;
          pay_note := None; pay_lease := None; pay_rekeyTo := None;
          pay_suggestedParams := suggestedParams |});
     signedTxn ← algosdk_signLogicSigTransaction txn logicSigAccount;
     submitted ← sendRawTransaction algodClient (OneBlob (sb_blob signedTxn));
     console_log [ShStr "LogicSig Transaction ID:"; ShStr (txId submitted)];;
     confirmedTxn ←
       algosdk_waitForConfirmation algodClient (txId submitted) 5;
     console_log [ShStr "LogicSig transaction confirmed in round:";
                  ShOptNum (confirmedRound confirmedTxn)];;
     mret confirmedTxn)
    (fun error =>
       console_error "Error sending with LogicSig:" error;; throw error).

(** The four schema sizes default to 1.  The function returns the
    application id read off the confirmation. *)
Definition createApplication (creator : Account)
    (approvalProgram clearProgram : string)
    (globalInts globalBytes localInts localBytes : option Z)
    : Js (option Z) :=
  let globalInts := default 1%Z globalInts in
  let globalBytes := default 1%Z globalBytes in
  let localInts := default 1%Z localInts in
  let localBytes := default 1%Z localBytes in
  try_catch
    (algodClient ← getAlgodClient;
     compiledApprovalProgram ← compileProgram approvalProgram;
     compiledClearProgram ← compileProgram clearProgram;
     suggestedParams ← getTransactionParams algodClient;
     txn ← makeTxn (MakeApplicationCreate
       {| apc_sender := AddrObj (addr creator);
          apc_suggestedParams := suggestedParams;
          apc_onComplete := NoOpOC;
          apc_approvalProgram := compiledApprovalProgram;
          apc_clearProgram := compiledClearProgram;
          apc_numGlobalByteSlices := globalBytes;
          apc_numGlobalInts := globalInts;
          apc_numLocalByteSlices := localBytes;
          apc_numLocalInts := localInts |});
     signedTxn ← signTxn txn (sk creator);
     submitted ← sendRawTransaction algodClient (OneBlob signedTxn);
     console_log [ShStr "Application Creation Transaction ID:";
                  ShStr (txId submitted)];;
     confirmedTxn ←
       algosdk_waitForConfirmation algodClient (txId submitted) 5;
     console_log [ShStr "Application created in round:";
                  ShOptNum (confirmedRound confirmedTxn)];;
     let appId := applicationIndex confirmedTxn in
     console_log [ShStr "Application ID:"; ShOptNum appId];;
     mret appId)
    (fun error =>
       console_error "Error creating application:" error;; throw error).

Definition updateApplication (creator : Account) (appId : Z)
    (approvalProgram clearProgram : string) : Js Confirmation :=
  try_catch
    (algodClient ← getAlgodClient;
     compiledApprovalProgram ← compileProgram approvalProgram;
     compiledClearProgram ← compileProgram clearProgram;
     suggestedParams ← getTransactionParams algodClient;
     txn ← makeTxn (MakeApplicationUpdate
       {| apu_sender := AddrObj (addr creator);
          apu_suggestedParams := suggestedParams;
          apu_appIndex := appId;
          apu_approvalProgram := compiledApprovalProgram;
          apu_clearProgram := compiledClearProgram |});
     signedTxn ← signTxn txn (sk creator);
     submitted ← sendRawTransaction algodClient (OneBlob signedTxn);
     console_log [ShStr "Application Update Transaction ID:";
                  ShStr (txId submitted)];;
     confirmedTxn ←
       algosdk_waitForConfirmation algodClient (txId submitted) 5;
     console_log [ShStr "Application updated in round:";
                  ShOptNum (confirmedRound confirmedTxn)];;
     mret confirmedTxn)
    (fun error =>
       console_error "Error updating application:" error;; throw error).

Definition optInToApplication (account : Account) (appId : Z)
    : Js Confirmation :=
  try_catch
    (algodClient ← getAlgodClient;
     suggestedParams ← getTransactionParams algodClient;
     txn ← makeTxn (MakeApplicationOptIn
       {| aps_sender := AddrObj (addr account);
          aps_suggestedParams := suggestedParams;
          aps_appIndex := appId |});
     signedTxn ← signTxn txn (sk account);
     submitted ← sendRawTransaction algodClient (OneBlob signedTxn);
     console_log [ShStr "Application Opt-in Transaction ID:";
                  ShStr (txId submitted)];;
     confirmedTxn ←
       algosdk_waitForConfirmation algodClient (txId submitted) 5;
     console_log [ShStr "Application opt-in confirmed in round:";
                  ShOptNum (confirmedRound confirmedTxn)];;
     mret confirmedTxn)
    (fun error =>
       console_error "Error opting in to application:" error;; throw error).

(** The four array parameters default to [[]]. *)
Definition callApplication (sender : Account) (appId : Z)
    (appArgs : option (list AppArg)) (accounts : option (list Party))
    (foreignApps foreignAssets : option (list Z)) : Js Confirmation :=
  let appArgs := default [] appArgs in
  let accounts := default [] accounts in
  let foreignApps := default [] foreignApps in
  let foreignAssets := default [] foreignAssets in
  try_catch
    (algodClient ← getAlgodClient;
     suggestedParams ← getTransactionParams algodClient;
     let convertedArgs :=
       map (fun arg =>
              match arg with
              | ArgStr s => TextEncoder_encode s
              | ArgBytes b => b
              end) appArgs in
     let convertedAccounts := map addressOf accounts in
     txn ← makeTxn (MakeApplicationNoOp
       {| apn_sender := AddrObj (addr sender);
          apn_suggestedParams := suggestedParams;
          apn_appIndex := appId;
          apn_appArgs := convertedArgs;
          apn_accounts := Some convertedAccounts;
          apn_foreignApps := Some foreignApps;
          apn_foreignAssets := Some foreignAssets |});
     signedTxn ← signTxn txn (sk sender);
     submitted ← sendRawTransaction algodClient (OneBlob signedTxn);
     console_log [ShStr "Application Call Transaction ID:";
                  ShStr (txId submitted)];;
     confirmedTxn ←
       algosdk_waitForConfirmation algodClient (txId submitted) 5;
     console_log [ShStr "Application call confirmed in round:";
                  ShOptNum (confirmedRound confirmedTxn)];;
     mret confirmedTxn)
    (fun error =>
       console_error "Error calling application:" error;; throw error).

Definition deleteApplication (creator : Account) (appId : Z)
    : Js Confirmation :=
  try_catch
    (algodClient ← getAlgodClient;
     suggestedParams ← getTransactionParams algodClient;
     txn ← makeTxn (MakeApplicationDelete
       {| aps_sender := AddrObj (addr creator);
          aps_suggestedParams := suggestedParams;
          aps_appIndex := appId |});
     signedTxn ← signTxn txn (sk creator);
     submitted ← sendRawTransaction algodClient (OneBlob signedTxn);
     console_log [ShStr "Application Deletion Transaction ID:";
                  ShStr (txId submitted)];;
     confirmedTxn ←
       algosdk_waitForConfirmation algodClient (txId submitted) 5;
     console_log [ShStr "Application deleted in round:";
                  ShOptNum (confirmedRound confirmedTxn)];;
     mret confirmedTxn)
    (fun error =>
       console_error "Error deleting application:" error;; throw error).

Definition closeOutFromApplication (account : Account) (appId : Z)
    : Js Confirmation :=
  try_catch
    (algodClient ← getAlgodClient;
     suggestedParams ← getTransactionParams algodClient;
     txn ← makeTxn (MakeApplicationCloseOut
       {| aps_sender := AddrObj (addr account);
          aps_suggestedParams := suggestedParams;
          aps_appIndex := appId |});
     signedTxn ← signTxn txn (sk account);
     submitted ← sendRawTransaction algodClient (OneBlob signedTxn);
     console_log [ShStr "Application Close Out Transaction ID:";
                  ShStr (txId submitted)];;
     confirmedTxn ←
       algosdk_waitForConfirmation algodClient (txId submitted) 5;
     console_log [ShStr "Application close out confirmed in round:";
                  ShOptNum (confirmedRound confirmedTxn)];;
     mret confirmedTxn)
    (fun error =>
       console_error "Error closing out from application:" error;;
       throw error).

Definition clearApplicationState (account : Account) (appId : Z)
    : Js Confirmation :=
  try_catch
    (algodClient ← getAlgodClient;
     suggestedParams ← getTransactionParams algodClient;
     txn ← makeTxn (MakeApplicationClearState
       {| aps_sender := AddrObj (addr account);
          aps_suggestedParams := suggestedParams;
          aps_appIndex := appId |});
     signedTxn ← signTxn txn (sk account);
     submitted ← sendRawTransaction algodClient (OneBlob signedTxn);
     console_log [ShStr "Application Clear State Transaction ID:";
                  ShStr (txId submitted)];;
     confirmedTxn ←
       algosdk_waitForConfirmation algodClient (txId submitted) 5;
     console_log [ShStr "Application clear state confirmed in round:";
                  ShOptNum (confirmedRound confirmedTxn)];;
     mret confirmedTxn)
    (fun error =>
       console_error "Error clearing application state:" error;;
       throw error).

Definition readGlobalState (appId : Z) : Js (gmap string StateVal) :=
  try_catch
    (algodClient ← getAlgodClient;
     application ← getApplicationByID algodClient appId;
     let globalState : gmap string StateVal := ∅ in
     let globalState :=
       match global_state (app_params application) with
       | Some items => fold_left decode_into items globalState
       | None => globalState
       end in
     console_log [ShStr "Global State:"; ShState globalState];;
     mret globalState)
    (fun error =>
       console_error "Error reading global state:" error;; throw error).

Definition readLocalState (account : Party) (appId : Z)
    : Js (gmap string StateVal) :=
  try_catch
    (algodClient ← getAlgodClient;
     let accountAddress := addressOf account in
     accountInfo ← accountInformation algodClient accountAddress;
     let localState : gmap string StateVal := ∅ in
     let localState :=
       match ai_apps_local_state accountInfo with
       | Some apps =>
           let appLocalState :=
             List.find (fun app => bool_decide (als_id app = appId)) apps in
           match appLocalState with
           | Some found =>
               match als_key_value found with
               | Some items => fold_left decode_into items localState
               | None => localState
               end
           | None => localState
           end
       | None => localState
       end in
     console_log [ShStr "Local State:"; ShState localState];;
     mret localState)
    (fun error =>
       console_error "Error reading local state:" error;; throw error).

Definition runSmartContractExamples : Js unit :=
  try_catch
    (console_log [ShStr "===== ALGORAND SMART CONTRACT EXAMPLES ====="];;
     creator ← algosdk_generateAccount;
     user ← algosdk_generateAccount;
     console_log [ShStr "Creator Account:";
                  ShStr (sdk_addressToString (addr creator))];;
     console_log [ShStr "User Account:";
                  ShStr (sdk_addressToString (addr user))];;
     console_log
       [ShStr (newline +:+ "The following examples require funded accounts on TestNet and won't execute successfully without them.")];;
     console_log
       [ShStr "To fund test accounts, use the Algorand TestNet faucet: https://bank.testnet.algorand.network/"];;
     console_log
       [ShStr (newline +:+ "===== SMART CONTRACT EXAMPLES COMPLETE =====")])
    (fun error =>
       console_error "Error running smart contract examples:" error).
End Code.
End SmartContracts.


(** ** The overview script (src/algorand-examples.js) *)

Module Examples.
Section Code.
Context `{Platform}.

Record Generated := { account : Account; mnemonic : string }.

Record MultisigAccount :=
  { multisigParams : MultisigMetadata; multisigAddress : Address }.

Definition generateAccount : Js Generated :=
  account ← algosdk_generateAccount;
  console_log [ShStr "Account Address:";
               ShStr (sdk_addressToString (addr account))];;
  mnemonic ← algosdk_secretKeyToMnemonic (sk account);
  console_log [ShStr "Account Mnemonic:"; ShStr mnemonic];;
  mret {| account := account; mnemonic := mnemonic |}.

Definition recoverAccount (mnemonic : string) : Js Account :=
  recoveredAccount ← algosdk_mnemonicToSecretKey mnemonic;
  console_log [ShStr "Recovered Account Address:";
               ShStr (sdk_addressToString (addr recoveredAccount))];;
  mret recoveredAccount.

Definition getAlgodClient : Js AlgodClient :=
  let algodToken := "" in
  let algodServer := "https://testnet-api.algonode.cloud" in
  let algodPort := "" in
  let algodClient := new_Algodv2 algodToken algodServer algodPort in
  mret algodClient.

Definition getIndexerClient : Js IndexerClient :=
  let indexerToken := "" in
  let indexerServer := "https://testnet-idx.algonode.cloud" in
  let indexerPort := "" in
  let indexerClient := new_Indexer indexerToken indexerServer indexerPort in
  mret indexerClient.

(** Here the note is always encoded; [encode(undefined)] is [encode("")]. *)
Definition sendPayment (sender receiver : Account) (amount : Z)
    (note : option string) : Js Confirmation :=
  try_catch
    (algodClient ← getAlgodClient;
     suggestedParams ← getTransactionParams algodClient;
     txn ← makeTxn (MakePayment
       {| pay_sender := AddrObj (addr sender);
          pay_receiver := AddrObj (addr receiver);
          pay_amount := amount;
          pay_note := Some (TextEncoder_encode (default "" note));
          pay_lease := None; pay_rekeyTo := None;
          pay_suggestedParams := suggestedParams |});
     signedTxn ← signTxn txn (sk sender);
     submitted ← sendRawTransaction algodClient (OneBlob signedTxn);
     console_log [ShStr "Transaction ID:"; ShStr (txId submitted)];;
     confirmedTxn ←
       algosdk_waitForConfirmation algodClient (txId submitted) 5;
     console_log [ShStr "Transaction confirmed in round:";
                  ShOptNum (confirmedRound confirmedTxn)];;
     mret confirmedTxn)
    (fun error => console_error "Error sending payment:" error;; throw error).

Definition createAsset (creator : Account) (assetName unitName : string)
    (totalIssuance decimals : Z) : Js (option Z) :=
  try_catch
    (algodClient ← getAlgodClient;
     suggestedParams ← getTransactionParams algodClient;
     txn ← makeTxn (MakeAssetCreate
       {| acr_sender := AddrObj (addr creator);
          acr_total := totalIssuance;
          acr_decimals := decimals;
          acr_defaultFrozen := false;
          acr_manager := AddrObj (addr creator);
          acr_reserve := AddrObj (addr creator);
          acr_freeze := AddrObj (addr creator);
          acr_clawback := AddrObj (addr creator);
          acr_unitName := unitName;
          acr_assetName := assetName;
          acr_assetURL := "https://example.com";
          acr_assetMetadataHash := None;
          acr_suggestedParams := suggestedParams |});
     signedTxn ← signTxn txn (sk creator);
     submitted ← sendRawTransaction algodClient (OneBlob signedTxn);
     console_log [ShStr "Asset Creation Transaction ID:";
                  ShStr (txId submitted)];;
     confirmedTxn ←
       algosdk_waitForConfirmation algodClient (txId submitted) 5;
     console_log [ShStr "Asset created in round:";
                  ShOptNum (confirmedRound confirmedTxn)];;
     let assetId := assetIndex confirmedTxn in
     console_log [ShStr "Asset ID:"; ShOptNum assetId];;
     mret assetId)
    (fun error => console_error "Error creating asset:" error;; throw error).

Definition optInToAsset (account : Account) (assetId : Z) : Js Confirmation :=
  try_catch
    (algodClient ← getAlgodClient;
     suggestedParams ← getTransactionParams algodClient;
     txn ← makeTxn (MakeAssetTransfer
       {| axf_sender := AddrObj (addr account);
          axf_receiver := AddrObj (addr account);
          axf_assetSender := None;
          axf_amount := 0;
          axf_assetIndex := assetId;
          axf_suggestedParams := suggestedParams |});
     signedTxn ← signTxn txn (sk account);
     submitted ← sendRawTransaction algodClient (OneBlob signedTxn);
     console_log [ShStr "Opt-in Transaction ID:"; ShStr (txId submitted)];;
     confirmedTxn ←
       algosdk_waitForConfirmation algodClient (txId submitted) 5;
     console_log [ShStr "Opt-in confirmed in round:";
                  ShOptNum (confirmedRound confirmedTxn)];;
     mret confirmedTxn)
    (fun error =>
       console_error "Error opting in to asset:" error;; throw error).

Definition transferAsset (sender receiver : Account) (assetId amount : Z)
    : Js Confirmation :=
  try_catch
    (algodClient ← getAlgodClient;
     suggestedParams ← getTransactionParams algodClient;
     txn ← makeTxn (MakeAssetTransfer
       {| axf_sender := AddrObj (addr sender);
          axf_receiver := AddrObj (addr receiver);
          axf_assetSender := None;
          axf_amount := amount;
          axf_assetIndex := assetId;
          axf_suggestedParams := suggestedParams |});
     signedTxn ← signTxn txn (sk sender);
     submitted ← sendRawTransaction algodClient (OneBlob signedTxn);
     console_log [ShStr "Asset Transfer Transaction ID:";
                  ShStr (txId submitted)];;
     confirmedTxn ←
       algosdk_waitForConfirmation algodClient (txId submitted) 5;
     console_log [ShStr "Asset transfer confirmed in round:";
                  ShOptNum (confirmedRound confirmedTxn)];;
     mret confirmedTxn)
    (fun error =>
       console_error "Error transferring asset:" error;; throw error).

(** Two fixed receivers; [txnGroup] holds the same two objects that
    are signed afterwards. *)
Definition sendAtomicTransactions (sender receiver1 receiver2 : Account)
    (amount : Z) : Js Confirmation :=
  try_catch
    (algodClient ← getAlgodClient;
     suggestedParams ← getTransactionParams algodClient;
     txn1 ← makeTxn (MakePayment
       {| pay_sender := AddrObj (addr sender);
          pay_receiver := AddrObj (addr receiver1);
          pay_amount := amount;
          pay_note :=
            Some (TextEncoder_encode "First payment in atomic group");
          pay_lease := None; pay_rekeyTo := None;
          pay_suggestedParams := suggestedParams |});
     txn2 ← makeTxn (MakePayment
       {| pay_sender := AddrObj (addr sender);
          pay_receiver := AddrObj (addr receiver2);
          pay_amount := amount;
          pay_note :=
            Some (TextEncoder_encode "Second payment in atomic group");
          pay_lease := None; pay_rekeyTo := None;
          pay_suggestedParams := suggestedParams |});
     let txnGroup := [txn1; txn2] in
     algosdk_assignGroupID txnGroup;;
     signedTxn1 ← signTxn txn1 (sk sender);
     signedTxn2 ← signTxn txn2 (sk sender);
     let signedTxnGroup := [signedTxn1; signedTxn2] in
     submitted ← sendRawTransaction algodClient (ManyBlobs signedTxnGroup);
     console_log [ShStr "Atomic Transaction Group ID:";
                  ShStr (txId submitted)];;
     confirmedTxn ←
       algosdk_waitForConfirmation algodClient (txId submitted) 5;
     console_log [ShStr "Atomic transactions confirmed in round:";
                  ShOptNum (confirmedRound confirmedTxn)];;
     mret confirmedTxn)
    (fun error =>
       console_error "Error sending atomic transactions:" error;;
       throw error).

Definition compileProgram (programSource : string) : Js bytes :=
  try_catch
    (algodClient ← getAlgodClient;
     compiledProgram ← compile algodClient programSource;
     console_log [ShStr "Program compiled successfully"];;
     let programBytes :=
       Buffer_from_base64 (compile_result compiledProgram) in
     mret programBytes)
    (fun error => console_error "Error compiling program:" error;; throw error).

Definition createLogicSignature (programSource : string)
    : Js LogicSigAccount :=
  try_catch
    (programBytes ← compileProgram programSource;
     logicSigAccount ← new_LogicSigAccount programBytes [];
     address ← lsig_address logicSigAccount;
     console_log [ShStr "LogicSig Address:";
                  ShStr (sdk_addressToString address)];;
     mret logicSigAccount)
    (fun error =>
       console_error "Error creating logic signature:" error;; throw error).

Definition createApplication (creator : Account)
    (approvalProgram clearProgram : string) : Js (option Z) :=
  try_catch
    (algodClient ← getAlgodClient;
     compiledApprovalProgram ← compileProgram approvalProgram;
     compiledClearProgram ← compileProgram clearProgram;
     suggestedParams ← getTransactionParams algodClient;
     txn ← makeTxn (MakeApplicationCreate
       {| apc_sender := AddrObj (addr creator);
          apc_suggestedParams := suggestedParams;
          apc_onComplete := NoOpOC;
          apc_approvalProgram := compiledApprovalProgram;
          apc_clearProgram := compiledClearProgram;
          apc_numGlobalByteSlices := 1;
          apc_numGlobalInts := 1;
          apc_numLocalByteSlices := 1;
          apc_numLocalInts := 1 |});
     signedTxn ← signTxn txn (sk creator);
     submitted ← sendRawTransaction algodClient (OneBlob signedTxn);
     console_log [ShStr "Application Creation Transaction ID:";
                  ShStr (txId submitted)];;
     confirmedTxn ←
       algosdk_waitForConfirmation algodClient (txId submitted) 5;
     console_log [ShStr "Application created in round:";
                  ShOptNum (confirmedRound confirmedTxn)];;
     let appId := applicationIndex confirmedTxn in
     console_log [ShStr "Application ID:"; ShOptNum appId];;
     mret appId)
    (fun error =>
       console_error "Error creating application:" error;; throw error).

Definition callApplication (sender : Account) (appId : Z)
    (appArgs : list string) : Js Confirmation :=
  try_catch
    (algodClient ← getAlgodClient;
     suggestedParams ← getTransactionParams algodClient;
     txn ← makeTxn (MakeApplicationNoOp
       {| apn_sender := AddrObj (addr sender);
          apn_suggestedParams := suggestedParams;
          apn_appIndex := appId;
          apn_appArgs := map (fun arg => TextEncoder_encode arg) appArgs;
          apn_accounts := None;
          apn_foreignApps := None;
          apn_foreignAssets := None |});
     signedTxn ← signTxn txn (sk sender);
     submitted ← sendRawTransaction algodClient (OneBlob signedTxn);
     console_log [ShStr "Application Call Transaction ID:";
                  ShStr (txId submitted)];;
     confirmedTxn ←
       algosdk_waitForConfirmation algodClient (txId submitted) 5;
     console_log [ShStr "Application call confirmed in round:";
                  ShOptNum (confirmedRound confirmedTxn)];;
     mret confirmedTxn)
    (fun error =>
       console_error "Error calling application:" error;; throw error).

Definition createMultisigAccount
    (addresses : list AddressLike) (threshold : Z) : Js MultisigAccount :=
  let multisigParams :=
    {| msig_version := 1; msig_threshold := threshold;
       msig_addrs := addresses |} in
  multisigAddress ← algosdk_multisigAddress multisigParams;
  console_log [ShStr "Multisig Address:";
               ShStr (sdk_addressToString multisigAddress)];;
  mret {| multisigParams := multisigParams;
          multisigAddress := multisigAddress |}.

(** [signers[0].sk] on an empty array is a member access on
    [undefined]. *)
Definition sendMultisigTransaction (multisigParams : MultisigMetadata)
    (signers : list Account) (receiver : Account) (amount : Z)
    : Js Confirmation :=
  try_catch
    (algodClient ← getAlgodClient;
     suggestedParams ← getTransactionParams algodClient;
     senderAddress ← algosdk_multisigAddress multisigParams;
     txn ← makeTxn (MakePayment
       {| pay_sender := AddrStr (sdk_addressToString senderAddress);
          pay_receiver := AddrObj (addr receiver);
          pay_amount := amount;
          pay_note := Some (TextEncoder_encode "Multisig transaction");
          pay_lease := None; pay_rekeyTo := None;
          pay_suggestedParams := suggestedParams |});
     signedTxn ←
       match signers with
       | [] =>
           throw (TypeError
                    "Cannot read properties of undefined (reading 'sk')")
       | first :: others =>
           signedTxn ←
             algosdk_signMultisigTransaction txn multisigParams (sk first);
           for_each_acc
             (fun signedTxn signer =>
                algosdk_appendSignMultisigTransaction
                  (sb_blob signedTxn) multisigParams (sk signer))
             signedTxn others
       end;
     submitted ← sendRawTransaction algodClient (OneBlob (sb_blob signedTxn));
     console_log [ShStr "Multisig Transaction ID:"; ShStr (txId submitted)];;
     confirmedTxn ←
       algosdk_waitForConfirmation algodClient (txId submitted) 5;
     console_log [ShStr "Multisig transaction confirmed in round:";
                  ShOptNum (confirmedRound confirmedTxn)];;
     mret confirmedTxn)
    (fun error =>
       console_error "Error sending multisig transaction:" error;;
       throw error).

(** [result.methodResults[0].returnValue] on an empty array is a member
    access on [undefined]; [result.txIDs[0]] is merely [undefined]. *)
Definition callABIMethod (sender : Account) (appId : Z)
    (methodName : string) (methodArgs : list ABIValue) : Js ExecResult :=
  try_catch
    (algodClient ← getAlgodClient;
     contract ← new_ABIContract
       {| ac_name := "Example Contract";
          ac_methods :=
            [{| am_name := methodName;
                am_args := [{| arg_type := "string";
                               arg_name := "message" |}];
                am_returns := "uint64" |}] |};
     method ← contract_getMethodByName contract methodName;
     suggestedParams ← getTransactionParams algodClient;
     let atc : list MethodCall := [] in
     atc ← atc_addMethodCall atc
       {| mc_appID := appId;
          mc_method := method;
          mc_methodArgs := methodArgs;
          mc_sender := AddrObj (addr sender);
          mc_suggestedParams := suggestedParams;
          mc_signer := BasicAccountSigner sender |};
     result ← atc_execute atc algodClient 5;
     console_log [ShStr "ABI Method Call Transaction ID:";
                  ShOptStr (ex_txIDs result !! 0%nat)];;
     match ex_methodResults result with
     | [] =>
         throw (TypeError
                  "Cannot read properties of undefined (reading 'returnValue')")
     | first :: _ =>
         console_log [ShStr "ABI Method Call Result:";
                      ShAbi (ar_returnValue first)]
     end;;
     mret result)
    (fun error =>
       console_error "Error calling ABI method:" error;; throw error).

Definition runExamples : Js unit :=
  try_catch
    (console_log [ShStr "===== ALGORAND SDK EXAMPLES ====="];;
     console_log [ShStr (newline +:+ "----- Account Management -----")];;
     g1 ← generateAccount;
     g2 ← generateAccount;
     g3 ← generateAccount;
     recoveredAccount ← recoverAccount (mnemonic g1);
     console_log
       [ShStr "Account recovery successful:";
        ShBool (bool_decide
                  (sdk_addressToString (addr (account g1))
                   = sdk_addressToString (addr recoveredAccount)))];;
     console_log
       [ShStr (newline +:+ "The following examples require funded accounts on TestNet and won't execute successfully without them.")];;
     console_log
       [ShStr "To fund test accounts, use the Algorand TestNet faucet: https://bank.testnet.algorand.network/"];;
     console_log [ShStr (newline +:+ "===== EXAMPLES COMPLETE =====")])
    (fun error => console_error "Error running examples:" error).
End Code.
End Examples.


(** ** The collection as a whole

    One constructor per exported function, carrying its arguments, so
    that a statement can range over every operation. *)

Inductive Operation :=
(* src/unnamed/part_000 *)
| AM_generateAccount
| AM_recoverAccount (mnemonic : string)
| AM_createMultisigAccount (addresses : list AddressLike) (threshold : Z)
| AM_checkAccountInfo (address : string)
| AM_rekeyAccount (account authAccount : Account)
| AM_sendWithRekeyedAccount
    (originalAccount authAccount : Account) (receiverAddress : string)
    (amount : Z)
| AM_runAccountExamples
(* src/transaction-operations.js *)
| TO_getAlgodClient
| TO_sendPayment
    (sender : Account) (receiver : Party) (amount : Z) (note : option string)
| TO_createAsset
    (creator : Account) (assetName unitName : string)
    (totalIssuance decimals : Z) (url : option string)
    (metadataHash : option bytes)
| TO_configureAsset
    (manager : Account) (assetId : Z)
    (newManager newReserve newFreeze newClawback : option Party)
| TO_optInToAsset (account : Account) (assetId : Z)
| TO_transferAsset (sender : Account) (receiver : Party) (assetId amount : Z)
| TO_freezeAsset
    (freezeManager : Account) (accountToFreeze : Party) (assetId : Z)
    (freeze : bool)
| TO_revokeAsset
    (clawbackManager : Account) (revokeFrom revokeTo : Party)
    (assetId amount : Z)
| TO_destroyAsset (manager : Account) (assetId : Z)
| TO_sendAtomicTransactions
    (sender : Account) (receivers : list Party) (amount : Z)
| TO_sendTransactionWithLease
    (sender : Account) (receiver : Party) (amount : Z) (lease : option bytes)
| TO_runTransactionExamples
(* src/smart-contracts.js *)
| SC_getAlgodClient
| SC_compileProgram (programSource : string)
| SC_createLogicSignature (programSource : string) (args : option (list bytes))
| SC_createDelegatedLogicSignature
    (programSource : string) (delegatingAccount : Account)
    (args : option (list bytes))
| SC_sendWithLogicSignature
    (logicSigAccount : LogicSigAccount) (receiver : Party) (amount : Z)
| SC_createApplication
    (creator : Account) (approvalProgram clearProgram : string)
    (globalInts globalBytes localInts localBytes : option Z)
| SC_updateApplication
    (creator : Account) (appId : Z) (approvalProgram clearProgram : string)
| SC_optInToApplication (account : Account) (appId : Z)
| SC_callApplication
    (sender : Account) (appId : Z) (appArgs : option (list AppArg))
    (accounts : option (list Party))
    (foreignApps foreignAssets : option (list Z))
| SC_deleteApplication (creator : Account) (appId : Z)
| SC_closeOutFromApplication (account : Account) (appId : Z)
| SC_clearApplicationState (account : Account) (appId : Z)
| SC_readGlobalState (appId : Z)
| SC_readLocalState (account : Party) (appId : Z)
| SC_runSmartContractExamples
(* src/algorand-examples.js *)
| EX_generateAccount
| EX_recoverAccount (mnemonic : string)
| EX_getAlgodClient
| EX_getIndexerClient
| EX_sendPayment
    (sender receiver : Account) (amount : Z) (note : option string)
| EX_createAsset
    (creator : Account) (assetName unitName : string)
    (totalIssuance decimals : Z)
| EX_optInToAsset (account : Account) (assetId : Z)
| EX_transferAsset (sender receiver : Account) (assetId amount : Z)
| EX_sendAtomicTransactions
    (sender receiver1 receiver2 : Account) (amount : Z)
| EX_compileProgram (programSource : string)
| EX_createLogicSignature (programSource : string)
| EX_createApplication
    (creator : Account) (approvalProgram clearProgram : string)
| EX_callApplication (sender : Account) (appId : Z) (appArgs : list string)
| EX_createMultisigAccount (addresses : list AddressLike) (threshold : Z)
| EX_sendMultisigTransaction
    (multisigParams : MultisigMetadata) (signers : list Account)
    (receiver : Account) (amount : Z)
| EX_callABIMethod
    (sender : Account) (appId : Z) (methodName : string)
    (methodArgs : list ABIValue)
| EX_runExamples.

(** What an operation hands back to its caller. *)
Inductive Returned :=
| RUndefined
| RGenerated (account : Account) (mnemonic : string)
| RAccount (a : Account)
| RMultisig (p : MultisigMetadata) (a : Address)
| RAccountInfo (i : AccountInfo)
| RConfirmation (c : Confirmation)
| RIndex (i : option Z)
| RAlgod (c : AlgodClient)
| RIndexer (c : IndexerClient)
| RBytes (b : bytes)
| RLogicSig (l : LogicSigAccount)
| RState (m : gmap string StateVal)
| RExec (r : ExecResult).

Section Collection.
Context `{Platform}.

Definition returning {A} (wrap : A -> Returned) (m : Js A) : Js Returned :=
  a ← m; mret (wrap a).

Definition run (op : Operation) : Js Returned :=
  match op with
  | AM_generateAccount =>
      returning
        (fun g => RGenerated (AccountManagement.account g)
                    (AccountManagement.mnemonic g))
        AccountManagement.generateAccount
  | AM_recoverAccount m =>
      returning RAccount (AccountManagement.recoverAccount m)
  | AM_createMultisigAccount a t =>
      returning
        (fun r => RMultisig (AccountManagement.multisigParams r)
                    (AccountManagement.multisigAddress r))
        (AccountManagement.createMultisigAccount a t)
  | AM_checkAccountInfo a =>
      returning RAccountInfo (AccountManagement.checkAccountInfo a)
  | AM_rekeyAccount a b =>
      returning RConfirmation (AccountManagement.rekeyAccount a b)
  | AM_sendWithRekeyedAccount a b r n =>
      returning RConfirmation
        (AccountManagement.sendWithRekeyedAccount a b r n)
  | AM_runAccountExamples =>
      returning (fun _ => RUndefined) AccountManagement.runAccountExamples
  | TO_getAlgodClient =>
      returning RAlgod TransactionOperations.getAlgodClient
  | TO_sendPayment s r a n =>
      returning RConfirmation (TransactionOperations.sendPayment s r a n)
  | TO_createAsset c an un t d u m =>
      returning RIndex (TransactionOperations.createAsset c an un t d u m)
  | TO_configureAsset m a nm nr nf nc =>
      returning RConfirmation
        (TransactionOperations.configureAsset m a nm nr nf nc)
  | TO_optInToAsset a i =>
      returning RConfirmation (TransactionOperations.optInToAsset a i)
  | TO_transferAsset s r i a =>
      returning RConfirmation (TransactionOperations.transferAsset s r i a)
  | TO_freezeAsset m a i f =>
      returning RConfirmation (TransactionOperations.freezeAsset m a i f)
  | TO_revokeAsset m f t i a =>
      returning RConfirmation (TransactionOperations.revokeAsset m f t i a)
  | TO_destroyAsset m i =>
      returning RConfirmation (TransactionOperations.destroyAsset m i)
  | TO_sendAtomicTransactions s rs a =>
      returning RConfirmation
        (TransactionOperations.sendAtomicTransactions s rs a)
  | TO_sendTransactionWithLease s r a l =>
      returning RConfirmation
        (TransactionOperations.sendTransactionWithLease s r a l)
  | TO_runTransactionExamples =>
      returning (fun _ => RUndefined)
        TransactionOperations.runTransactionExamples
  | SC_getAlgodClient => returning RAlgod SmartContracts.getAlgodClient
  | SC_compileProgram p => returning RBytes (SmartContracts.compileProgram p)
  | SC_createLogicSignature p a =>
      returning RLogicSig (SmartContracts.createLogicSignature p a)
  | SC_createDelegatedLogicSignature p d a =>
      returning RLogicSig (SmartContracts.createDelegatedLogicSignature p d a)
  | SC_sendWithLogicSignature l r a =>
      returning RConfirmation (SmartContracts.sendWithLogicSignature l r a)
  | SC_createApplication c a cl gi gb li lb =>
      returning RIndex (SmartContracts.createApplication c a cl gi gb li lb)
  | SC_updateApplication c i a cl =>
      returning RConfirmation (SmartContracts.updateApplication c i a cl)
  | SC_optInToApplication a i =>
      returning RConfirmation (SmartContracts.optInToApplication a i)
  | SC_callApplication s i args accts fa fs =>
      returning RConfirmation
        (SmartContracts.callApplication s i args accts fa fs)
  | SC_deleteApplication c i =>
      returning RConfirmation (SmartContracts.deleteApplication c i)
  | SC_closeOutFromApplication a i =>
      returning RConfirmation (SmartContracts.closeOutFromApplication a i)
  | SC_clearApplicationState a i =>
      returning RConfirmation (SmartContracts.clearApplicationState a i)
  | SC_readGlobalState i => returning RState (SmartContracts.readGlobalState i)
  | SC_readLocalState a i =>
      returning RState (SmartContracts.readLocalState a i)
  | SC_runSmartContractExamples =>
      returning (fun _ => RUndefined) SmartContracts.runSmartContractExamples
  | EX_generateAccount =>
      returning
        (fun g => RGenerated (Examples.account g) (Examples.mnemonic g))
        Examples.generateAccount
  | EX_recoverAccount m => returning RAccount (Examples.recoverAccount m)
  | EX_getAlgodClient => returning RAlgod Examples.getAlgodClient
  | EX_getIndexerClient => returning RIndexer Examples.getIndexerClient
  | EX_sendPayment s r a n =>
      returning RConfirmation (Examples.sendPayment s r a n)
  | EX_createAsset c an un t d =>
      returning RIndex (Examples.createAsset c an un t d)
  | EX_optInToAsset a i => returning RConfirmation (Examples.optInToAsset a i)
  | EX_transferAsset s r i a =>
      returning RConfirmation (Examples.transferAsset s r i a)
  | EX_sendAtomicTransactions s r1 r2 a =>
      returning RConfirmation (Examples.sendAtomicTransactions s r1 r2 a)
  | EX_compileProgram p => returning RBytes (Examples.compileProgram p)
  | EX_createLogicSignature p =>
      returning RLogicSig (Examples.createLogicSignature p)
  | EX_createApplication c a cl =>
      returning RIndex (Examples.createApplication c a cl)
  | EX_callApplication s i args =>
      returning RConfirmation (Examples.callApplication s i args)
  | EX_createMultisigAccount a t =>
      returning
        (fun r => RMultisig (Examples.multisigParams r)
                    (Examples.multisigAddress r))
        (Examples.createMultisigAccount a t)
  | EX_sendMultisigTransaction p s r a =>
      returning RConfirmation (Examples.sendMultisigTransaction p s r a)
  | EX_callABIMethod s i n args =>
      returning RExec (Examples.callABIMethod s i n args)
  | EX_runExamples => returning (fun _ => RUndefined) Examples.runExamples
  end.
End Collection.


(** ** Vocabulary of the statements *)

Definition succeeded (s : Step) : Prop :=
  match step_reply s with
  | Gave _ => True
  | Threw _ => False
  end.

Definition failed_with (e : JsError) (s : Step) : Prop :=
  step_reply s = Threw e.

(** A step that waits for inclusion does so with a budget of 5 rounds. *)
Definition budget_ok (s : Step) : Prop :=
  match step_call s with
  | CWaitForConfirmation _ _ waitRounds => waitRounds = 5%Z
  | CExecute _ _ waitRounds => waitRounds = 5%Z
  | _ => True
  end.

(** The calls that reach the node. *)
Definition is_network (c : Call) : bool :=
  match c with
  | CAccountInformation _ _ | CGetTransactionParams _
  | CSendRawTransaction _ _ | CWaitForConfirmation _ _ _
  | CCompile _ _ | CGetApplicationByID _ _ | CExecute _ _ _ => true
  | _ => false
  end.

Definition local_step (s : Step) : Prop := is_network (step_call s) = false.


Definition is_wait (s : Step) : Prop :=
  match step_call s with
  | CWaitForConfirmation _ _ _ | CExecute _ _ _ => True
  | _ => False
  end.

(** A successful [assignGroupID] over [refs] that produced [gid]. *)
Definition assigned (refs : list TxnRef) (gid : bytes) : Step :=
  {| step_call := CAssignGroupID refs; step_reply := Gave (PBytes gid) |}.

(** How a run relates to the steps it added: clean on a normal return;
    on a throw, clean up to one last failed step that threw the very
    error, or clean altogether when the error is one of the local
    [TypeError]s admitted by [L]. *)
Inductive Disciplined {A} (L : JsError -> Prop)
  : list Step -> Completion A -> Prop :=
| disc_normal t a :
    Forall succeeded t -> Disciplined L t (Normal a)
| disc_failed t s e :
    Forall succeeded t -> failed_with e s ->
    Disciplined L (t ++ [s]) (Throw e)
| disc_local t e :
    Forall succeeded t -> L e -> Disciplined L t (Throw e).

(** The operations that submit a transaction (or a composed group). *)
Definition submits (op : Operation) : bool :=
  match op with
  | AM_rekeyAccount _ _ | AM_sendWithRekeyedAccount _ _ _ _
  | TO_sendPayment _ _ _ _ | TO_createAsset _ _ _ _ _ _ _
  | TO_configureAsset _ _ _ _ _ _ | TO_optInToAsset _ _
  | TO_transferAsset _ _ _ _ | TO_freezeAsset _ _ _ _
  | TO_revokeAsset _ _ _ _ _ | TO_destroyAsset _ _
  | TO_sendAtomicTransactions _ _ _ | TO_sendTransactionWithLease _ _ _ _
  | SC_sendWithLogicSignature _ _ _ | SC_createApplication _ _ _ _ _ _ _
  | SC_updateApplication _ _ _ _ | SC_optInToApplication _ _
  | SC_callApplication _ _ _ _ _ _ | SC_deleteApplication _ _
  | SC_closeOutFromApplication _ _ | SC_clearApplicationState _ _
  | EX_sendPayment _ _ _ _ | EX_createAsset _ _ _ _ _
  | EX_optInToAsset _ _ | EX_transferAsset _ _ _ _
  | EX_sendAtomicTransactions _ _ _ _ | EX_createApplication _ _ _
  | EX_callApplication _ _ _ | EX_sendMultisigTransaction _ _ _ _
  | EX_callABIMethod _ _ _ _ => true
  | _ => false
  end.

(** What a submitting operation returns, given what the wait reported. *)
Definition handed_back (op : Operation) (reported : Payload) : Returned :=
  match reported with
  | PConfirmation c =>
      match op with
      | TO_createAsset _ _ _ _ _ _ _ | EX_createAsset _ _ _ _ _ =>
          RIndex (assetIndex c)
      | SC_createApplication _ _ _ _ _ _ _ | EX_createApplication _ _ _ =>
          RIndex (applicationIndex c)
      | _ => RConfirmation c
      end
  | PExec r => RExec r
  | _ => RUndefined
  end.

(** The last step of a submitting operation [s] and the value [v] it
    returns: the step is the confirmation wait (or the composer's
    execution), it succeeded, and [v] is what the operation makes of the
    reported record. *)
Definition reports (op : Operation) (s : Step) (v : Returned) : Prop :=
  match step_call s, step_reply s with
  | CWaitForConfirmation _ _ _, Gave (PConfirmation c) =>
      v = handed_back op (PConfirmation c)
  | CExecute _ _ _, Gave (PExec r) => v = handed_back op (PExec r)
  | _, _ => False
  end.

(** The context string of an operation's [catch] block that logs and
    rethrows; [None] for the functions written without one and for the
    drivers, whose [catch] logs and returns. *)
Definition rethrow_context (op : Operation) : option string :=
  match op with
  | AM_generateAccount | AM_recoverAccount _ | AM_createMultisigAccount _ _
  | AM_runAccountExamples
  | TO_getAlgodClient | TO_runTransactionExamples
  | SC_getAlgodClient | SC_runSmartContractExamples
  | EX_generateAccount | EX_recoverAccount _ | EX_getAlgodClient
  | EX_getIndexerClient | EX_createMultisigAccount _ _ | EX_runExamples =>
      None
  | AM_checkAccountInfo _ => Some "Error checking account info:"
  | AM_rekeyAccount _ _ => Some "Error rekeying account:"
  | AM_sendWithRekeyedAccount _ _ _ _ =>
      Some "Error sending with rekeyed account:"
  | TO_sendPayment _ _ _ _ | EX_sendPayment _ _ _ _ =>
      Some "Error sending payment:"
  | TO_createAsset _ _ _ _ _ _ _ | EX_createAsset _ _ _ _ _ =>
      Some "Error creating asset:"
  | TO_configureAsset _ _ _ _ _ _ => Some "Error configuring asset:"
  | TO_optInToAsset _ _ | EX_optInToAsset _ _ =>
      Some "Error opting in to asset:"
  | TO_transferAsset _ _ _ _ | EX_transferAsset _ _ _ _ =>
      Some "Error transferring asset:"
  | TO_freezeAsset _ _ _ _ => Some "Error freezing asset:"
  | TO_revokeAsset _ _ _ _ _ => Some "Error revoking asset:"
  | TO_destroyAsset _ _ => Some "Error destroying asset:"
  | TO_sendAtomicTransactions _ _ _ | EX_sendAtomicTransactions _ _ _ _ =>
      Some "Error sending atomic transactions:"
  | TO_sendTransactionWithLease _ _ _ _ =>
      Some "Error sending transaction with lease:"
  | SC_compileProgram _ | EX_compileProgram _ =>
      Some "Error compiling program:"
  | SC_createLogicSignature _ _ | EX_createLogicSignature _ =>
      Some "Error creating logic signature:"
  | SC_createDelegatedLogicSignature _ _ _ =>
      Some "Error creating delegated logic signature:"
  | SC_sendWithLogicSignature _ _ _ => Some "Error sending with LogicSig:"
  | SC_createApplication _ _ _ _ _ _ _ | EX_createApplication _ _ _ =>
      Some "Error creating application:"
  | SC_updateApplication _ _ _ _ => Some "Error updating application:"
  | SC_optInToApplication _ _ => Some "Error opting in to application:"
  | SC_callApplication _ _ _ _ _ _ | EX_callApplication _ _ _ =>
      Some "Error calling application:"
  | SC_deleteApplication _ _ => Some "Error deleting application:"
  | SC_closeOutFromApplication _ _ =>
      Some "Error closing out from application:"
  | SC_clearApplicationState _ _ => Some "Error clearing application state:"
  | SC_readGlobalState _ => Some "Error reading global state:"
  | SC_readLocalState _ _ => Some "Error reading local state:"
  | EX_sendMultisigTransaction _ _ _ _ =>
      Some "Error sending multisig transaction:"
  | EX_callABIMethod _ _ _ _ => Some "Error calling ABI method:"
  end.

(** The drivers: their [catch] logs and returns. *)
Definition is_driver (op : Operation) : bool :=
  match op with
  | AM_runAccountExamples | TO_runTransactionExamples
  | SC_runSmartContractExamples | EX_runExamples => true
  | _ => false
  end.

(** The two member accesses on a possibly empty array. *)
Definition local_failure (op : Operation) (e : JsError) : Prop :=
  match op with
  | EX_sendMultisigTransaction _ signers _ _ =>
      signers = [] /\
      e = TypeError "Cannot read properties of undefined (reading 'sk')"
  | EX_callABIMethod _ _ _ _ =>
      e = TypeError
            "Cannot read properties of undefined (reading 'returnValue')"
  | _ => False
  end.

Section Properties.
Context `{Platform}.

(** [m] only adds steps, and each one satisfies [P]. *)
Definition Emits {A} (P : Step -> Prop) (m : Js A) : Prop :=
  forall w, exists t, trace (m w).2 = trace w ++ t /\ Forall P t.

(** The steps [m] adds when run in [w] satisfy [P]. *)
Definition adds {A} (m : Js A) (w : World) (P : list Step -> Prop) : Prop :=
  exists t, trace (m w).2 = trace w ++ t /\ P t.

(** [m] adds steps in a disciplined way. *)
Definition Faithful {A} (L : JsError -> Prop) (m : Js A) : Prop :=
  forall w, exists t,
    trace (m w).2 = trace w ++ t /\ Disciplined L t (m w).1.

(** [m] adds no step. *)
Definition Silent {A} (m : Js A) : Prop :=
  forall w, trace (m w).2 = trace w.

(** [m] adds no step and, when it returns, returns [a]. *)
Definition Quiet {A} (m : Js A) (a : A) : Prop :=
  forall w b, (m w).1 = Normal b -> b = a /\ trace (m w).2 = trace w.


(** When [m] returns normally, the last step it added satisfies [Q]
    together with the value returned. *)
Definition EndsWith {A} (Q : Step -> A -> Prop) (m : Js A) : Prop :=
  forall w a, (m w).1 = Normal a ->
    exists t s, trace (m w).2 = trace w ++ t ++ [s] /\ Q s a.

(** The claim that an operation hands back the confirmation record the
    network reported, read literally. *)
Definition returns_reported_confirmation (op : Operation) (w : World) : Prop :=
  forall v, (run op w).1 = Normal v ->
    exists t client id c,
      trace (run op w).2 =
        trace w ++ t ++
        [{| step_call := CWaitForConfirmation client id 5;
            step_reply := Gave (PConfirmation c) |}] /\
      v = RConfirmation c.

End Properties.


(** ** Vocabulary of the statements about single operations *)

(** The client every operation builds: the fixed TestNet endpoint. *)
Definition testnet : AlgodClient :=
  new_Algodv2 "" "https://testnet-api.algonode.cloud" "".

(** The opt-in shape: a transfer of nothing from an address to itself. *)
Definition zero_self_transfer (a : Address) (assetId : Z)
    (sp : SuggestedParams) : TxnRequest :=
  MakeAssetTransfer
    {| axf_sender := AddrObj a; axf_receiver := AddrObj a;
       axf_assetSender := None; axf_amount := 0; axf_assetIndex := assetId;
       axf_suggestedParams := sp |}.

(** The two state readers of src/smart-contracts.js. *)
Inductive Reading :=
| ReadGlobal (appId : Z)
| ReadLocal (account : Party) (appId : Z).

Section Statements.
Context `{Platform}.

Definition reader (r : Reading) : Js (gmap string StateVal) :=
  match r with
  | ReadGlobal appId => SmartContracts.readGlobalState appId
  | ReadLocal account appId => SmartContracts.readLocalState account appId
  end.

(** The node answers the reader's request in world [w] and the answer
    holds the key/value list [items] for the application asked for. *)
Definition delivered (r : Reading) (w : World) (items : list StateItem)
    : Prop :=
  match r with
  | ReadGlobal appId =>
      exists app s,
        net_getApplicationByID testnet appId (remote w) = (Normal app, s) /\
        global_state (app_params app) = Some items
  | ReadLocal account appId =>
      exists info s apps found,
        net_accountInformation testnet (addressOf account) (remote w)
        = (Normal info, s) /\
        ai_apps_local_state info = Some apps /\
        List.find (fun app => bool_decide (als_id app = appId)) apps
        = Some found /\
        als_key_value found = Some items
  end.

(** The node answers, and the answer has no list to decode: no
    ['global-state'] for the global reader; for the local reader no
    ['apps-local-state'], or none of its entries has the id asked for. *)
Definition nothing_delivered (r : Reading) (w : World) : Prop :=
  match r with
  | ReadGlobal appId =>
      exists app s,
        net_getApplicationByID testnet appId (remote w) = (Normal app, s) /\
        global_state (app_params app) = None
  | ReadLocal account appId =>
      exists info s,
        net_accountInformation testnet (addressOf account) (remote w)
        = (Normal info, s) /\
        (ai_apps_local_state info = None \/
         exists apps,
           ai_apps_local_state info = Some apps /\
           forall app, app ∈ apps -> als_id app <> appId)
  end.

(** The value the claim prescribes for an entry. *)
Definition decoded_as (item : StateItem) (v : StateVal) : Prop :=
  (tv_type (si_value item) = 1%Z ->
   v = SVText (base64_text (tv_bytes (si_value item)))) /\
  (tv_type (si_value item) <> 1%Z -> v = SVUint (tv_uint (si_value item))).

(** Modelled from the spec: the phrase codec and the key generator are
    SDK code, not under src/.  The spec: "Account: a public address plus
    private key material; created by key generation or derived from a
    backup phrase", with the "deterministic round-trip: phrase -> keys ->
    same address".  For every account the generator can produce, the
    phrase of its key exists and decodes to an account with the same
    address. *)
Definition phrase_round_trip : Prop :=
  forall s,
    exists m a,
      sdk_secretKeyToMnemonic (sk (sdk_generateAccount s).1) = Normal m /\
      sdk_mnemonicToSecretKey m = Normal a /\
      addr a = addr (sdk_generateAccount s).1.
End Statements.

(** ** Vocabulary for atomic groups *)


Section Groups.
Context `{Platform}.


End Groups.

(** ** A small concrete platform

    Used to run the scripts on concrete inputs.  Keys are byte strings,
    a phrase spells the key out, the node counts rounds. *)

Definition toy_error (message : string) : JsError :=
  {| err_name := "Error"; err_message := message |}.

Definition toy_key (n : nat) : bytes := repeat Byte.x61 (S n).

Definition toy_account (key : bytes) : Account :=
  {| addr := {| publicKey := key |}; sk := key |}.

Definition toy_params (n : nat) : SuggestedParams :=
  {| sp_fee := 0; sp_minFee := 1000;
     sp_firstValid := Z.of_nat n; sp_lastValid := Z.of_nat n + 1000;
     sp_genesisID := "testnet-v1.0"; sp_genesisHash := [] |}.

Definition toy_confirmation (n : nat) : Confirmation :=
  {| confirmedRound := Some (Z.of_nat n);
     assetIndex := Some 1001%Z;
     applicationIndex := Some 2002%Z |}.

Definition toy_items : list StateItem :=
  [ {| si_key := "counter";
       si_value := {| tv_type := 2; tv_bytes := ""; tv_uint := 7 |} |};
    {| si_key := "owner";
       si_value := {| tv_type := 1; tv_bytes := "alice"; tv_uint := 0 |} |} ].

Definition toy_account_info (address : string) : AccountInfo :=
  {| ai_amount := 0; ai_status := "Offline";
     ai_assets := None; ai_created_apps := None;
     ai_apps_local_state :=
       if truthy address
       then Some [ {| als_id := 7; als_key_value := Some toy_items |} ]
       else None |}.

Definition toy : Platform :=
  {| Remote := nat;
     sdk_generateAccount := fun n => (toy_account (toy_key n), S n);
     sdk_secretKeyToMnemonic := fun key => Normal (string_of_list_byte key);
     sdk_mnemonicToSecretKey := fun mnemonic =>
       if truthy mnemonic
       then Normal (toy_account (list_byte_of_string mnemonic))
       else Throw (toy_error "failed to decode mnemonic");
     sdk_multisigAddress := fun p =>
       if bool_decide (0 < msig_threshold p)%Z
       then Normal {| publicKey := [Byte.x6d] |}
       else Throw (toy_error "bad multisig threshold");
     sdk_addressToString := fun a => string_of_list_byte (publicKey a);
     sdk_makeTxn := fun _ => Normal tt;
     sdk_computeGroupID := fun txns =>
       match txns with
       | [] => Throw (toy_error "empty group")
       | _ => Normal [Byte.x67]
       end;
     sdk_signTxn := fun _ key => Normal key;
     sdk_signMultisigTransaction := fun _ _ key =>
       Normal {| sb_txID := "TX"; sb_blob := key |};
     sdk_appendSignMultisigTransaction := fun blob _ key =>
       Normal {| sb_txID := "TX"; sb_blob := blob ++ key |};
     sdk_checkLogicSig := fun _ _ => Normal tt;
     sdk_logicSigAddress := fun l => Normal {| publicKey := lsig_program l |};
     sdk_logicSigSign := fun _ key => Normal key;
     sdk_signLogicSigTransaction := fun _ l =>
       Normal {| sb_txID := "TX"; sb_blob := lsig_program l |};
     sdk_checkABIContract := fun _ => Normal tt;
     sdk_getMethodByName := fun c name =>
       match ac_methods c with
       | m :: _ => Normal m
       | [] => Throw (toy_error "no such method")
       end;
     sdk_checkMethodCall := fun _ => Normal tt;
     TextEncoder_encode := list_byte_of_string;
     Buffer_from_base64 := list_byte_of_string;
     Buffer_toString := string_of_list_byte;
     net_accountInformation := fun _ address n =>
       (Normal (toy_account_info address), n);
     net_getTransactionParams := fun _ n => (Normal (toy_params n), n);
     net_sendRawTransaction := fun _ _ n => (Normal {| txId := "TX" |}, S n);
     net_waitForConfirmation := fun _ _ _ n =>
       (Normal (toy_confirmation n), S n);
     net_compile := fun _ source n =>
       (Normal {| compile_hash := "H"; compile_result := source |}, n);
     net_getApplicationByID := fun _ appId n =>
       (Normal {| app_id := appId;
                  app_params :=
                    {| global_state :=
                         if bool_decide (appId = 7%Z)
                         then Some toy_items else None |} |}, n);
     net_execute := fun _ calls _ n =>
       (Normal {| ex_confirmedRound := Z.of_nat n;
                  ex_txIDs := ["TX"];
                  ex_methodResults :=
                    [{| ar_txID := "TX";
                        ar_returnValue := Some (AbiUint 1) |}] |}, S n) |}.

Definition toy_world : @World toy := @Build_World toy 0%nat [] [] [].

Definition toy_alice : Account := toy_account (toy_key 0).
Definition toy_bob : Account := toy_account (toy_key 1).


(** ** Vocabulary for the further properties *)

Definition gave (c : Call) (p : Payload) : Step :=
  {| step_call := c; step_reply := Gave p |}.

Definition threw (c : Call) (e : JsError) : Step :=
  {| step_call := c; step_reply := Threw e |}.

(** A transaction object as a builder leaves it. *)
Definition fresh (req : TxnRequest) : Transaction :=
  {| txn_fields := req; txn_group := None |}.

(** The six ways the fetch, build, sign, submit, wait sequence can go,
    as the steps added and what the wait gave.  [ref] is the reference
    of the object built. *)
Inductive Workflow (client : AlgodClient)
    (req : SuggestedParams -> TxnRequest) (key : bytes) (ref : TxnRef)
  : list Step -> Completion Confirmation -> Prop :=
| wf_no_params e :
    Workflow client req key ref
      [threw (CGetTransactionParams client) e] (Throw e)
| wf_not_built sp e :
    Workflow client req key ref
      [gave (CGetTransactionParams client) (PParams sp);
       threw (CMakeTxn (req sp)) e] (Throw e)
| wf_not_signed sp e :
    Workflow client req key ref
      [gave (CGetTransactionParams client) (PParams sp);
       gave (CMakeTxn (req sp)) PUnit;
       threw (CSignTxn ref (Some (fresh (req sp))) key) e] (Throw e)
| wf_not_submitted sp blob e :
    Workflow client req key ref
      [gave (CGetTransactionParams client) (PParams sp);
       gave (CMakeTxn (req sp)) PUnit;
       gave (CSignTxn ref (Some (fresh (req sp))) key) (PBytes blob);
       threw (CSendRawTransaction client (OneBlob blob)) e] (Throw e)
| wf_not_confirmed sp blob submitted e :
    Workflow client req key ref
      [gave (CGetTransactionParams client) (PParams sp);
       gave (CMakeTxn (req sp)) PUnit;
       gave (CSignTxn ref (Some (fresh (req sp))) key) (PBytes blob);
       gave (CSendRawTransaction client (OneBlob blob)) (PSubmitted submitted);
       threw (CWaitForConfirmation client (txId submitted) 5) e] (Throw e)
| wf_confirmed sp blob submitted c :
    Workflow client req key ref
      [gave (CGetTransactionParams client) (PParams sp);
       gave (CMakeTxn (req sp)) PUnit;
       gave (CSignTxn ref (Some (fresh (req sp))) key) (PBytes blob);
       gave (CSendRawTransaction client (OneBlob blob)) (PSubmitted submitted);
       gave (CWaitForConfirmation client (txId submitted) 5) (PConfirmation c)]
      (Normal c).

(** The operations that are one such sequence and nothing else. *)
Definition plain_workflow (op : Operation) : bool :=
  match op with
  | AM_rekeyAccount _ _ | AM_sendWithRekeyedAccount _ _ _ _
  | TO_sendPayment _ _ _ _ | TO_createAsset _ _ _ _ _ _ _
  | TO_configureAsset _ _ _ _ _ _ | TO_optInToAsset _ _
  | TO_transferAsset _ _ _ _ | TO_freezeAsset _ _ _ _
  | TO_revokeAsset _ _ _ _ _ | TO_destroyAsset _ _
  | TO_sendTransactionWithLease _ _ _ _
  | SC_optInToApplication _ _ | SC_callApplication _ _ _ _ _ _
  | SC_deleteApplication _ _ | SC_closeOutFromApplication _ _
  | SC_clearApplicationState _ _
  | EX_sendPayment _ _ _ _ | EX_createAsset _ _ _ _ _
  | EX_optInToAsset _ _ | EX_transferAsset _ _ _ _
  | EX_callApplication _ _ _ => true
  | _ => false
  end.

(** The account whose key signs, and the account whose address is the
    request's sender, in a plain operation. *)
Definition signer_of (op : Operation) : option Account :=
  match op with
  | AM_rekeyAccount account _ => Some account
  | AM_sendWithRekeyedAccount _ authAccount _ _ => Some authAccount
  | TO_sendPayment sender _ _ _ | TO_transferAsset sender _ _ _
  | TO_sendTransactionWithLease sender _ _ _
  | SC_callApplication sender _ _ _ _ _
  | EX_sendPayment sender _ _ _ | EX_transferAsset sender _ _ _
  | EX_callApplication sender _ _ => Some sender
  | TO_createAsset creator _ _ _ _ _ _ | SC_deleteApplication creator _
  | EX_createAsset creator _ _ _ _ => Some creator
  | TO_configureAsset manager _ _ _ _ _ | TO_destroyAsset manager _ =>
      Some manager
  | TO_optInToAsset account _ | SC_optInToApplication account _
  | SC_closeOutFromApplication account _ | SC_clearApplicationState account _
  | EX_optInToAsset account _ => Some account
  | TO_freezeAsset freezeManager _ _ _ => Some freezeManager
  | TO_revokeAsset clawbackManager _ _ _ _ => Some clawbackManager
  | _ => None
  end.

Definition sender_of (op : Operation) : option Account :=
  match op with
  | AM_sendWithRekeyedAccount originalAccount _ _ _ => Some originalAccount
  | _ => signer_of op
  end.

(** The [sender] property of a request object. *)
Definition request_sender (req : TxnRequest) : AddressLike :=
  match req with
  | MakePayment f => pay_sender f
  | MakeAssetCreate f => acr_sender f
  | MakeAssetConfig f => acf_sender f
  | MakeAssetTransfer f => axf_sender f
  | MakeAssetFreeze f => afz_sender f
  | MakeAssetDestroy f => ads_sender f
  | MakeApplicationCreate f => apc_sender f
  | MakeApplicationUpdate f => apu_sender f
  | MakeApplicationOptIn f | MakeApplicationDelete f
  | MakeApplicationCloseOut f | MakeApplicationClearState f => aps_sender f
  | MakeApplicationNoOp f => apn_sender f
  end.

(** The programs a create or update request carries. *)
Definition programs_of (req : TxnRequest) : option (bytes * bytes) :=
  match req with
  | MakeApplicationCreate f =>
      Some (apc_approvalProgram f, apc_clearProgram f)
  | MakeApplicationUpdate f =>
      Some (apu_approvalProgram f, apu_clearProgram f)
  | _ => None
  end.

(** The operations that compile two programs and then deploy them:
    the creator and the two sources. *)
Definition deployment_of (op : Operation)
    : option (Account * string * string) :=
  match op with
  | SC_createApplication creator approval clear _ _ _ _
  | SC_updateApplication creator _ approval clear
  | EX_createApplication creator approval clear =>
      Some (creator, approval, clear)
  | _ => None
  end.

Section Deployments.
Context `{Platform}.

(** What [compileProgram] makes of the node's answer. *)
Definition program_bytes (r : CompileResponse) : bytes :=
  Buffer_from_base64 (compile_result r).

(** How a deployment can go: the approval program does not compile;
    it does and the clear program does not; or both compile, in that
    order, and the sequence that follows carries their bytes. *)
Inductive Deployment (approval clear : string)
    (req : bytes -> bytes -> SuggestedParams -> TxnRequest)
    (key : bytes) (ref : TxnRef)
  : list Step -> Completion Confirmation -> Prop :=
| dp_no_approval e :
    Deployment approval clear req key ref
      [threw (CCompile testnet approval) e] (Throw e)
| dp_no_clear ra e :
    Deployment approval clear req key ref
      [gave (CCompile testnet approval) (PCompiled ra);
       threw (CCompile testnet clear) e] (Throw e)
| dp_compiled ra rc t o :
    Workflow testnet (req (program_bytes ra) (program_bytes rc)) key ref t o ->
    Deployment approval clear req key ref
      (gave (CCompile testnet approval) (PCompiled ra)
       :: gave (CCompile testnet clear) (PCompiled rc) :: t) o.

(** How [compileProgram] runs (both copies): one request to the node,
    then a line on the console, the error line when it failed. *)
Definition compile_outcome (source : string) (w : World)
    : Completion bytes * World :=
  match net_compile testnet source (remote w) with
  | (Normal r, s) =>
      (Normal (program_bytes r),
       {| remote := s; heap := heap w;
          console := console w ++
                     [ConsoleLog [ShStr "Program compiled successfully"]];
          trace := trace w ++ [gave (CCompile testnet source) (PCompiled r)] |})
  | (Throw e, s) =>
      (Throw e,
       {| remote := s; heap := heap w;
          console := console w ++ [ConsoleError "Error compiling program:" e];
          trace := trace w ++ [threw (CCompile testnet source) e] |})
  end.

End Deployments.

(** The client a request to the node is addressed to. *)
Definition call_client (c : Call) : option AlgodClient :=
  match c with
  | CAccountInformation client _ | CGetTransactionParams client
  | CSendRawTransaction client _ | CWaitForConfirmation client _ _
  | CCompile client _ | CGetApplicationByID client _
  | CExecute client _ _ => Some client
  | _ => None
  end.

Definition to_testnet (s : Step) : Prop :=
  forall client, call_client (step_call s) = Some client -> client = testnet.

(** The calls that prepare, sign, submit or await a transaction. *)
Definition transacts (c : Call) : bool :=
  match c with
  | CMakeTxn _ | CAssignGroupID _ | CSignTxn _ _ _
  | CSignMultisigTransaction _ _ _ _ | CAppendSignMultisigTransaction _ _ _
  | CSignLogicSigTransaction _ _ _ | CAddMethodCall _
  | CSendRawTransaction _ _ | CWaitForConfirmation _ _ _
  | CExecute _ _ _ => true
  | _ => false
  end.

(** The operations that never contact the node. *)
Definition offline (op : Operation) : bool :=
  match op with
  | AM_generateAccount | AM_recoverAccount _ | AM_createMultisigAccount _ _
  | AM_runAccountExamples | TO_getAlgodClient | TO_runTransactionExamples
  | SC_getAlgodClient | SC_runSmartContractExamples
  | EX_generateAccount | EX_recoverAccount _ | EX_getAlgodClient
  | EX_getIndexerClient | EX_createMultisigAccount _ _ | EX_runExamples =>
      true
  | _ => false
  end.

(** The error lines among the lines of a console. *)
Definition is_error_line (l : LogLine) : bool :=
  match l with
  | ConsoleError _ _ => true
  | ConsoleLog _ => false
  end.

Definition error_lines (l : list LogLine) : list LogLine :=
  List.filter is_error_line l.

(** The operations that call [compileProgram]. *)
Definition compiles (op : Operation) : bool :=
  match op with
  | SC_createLogicSignature _ _ | SC_createDelegatedLogicSignature _ _ _
  | SC_createApplication _ _ _ _ _ _ _ | SC_updateApplication _ _ _ _
  | EX_createLogicSignature _ | EX_createApplication _ _ _ => true
  | _ => false
  end.

Section Accounting.
Context `{Platform}.

(** The lines [m] adds hold no error line, except that, when [nested]
    and [m] raises, the error may have been logged once already by
    [compileProgram]. *)
Definition Logged {A} (nested : bool) (m : Js A) : Prop :=
  forall w, exists l,
    console (m w).2 = console w ++ l /\
    match (m w).1 with
    | Normal _ => error_lines l = []
    | Throw e =>
        error_lines l = [] \/
        (nested = true /\
         error_lines l = [ConsoleError "Error compiling program:" e])
    end.
End Accounting.

(** The small platform with a node that refuses to compile and a
    composer whose execution reports no method result. *)
Definition toy_bare : Platform :=
  {| Remote := @Remote toy;
     sdk_generateAccount := @sdk_generateAccount toy;
     sdk_secretKeyToMnemonic := @sdk_secretKeyToMnemonic toy;
     sdk_mnemonicToSecretKey := @sdk_mnemonicToSecretKey toy;
     sdk_multisigAddress := @sdk_multisigAddress toy;
     sdk_addressToString := @sdk_addressToString toy;
     sdk_makeTxn := @sdk_makeTxn toy;
     sdk_computeGroupID := @sdk_computeGroupID toy;
     sdk_signTxn := @sdk_signTxn toy;
     sdk_signMultisigTransaction := @sdk_signMultisigTransaction toy;
     sdk_appendSignMultisigTransaction :=
       @sdk_appendSignMultisigTransaction toy;
     sdk_checkLogicSig := @sdk_checkLogicSig toy;
     sdk_logicSigAddress := @sdk_logicSigAddress toy;
     sdk_logicSigSign := @sdk_logicSigSign toy;
     sdk_signLogicSigTransaction := @sdk_signLogicSigTransaction toy;
     sdk_checkABIContract := @sdk_checkABIContract toy;
     sdk_getMethodByName := @sdk_getMethodByName toy;
     sdk_checkMethodCall := @sdk_checkMethodCall toy;
     TextEncoder_encode := @TextEncoder_encode toy;
     Buffer_from_base64 := @Buffer_from_base64 toy;
     Buffer_toString := @Buffer_toString toy;
     net_accountInformation := @net_accountInformation toy;
     net_getTransactionParams := @net_getTransactionParams toy;
     net_sendRawTransaction := @net_sendRawTransaction toy;
     net_waitForConfirmation := @net_waitForConfirmation toy;
     net_compile := fun _ _ n => (Throw (toy_error "compile failed"), n);
     net_getApplicationByID := @net_getApplicationByID toy;
     net_execute := fun _ _ _ n =>
       (Normal {| ex_confirmedRound := Z.of_nat n;
                  ex_txIDs := [];
                  ex_methodResults := [] |}, S n) |}.

Definition toy_bare_world : @World toy_bare :=
  @Build_World toy_bare 0%nat [] [] [].

(** The context string of a driver's [catch] block, which logs and
    returns. *)
Definition driver_context (op : Operation) : option string :=
  match op with
  | AM_runAccountExamples => Some "Error running account examples:"
  | TO_runTransactionExamples => Some "Error running transaction examples:"
  | SC_runSmartContractExamples =>
      Some "Error running smart contract examples:"
  | EX_runExamples => Some "Error running examples:"
  | _ => None
  end.

(** The two drivers that recover the first account they generated and
    compare the addresses, and the line they print when these agree. *)
Definition self_checking (op : Operation) : bool :=
  match op with
  | AM_runAccountExamples | EX_runExamples => true
  | _ => false
  end.

Definition self_check_passed : LogLine :=
  ConsoleLog [ShStr "Account recovery successful:"; ShBool true].

(** The calls that sign, submit or await. *)
Definition signs_or_submits (c : Call) : bool :=
  match c with
  | CSignTxn _ _ _ | CSignMultisigTransaction _ _ _ _
  | CAppendSignMultisigTransaction _ _ _ | CSignLogicSigTransaction _ _ _
  | CSendRawTransaction _ _ | CWaitForConfirmation _ _ _
  | CExecute _ _ _ => true
  | _ => false
  end.

(** The co-signers' part of [sendMultisigTransaction]: each signer
    appends to the blob the one before returned; [final] is the last
    blob. *)
Inductive Cosigned (p : MultisigMetadata)
  : bytes -> list Account -> list Step -> bytes -> Prop :=
| cosigned_done blob : Cosigned p blob [] [] blob
| cosigned_next blob signer others b t final :
    Cosigned p (sb_blob b) others t final ->
    Cosigned p blob (signer :: others)
      (gave (CAppendSignMultisigTransaction blob p (sk signer)) (PSigned b)
       :: t) final.

Section Requests.
Context `{Platform}.

(** The request [sendMultisigTransaction] builds, given the derived
    multisig address and the fetched parameters. *)
Definition multisig_payment (a : Address) (receiver : Account) (amount : Z)
    (sp : SuggestedParams) : TxnRequest :=
  MakePayment
    {| pay_sender := AddrStr (sdk_addressToString a);
       pay_receiver := AddrObj (addr receiver);
       pay_amount := amount;
       pay_note := Some (TextEncoder_encode "Multisig transaction");
       pay_lease := None; pay_rekeyTo := None;
       pay_suggestedParams := sp |}.

(** The payment [sendAtomicTransactions] of
    src/transaction-operations.js builds for the receiver at [index]. *)
Definition atomic_payment (sender : Account) (amount : Z)
    (sp : SuggestedParams) (index : nat) (receiver : Party) : TxnRequest :=
  MakePayment
    {| pay_sender := AddrObj (addr sender);
       pay_receiver :=
         match receiver with
         | PartyStr s => AddrStr s
         | PartyAcct a => AddrObj (addr a)
         end;
       pay_amount := amount;
       pay_note :=
         Some (TextEncoder_encode
                 ("Payment " +:+ pretty (index + 1)%nat
                  +:+ " in atomic group"));
       pay_lease := None; pay_rekeyTo := None;
       pay_suggestedParams := sp |}.

(** One of the two payments of [sendAtomicTransactions] of
    src/algorand-examples.js. *)
Definition noted_payment (sender receiver : Account) (amount : Z)
    (note : string) (sp : SuggestedParams) : TxnRequest :=
  MakePayment
    {| pay_sender := AddrObj (addr sender);
       pay_receiver := AddrObj (addr receiver);
       pay_amount := amount;
       pay_note := Some (TextEncoder_encode note);
       pay_lease := None; pay_rekeyTo := None;
       pay_suggestedParams := sp |}.

(** The operations that send an atomic group: the signer, and the
    requests of the group in order, given the fetched parameters. *)
Definition atomic_group_of (op : Operation)
    : option (Account * (SuggestedParams -> list TxnRequest)) :=
  match op with
  | TO_sendAtomicTransactions sender receivers amount =>
      Some (sender,
            fun sp => imap (atomic_payment sender amount sp) receivers)
  | EX_sendAtomicTransactions sender receiver1 receiver2 amount =>
      Some (sender,
            fun sp =>
              [noted_payment sender receiver1 amount
                 "First payment in atomic group" sp;
               noted_payment sender receiver2 amount
                 "Second payment in atomic group" sp])
  | _ => None
  end.
End Requests.

(** Reading a list of steps: the requests built, the signatures made
    (object, key, result) and the payloads submitted, each in order. *)
Definition requests_built (t : list Step) : list TxnRequest :=
  omap (fun s =>
          match step_call s, step_reply s with
          | CMakeTxn req, Gave _ => Some req
          | _, _ => None
          end) t.

Definition signatures (t : list Step) : list (TxnRef * bytes * bytes) :=
  omap (fun s =>
          match step_call s, step_reply s with
          | CSignTxn ref _ key, Gave (PBytes blob) => Some (ref, key, blob)
          | _, _ => None
          end) t.

Definition submissions (t : list Step) : list RawPayload :=
  omap (fun s =>
          match step_call s with
          | CSendRawTransaction _ payload => Some payload
          | _ => None
          end) t.


Section Roles.
Context `{Platform}.

(** What [configureAsset] sends for a role, by what the caller gave:
    nothing for an omitted role and for the empty string, the string
    itself, or the string form of an account's address. *)
Definition role_sent (given : option Party) (sent : option string) : Prop :=
  match given with
  | None | Some (PartyStr EmptyString) => sent = None
  | Some (PartyStr s) => sent = Some s
  | Some (PartyAcct a) => sent = Some (sdk_addressToString (addr a))
  end.

(** A request built by [configureAsset] for the given arguments. *)
Definition configures (manager : Account) (assetId : Z)
    (newManager newReserve newFreeze newClawback : option Party)
    (s : Step) : Prop :=
  match step_call s with
  | CMakeTxn (MakeAssetConfig f) =>
      acf_sender f = AddrObj (addr manager) /\
      acf_assetIndex f = assetId /\
      acf_strictEmptyAddressChecking f = false /\
      role_sent newManager (acf_manager f) /\
      role_sent newReserve (acf_reserve f) /\
      role_sent newFreeze (acf_freeze f) /\
      role_sent newClawback (acf_clawback f)
  | CMakeTxn _ => False
  | _ => True
  end.



End Roles.

(** The operations that make a logic signature: the source, the
    arguments after defaulting, and the delegating account if any. *)
Definition logic_signature_of (op : Operation)
    : option (string * list bytes * option Account) :=
  match op with
  | SC_createLogicSignature source args =>
      Some (source, default [] args, None)
  | SC_createDelegatedLogicSignature source delegatingAccount args =>
      Some (source, default [] args, Some delegatingAccount)
  | EX_createLogicSignature source => Some (source, [], None)
  | _ => None
  end.

Section LogicSignatures.
Context `{Platform}.

(** The payment [sendWithLogicSignature] builds, given the address of
    the logic signature and the fetched parameters. *)
Definition lsig_payment (a : Address) (receiver : Party) (amount : Z)
    (sp : SuggestedParams) : TxnRequest :=
  MakePayment
    {| pay_sender := AddrStr (sdk_addressToString a);
       pay_receiver := AddrStr (addressOf receiver);
       pay_amount := amount;
       pay_note := None; pay_lease := None; pay_rekeyTo := None;
       pay_suggestedParams := sp |}.
End LogicSignatures.

(** Every confirmation wait in [t] comes right after a successful
    submission through the same client and waits for the id that
    submission returned; [prev] is the step made before [t]. *)
Fixpoint linked (prev : option Step) (t : list Step) : Prop :=
  match t with
  | [] => True
  | s :: t' =>
      match step_call s with
      | CWaitForConfirmation client id _ =>
          exists payload submitted,
            prev = Some (gave (CSendRawTransaction client payload)
                           (PSubmitted submitted)) /\
            id = txId submitted
      | _ => True
      end /\
      linked (Some s) t'
  end.

Section Chains.
Context `{Platform}.

(** The steps [m] adds are linked, whatever step came before. *)
Definition Chain {A} (m : Js A) : Prop :=
  forall w, exists t,
    trace (m w).2 = trace w ++ t /\ forall prev, linked prev t.
End Chains.

(** The line that shows a backup phrase. *)
Definition phrase_line (mnemonic : string) : LogLine :=
  ConsoleLog [ShStr "Account Mnemonic:"; ShStr mnemonic].

(** The phrase a step derived, if it is a successful derivation. *)
Definition derived_phrase (s : Step) : option string :=
  match step_call s, step_reply s with
  | CSecretKeyToMnemonic _, Gave (PString mnemonic) => Some mnemonic
  | _, _ => None
  end.

Section Disclosure.
Context `{Platform}.

(** Each phrase derived by a step [m] adds is shown by a line [m]
    adds. *)
Definition Discloses {A} (m : Js A) : Prop :=
  forall w, exists t l,
    trace (m w).2 = trace w ++ t /\
    console (m w).2 = console w ++ l /\
    forall s mnemonic,
      s ∈ t -> derived_phrase s = Some mnemonic -> phrase_line mnemonic ∈ l.
End Disclosure.

(** The rekey-to field of a request; only payments are ever built
    with one. *)
Definition rekey_of (req : TxnRequest) : option AddressLike :=
  match req with
  | MakePayment f => pay_rekeyTo f
  | _ => None
  end.

(** A request built by [op] leaves the signing authority where it is,
    unless [op] is [rekeyAccount]: then it is a payment of nothing from
    the account to itself that hands the authority to [authAccount]. *)
Definition authority_kept (op : Operation) (s : Step) : Prop :=
  match step_call s with
  | CMakeTxn req =>
      match op with
      | AM_rekeyAccount account authAccount =>
          exists sp,
            req = MakePayment
                    {| pay_sender := AddrObj (addr account);
                       pay_receiver := AddrObj (addr account);
                       pay_amount := 0;
                       pay_note := None; pay_lease := None;
                       pay_rekeyTo := Some (AddrObj (addr authAccount));
                       pay_suggestedParams := sp |}
      | _ => rekey_of req = None
      end
  | _ => True
  end.

(** The clawback source of a request; only asset transfers are ever
    built with one. *)
Definition clawback_of (req : TxnRequest) : option string :=
  match req with
  | MakeAssetTransfer f => axf_assetSender f
  | _ => None
  end.

Section Clawback.
Context `{Platform}.

(** A request built by [op] takes assets from no account but its
    sender's, unless [op] is [revokeAsset]: then it is the transfer,
    sent by the clawback manager, of [amount] from [revokeFrom] to
    [revokeTo]. *)
Definition holdings_kept (op : Operation) (s : Step) : Prop :=
  match step_call s with
  | CMakeTxn req =>
      match op with
      | TO_revokeAsset clawbackManager revokeFrom revokeTo assetId amount =>
          exists sp,
            req = MakeAssetTransfer
                    {| axf_sender := AddrObj (addr clawbackManager);
                       axf_receiver := AddrStr (addressOf revokeTo);
                       axf_assetSender := Some (addressOf revokeFrom);
                       axf_amount := amount;
                       axf_assetIndex := assetId;
                       axf_suggestedParams := sp |}
      | _ => clawback_of req = None
      end
  | _ => True
  end.
End Clawback.

(** The functions of src/algorand-examples.js that are copies of a
    function of another file, with the call of the original they
    stand for. *)
Definition original_of (op : Operation) : option Operation :=
  match op with
  | SC_getAlgodClient | EX_getAlgodClient => Some TO_getAlgodClient
  | EX_recoverAccount mnemonic => Some (AM_recoverAccount mnemonic)
  | EX_createMultisigAccount addresses threshold =>
      Some (AM_createMultisigAccount addresses threshold)
  | EX_createAsset creator assetName unitName totalIssuance decimals =>
      Some (TO_createAsset creator assetName unitName totalIssuance decimals
              (Some "https://example.com") None)
  | EX_optInToAsset account assetId => Some (TO_optInToAsset account assetId)
  | EX_compileProgram programSource => Some (SC_compileProgram programSource)
  | EX_createLogicSignature programSource =>
      Some (SC_createLogicSignature programSource None)
  | EX_createApplication creator approvalProgram clearProgram =>
      Some (SC_createApplication creator approvalProgram clearProgram
              None None None None)
  | _ => None
  end.

(** The calls that hand something to the network for inclusion, and
    those among a list of steps. *)
Definition dispatch (c : Call) : bool :=
  match c with
  | CSendRawTransaction _ _ | CExecute _ _ _ => true
  | _ => false
  end.

Definition dispatched (t : list Step) : list Step :=
  List.filter (fun s => dispatch (step_call s)) t.

Section Dispatching.
Context `{Platform}.

(** [m] hands at most one thing to the network. *)
Definition AtMostOnce {A} (m : Js A) : Prop :=
  forall w, exists t,
    trace (m w).2 = trace w ++ t /\ (length (dispatched t) <= 1)%nat.
End Dispatching.

(** * Reasoning about script runs *)

Section Rules.
Context `{Platform}.

Lemma bind_run {A B} (m : Js A) (f : A -> Js B) (w : World) :
  (m ≫= f) w =
  match m w with
  | (Normal a, w') => f a w'
  | (Throw e, w') => (Throw e, w')
  end.
Proof. reflexivity. Qed.

Lemma ret_run {A} (a : A) (w : World) : @mret Js _ A a w = (Normal a, w).
Proof. reflexivity. Qed.

Lemma try_catch_run {A} (body : Js A) (handler : JsError -> Js A) (w : World) :
  try_catch body handler w =
  match body w with
  | (Normal a, w') => (Normal a, w')
  | (Throw e, w') => handler e w'
  end.
Proof. reflexivity. Qed.

(** ** Steps added by a run all satisfy a predicate *)

Lemma Emits_ret {A} P (a : A) : Emits P (mret a).
Proof. intros w. exists []. split; [symmetry; apply app_nil_r | constructor]. Qed.

Lemma Emits_throw {A} P e : Emits P (@throw _ A e).
Proof. intros w. exists []. split; [symmetry; apply app_nil_r | constructor]. Qed.

Lemma Emits_bind {A B} P (m : Js A) (f : A -> Js B) :
  Emits P m -> (forall a, Emits P (f a)) -> Emits P (m ≫= f).
Proof.
  intros Hm Hf w. rewrite bind_run.
  destruct (Hm w) as (t1 & E1 & F1).
  destruct (m w) as [[a|e] w1]; simpl in *.
  - destruct (Hf a w1) as (t2 & E2 & F2).
    exists (t1 ++ t2). rewrite E2, E1, app_assoc.
    split; [done | by apply Forall_app].
  - by exists t1.
Qed.

Lemma Emits_try_catch {A} P (body : Js A) handler :
  Emits P body -> (forall e, Emits P (handler e)) ->
  Emits P (try_catch body handler).
Proof.
  intros Hm Hf w. rewrite try_catch_run.
  destruct (Hm w) as (t1 & E1 & F1).
  destruct (body w) as [[a|e] w1]; simpl in *.
  - by exists t1.
  - destruct (Hf e w1) as (t2 & E2 & F2).
    exists (t1 ++ t2). rewrite E2, E1, app_assoc.
    split; [done | by apply Forall_app].
Qed.

Lemma Emits_console_log P args : Emits P (console_log args).
Proof. intros w. exists []. split; [symmetry; apply app_nil_r | constructor]. Qed.

Lemma Emits_console_error P context e : Emits P (console_error context e).
Proof. intros w. exists []. split; [symmetry; apply app_nil_r | constructor]. Qed.

Lemma Emits_alloc P t : Emits P (alloc t).
Proof. intros w. exists []. split; [symmetry; apply app_nil_r | constructor]. Qed.

Lemma Emits_deref P r : Emits P (deref r).
Proof. intros w. exists []. split; [symmetry; apply app_nil_r | constructor]. Qed.

Lemma Emits_write_group P gid r : Emits P (write_group gid r).
Proof. intros w. exists []. split; [symmetry; apply app_nil_r | constructor]. Qed.

Lemma Emits_external {A} (P : Step -> Prop) c (show : A -> Payload) f :
  (forall r, P {| step_call := c; step_reply := r |}) ->
  Emits P (external c show f).
Proof.
  intros HP w. unfold external. destruct (f (remote w)) as [r s]. simpl.
  eexists. split; [reflexivity |]. by repeat constructor.
Qed.

Lemma Emits_mapM {A B} P (f : A -> Js B) l :
  (forall x, Emits P (f x)) -> Emits P (mapM f l).
Proof.
  intros Hf. induction l as [|x l IH]; simpl.
  - apply Emits_ret.
  - apply Emits_bind; [apply Hf | intros y].
    apply Emits_bind; [apply IH | intros ys]. apply Emits_ret.
Qed.

Lemma Emits_mapM_indexed {A B} P (f : A -> nat -> Js B) i l :
  (forall x j, Emits P (f x j)) -> Emits P (mapM_indexed f i l).
Proof.
  intros Hf. revert i. induction l as [|x l IH]; intros i; simpl.
  - apply Emits_ret.
  - apply Emits_bind; [apply Hf | intros y].
    apply Emits_bind; [apply IH | intros ys]. apply Emits_ret.
Qed.

Lemma Emits_for_each_acc {A B} P (step : B -> A -> Js B) acc l :
  (forall b x, Emits P (step b x)) -> Emits P (for_each_acc step acc l).
Proof.
  intros Hf. revert acc. induction l as [|x l IH]; intros acc; simpl.
  - apply Emits_ret.
  - apply Emits_bind; [apply Hf | intros y]. apply IH.
Qed.

Lemma Emits_weaken {A} (P Q : Step -> Prop) (m : Js A) :
  (forall s, P s -> Q s) -> Emits P m -> Emits Q m.
Proof.
  intros HPQ Hm w. destruct (Hm w) as (t & E & F).
  exists t. split; [done |]. eapply Forall_impl; eauto.
Qed.
End Rules.

(** Decompose a script down to the primitive rules; [side] discharges
    the obligation on each platform call. *)
Ltac script_head m :=
  lazymatch m with
  | ?f _ => script_head f
  | _ => m
  end.

Ltac emits side :=
  repeat
    lazymatch goal with
    | |- Emits _ (mret _) => apply Emits_ret
    | |- Emits _ (throw _) => apply Emits_throw
    | |- Emits _ (mbind _ _) => apply Emits_bind; [| intros ?]
    | |- Emits _ (try_catch _ _) => apply Emits_try_catch; [| intros ?]
    | |- Emits _ (console_log _) => apply Emits_console_log
    | |- Emits _ (console_error _ _) => apply Emits_console_error
    | |- Emits _ (alloc _) => apply Emits_alloc
    | |- Emits _ (deref _) => apply Emits_deref
    | |- Emits _ (write_group _ _) => apply Emits_write_group
    | |- Emits _ (external _ _ _) => apply Emits_external; intros ?; side
    | |- Emits _ (mapM _ _) => apply Emits_mapM; intros ?
    | |- Emits _ (mapM_indexed _ _ _) => apply Emits_mapM_indexed; intros ? ?
    | |- Emits _ (for_each_acc _ _ _) => apply Emits_for_each_acc; intros ? ?
    | |- Emits _ (match ?x with _ => _ end) => destruct x
    | |- Emits _ (let _ := _ in _) => cbv zeta
    | |- Emits _ ?m => let h := script_head m in unfold h
    end.

Section MoreRules.
Context `{Platform}.

(** ** Disciplined runs *)

Lemma Disciplined_prepend {A} L t1 t2 (r : Completion A) :
  Forall succeeded t1 -> Disciplined L t2 r -> Disciplined L (t1 ++ t2) r.
Proof.
  intros F1 D. destruct D as [t a F|t s e F Hs|t e F He].
  - constructor. by apply Forall_app.
  - rewrite app_assoc. constructor; [by apply Forall_app | done].
  - apply disc_local; [by apply Forall_app | done].
Qed.

Lemma Disciplined_rethrow {A B} L t e :
  Disciplined L t (@Throw A e) -> Disciplined L t (@Throw B e).
Proof.
  intros D. inversion D; subst.
  - by constructor.
  - by apply disc_local.
Qed.

Lemma Disciplined_normal {A} L t (a : A) :
  Disciplined L t (Normal a) -> Forall succeeded t.
Proof. by inversion 1. Qed.

Lemma Disciplined_weaken {A} (L L' : JsError -> Prop) t (r : Completion A) :
  (forall e, L e -> L' e) -> Disciplined L t r -> Disciplined L' t r.
Proof.
  intros HL D. destruct D.
  - by constructor.
  - by constructor.
  - apply disc_local; auto.
Qed.

Lemma Faithful_quiet_step {A} L (m : Js A) :
  (forall w, exists a, (m w).1 = Normal a /\ trace (m w).2 = trace w) ->
  Faithful L m.
Proof.
  intros Hm w. destruct (Hm w) as (a & E1 & E2). exists [].
  rewrite E1, E2, app_nil_r. split; [done | by repeat constructor].
Qed.

Lemma Faithful_ret {A} L (a : A) : Faithful L (mret a).
Proof. apply Faithful_quiet_step. intros w. by exists a. Qed.

Lemma Faithful_console_log L args : Faithful L (console_log args).
Proof. apply Faithful_quiet_step. intros w. by exists tt. Qed.

Lemma Faithful_console_error L context e :
  Faithful L (console_error context e).
Proof. apply Faithful_quiet_step. intros w. by exists tt. Qed.

Lemma Faithful_alloc L t : Faithful L (alloc t).
Proof. apply Faithful_quiet_step. intros w. by eexists. Qed.

Lemma Faithful_deref L r : Faithful L (deref r).
Proof. apply Faithful_quiet_step. intros w. by eexists. Qed.

Lemma Faithful_write_group L gid r : Faithful L (write_group gid r).
Proof. apply Faithful_quiet_step. intros w. by exists tt. Qed.

Lemma Faithful_throw {A} (L : JsError -> Prop) e :
  L e -> Faithful L (@throw _ A e).
Proof.
  intros He w. exists []. simpl. rewrite app_nil_r.
  split; [done | by apply disc_local].
Qed.

Lemma Faithful_external {A} L c (show : A -> Payload) f :
  Faithful L (external c show f).
Proof.
  intros w. unfold external. destruct (f (remote w)) as [[a|e] s]; simpl.
  - eexists. split; [reflexivity |]. by repeat constructor.
  - eexists. split; [reflexivity |].
    by apply (disc_failed L [] {| step_call := c; step_reply := Threw e |} e).
Qed.

Lemma Faithful_bind {A B} L (m : Js A) (f : A -> Js B) :
  Faithful L m -> (forall a, Faithful L (f a)) -> Faithful L (m ≫= f).
Proof.
  intros Hm Hf w. rewrite bind_run.
  destruct (Hm w) as (t1 & E1 & D1).
  destruct (m w) as [[a|e] w1]; simpl in *.
  - destruct (Hf a w1) as (t2 & E2 & D2).
    exists (t1 ++ t2). rewrite E2, E1, app_assoc. split; [done |].
    apply Disciplined_prepend; [by eapply Disciplined_normal | done].
  - exists t1. split; [done | by apply (Disciplined_rethrow (A:=A))].
Qed.

(** The [catch] block of the operations: log, then rethrow. *)
Lemma Faithful_try_catch {A} L (body : Js A) context :
  Faithful L body ->
  Faithful L
    (try_catch body
       (fun error => console_error context error;; throw error)).
Proof.
  intros Hm w. rewrite try_catch_run.
  destruct (Hm w) as (t1 & E1 & D1).
  destruct (body w) as [[a|e] w1]; simpl in *; by exists t1.
Qed.

Lemma Faithful_mapM {A B} L (f : A -> Js B) l :
  (forall x, Faithful L (f x)) -> Faithful L (mapM f l).
Proof.
  intros Hf. induction l as [|x l IH]; simpl.
  - apply Faithful_ret.
  - apply Faithful_bind; [apply Hf | intros y].
    apply Faithful_bind; [apply IH | intros ys]. apply Faithful_ret.
Qed.

Lemma Faithful_mapM_indexed {A B} L (f : A -> nat -> Js B) i l :
  (forall x j, Faithful L (f x j)) -> Faithful L (mapM_indexed f i l).
Proof.
  intros Hf. revert i. induction l as [|x l IH]; intros i; simpl.
  - apply Faithful_ret.
  - apply Faithful_bind; [apply Hf | intros y].
    apply Faithful_bind; [apply IH | intros ys]. apply Faithful_ret.
Qed.

Lemma Faithful_for_each_acc {A B} L (step : B -> A -> Js B) acc l :
  (forall b x, Faithful L (step b x)) -> Faithful L (for_each_acc step acc l).
Proof.
  intros Hf. revert acc. induction l as [|x l IH]; intros acc; simpl.
  - apply Faithful_ret.
  - apply Faithful_bind; [apply Hf | intros y]. apply IH.
Qed.

(** ** Logging on the way out *)



(** ** The last step before a normal return *)

Lemma Silent_ret {A} (a : A) : Silent (mret a).
Proof. by intros w. Qed.

Lemma Silent_throw {A} e : Silent (@throw _ A e).
Proof. by intros w. Qed.

Lemma Silent_console_log args : Silent (console_log args).
Proof. by intros w. Qed.

Lemma Quiet_ret {A} (a : A) : Quiet (mret a) a.
Proof. intros w b [= ->]. by split. Qed.

Lemma Quiet_throw {A} e (a : A) : Quiet (throw e) a.
Proof. by intros w b. Qed.

Lemma Quiet_seq {A B} (m : Js A) (f : A -> Js B) b :
  Silent m -> (forall a, Quiet (f a) b) -> Quiet (m ≫= f) b.
Proof.
  intros Hm Hf w b'. rewrite bind_run. specialize (Hm w).
  destruct (m w) as [[a|e] w1]; simpl in *; [| done].
  intros E. destruct (Hf a w1 b' E) as [-> E2]. split; [done | congruence].
Qed.

Lemma EndsWith_bind {A B} (Q : Step -> B -> Prop) (m : Js A) (f : A -> Js B) :
  Emits (fun _ => True) m -> (forall a, EndsWith Q (f a)) ->
  EndsWith Q (m ≫= f).
Proof.
  intros Hm Hf w b. rewrite bind_run.
  destruct (Hm w) as (t1 & E1 & _).
  destruct (m w) as [[a|e] w1]; simpl in *; [| done].
  intros E. destruct (Hf a w1 b E) as (t & s & E2 & HQ).
  exists (t1 ++ t), s. split; [| done].
  rewrite E2, E1. by rewrite !app_assoc.
Qed.

Lemma EndsWith_external {A B} (Q : Step -> B -> Prop) c
    (show : A -> Payload) f (k : A -> Js B) (g : A -> B) :
  (forall a, Quiet (k a) (g a)) ->
  (forall a, Q {| step_call := c; step_reply := Gave (show a) |} (g a)) ->
  EndsWith Q (external c show f ≫= k).
Proof.
  intros Hk HQ w b. rewrite bind_run. unfold external.
  destruct (f (remote w)) as [[a|e] s]; simpl; [| done].
  intros E. destruct (Hk a _ b E) as [-> E2].
  exists [], {| step_call := c; step_reply := Gave (show a) |}.
  split; [by rewrite E2 | apply HQ].
Qed.

Lemma EndsWith_try_catch {A} (Q : Step -> A -> Prop) (body : Js A) context :
  EndsWith Q body ->
  EndsWith Q
    (try_catch body
       (fun error => console_error context error;; throw error)).
Proof.
  intros Hm w a. rewrite try_catch_run. specialize (Hm w a).
  destruct (body w) as [[a'|e] w1]; simpl in *; [| done].
  intros E. by apply Hm.
Qed.

Lemma EndsWith_returning {A} (Q : Step -> Returned -> Prop)
    (wrap : A -> Returned) (m : Js A) :
  EndsWith (fun s a => Q s (wrap a)) m -> EndsWith Q (returning wrap m).
Proof.
  intros Hm w v. unfold returning. rewrite bind_run. specialize (Hm w).
  destruct (m w) as [[a|e] w1]; simpl in *; [| done].
  intros [= <-]. by apply Hm.
Qed.
End MoreRules.

Ltac faithful :=
  repeat
    lazymatch goal with
    | |- Faithful _ (mret _) => apply Faithful_ret
    | |- Faithful _ (mbind _ _) => apply Faithful_bind; [| intros ?]
    | |- Faithful _ (try_catch _ _) => apply Faithful_try_catch
    | |- Faithful _ (console_log _) => apply Faithful_console_log
    | |- Faithful _ (console_error _ _) => apply Faithful_console_error
    | |- Faithful _ (alloc _) => apply Faithful_alloc
    | |- Faithful _ (deref _) => apply Faithful_deref
    | |- Faithful _ (write_group _ _) => apply Faithful_write_group
    | |- Faithful _ (external _ _ _) => apply Faithful_external
    | |- Faithful _ (throw _) => apply Faithful_throw; simpl; auto
    | |- Faithful _ (mapM _ _) => apply Faithful_mapM; intros ?
    | |- Faithful _ (mapM_indexed _ _ _) =>
        apply Faithful_mapM_indexed; intros ? ?
    | |- Faithful _ (for_each_acc _ _ _) =>
        apply Faithful_for_each_acc; intros ? ?
    | |- Faithful _ (match ?x with _ => _ end) => destruct x
    | |- Faithful _ (let _ := _ in _) => cbv zeta
    | |- Faithful _ ?m => let h := script_head m in unfold h
    end.

Ltac quiet :=
  repeat
    lazymatch goal with
    | |- Quiet (mret _) _ => apply Quiet_ret
    | |- Quiet (throw _) _ => apply Quiet_throw
    | |- Quiet (mbind _ _) _ => apply Quiet_seq; [| intros ?]
    | |- Quiet (match ?x with _ => _ end) _ => destruct x
    | |- Quiet (let _ := _ in _) _ => cbv zeta
    | |- Silent (console_log _) => apply Silent_console_log
    | |- Silent (mret _) => apply Silent_ret
    | |- Silent (throw _) => apply Silent_throw
    | |- Silent (match ?x with _ => _ end) => destruct x
    end.

(** Walk to the confirmation wait, the last platform call of a
    submitting script. *)
Ltac ends_with :=
  repeat
    lazymatch goal with
    | |- EndsWith _ (returning _ _) => apply EndsWith_returning
    | |- EndsWith _ (try_catch _ _) => apply EndsWith_try_catch
    | |- EndsWith _ (mbind _ (algosdk_waitForConfirmation _ _ _)) =>
        unfold algosdk_waitForConfirmation;
        eapply EndsWith_external; [intros ?; quiet | intros ?]
    | |- EndsWith _ (mbind _ (atc_execute _ _ _)) =>
        unfold atc_execute;
        eapply EndsWith_external; [intros ?; quiet | intros ?]
    | |- EndsWith _ (mbind _ _) =>
        apply EndsWith_bind; [emits ltac:(exact I) | intros ?]
    | |- EndsWith _ (let _ := _ in _) => cbv zeta
    | |- EndsWith _ ?m => let h := script_head m in unfold h
    end.

(** * The collection, operation by operation *)

Section CollectionFacts.
Context `{Platform}.

Lemma run_budget (op : Operation) : Emits budget_ok (run op).
Proof. destruct op; simpl run; emits ltac:(by simpl). Qed.

Lemma run_faithful (op : Operation) :
  is_driver op = false -> Faithful (local_failure op) (run op).
Proof. destruct op; simpl; try discriminate; intros _; faithful. Qed.


Lemma run_ends_with (op : Operation) :
  submits op = true -> EndsWith (reports op) (run op).
Proof. destruct op; simpl; try discriminate; intros _; ends_with; done. Qed.

Lemma submits_not_driver (op : Operation) :
  submits op = true -> is_driver op = false.
Proof. by destruct op. Qed.


Lemma reports_is_wait op s v : reports op s v -> is_wait s /\ succeeded s.
Proof.
  unfold reports, is_wait, succeeded.
  destruct (step_call s), (step_reply s) as [[]|]; tauto.
Qed.
End CollectionFacts.

(** * Concrete runs on the small platform *)

Example toy_createAsset_returns_id :
  (@run toy (TO_createAsset toy_alice "Example Token" "EX" 1000000 0 None None)
     toy_world).1
  = Normal (RIndex (Some 1001%Z)).
Proof. reflexivity. Qed.

Example toy_sendPayment_returns_record :
  (@run toy (TO_sendPayment toy_alice (PartyAcct toy_bob) 1000000 None)
     toy_world).1
  = Normal (RConfirmation (toy_confirmation 1)).
Proof. reflexivity. Qed.

Example toy_recoverAccount_bad_phrase :
  (@run toy (AM_recoverAccount "") toy_world).1
  = Throw (toy_error "failed to decode mnemonic") /\
  console (@run toy (AM_recoverAccount "") toy_world).2 = [].
Proof. split; reflexivity. Qed.

Example toy_atomic_empty_group_steps :
  map step_reply
    (trace (@run toy (TO_sendAtomicTransactions toy_alice [] 5) toy_world).2)
  = [Gave (PParams (toy_params 0)); Threw (toy_error "empty group")].
Proof. reflexivity. Qed.

Example toy_atomic_groups :
  map txn_group
    (heap (@run toy
             (TO_sendAtomicTransactions toy_alice
                [PartyAcct toy_bob; PartyStr "carol"] 1000000)
             toy_world).2)
  = [Some [Byte.x67]; Some [Byte.x67]].
Proof. reflexivity. Qed.

Example proto_key_is_dropped :
  js_assign "__proto__" (SVUint 1) ∅ = ∅ /\
  js_assign "counter" (SVUint 1) ∅ !! "counter" = Some (SVUint 1).
Proof. split; reflexivity. Qed.

(** * The claims *)

(** C7. Every operation that waits for inclusion calls the wait
    primitive ([waitForConfirmation], or the composer's [execute] in the
    ABI call) with a round budget of exactly 5, whatever arguments the
    caller passes: each wait step an operation adds to the trace carries
    5, and a submitting operation that returns has ended on such a
    step. *)
Theorem C7_wait_budget_is_five `{Platform} (op : Operation) (w : World) :
  exists t,
    trace (run op w).2 = trace w ++ t /\
    (forall s, s ∈ t ->
       forall client id waitRounds,
         step_call s = CWaitForConfirmation client id waitRounds ->
         waitRounds = 5%Z) /\
    (forall s, s ∈ t ->
       forall client calls waitRounds,
         step_call s = CExecute client calls waitRounds ->
         waitRounds = 5%Z) /\
    (submits op = true ->
     forall v, (run op w).1 = Normal v ->
       exists t' s, t = t' ++ [s] /\ is_wait s /\ budget_ok s).
Proof.
  destruct (run_budget op w) as (t & E & F).
  exists t. rewrite Forall_forall in F. repeat split; [done | | |].
  - intros s Hs client id n Hc. specialize (F s Hs).
    unfold budget_ok in F. by rewrite Hc in F.
  - intros s Hs client calls n Hc. specialize (F s Hs).
    unfold budget_ok in F. by rewrite Hc in F.
  - intros Hsub v Hv.
    destruct (run_ends_with op Hsub w v Hv) as (t' & s & E' & Hr).
    rewrite E in E'. apply app_inv_head in E'. subst t.
    exists t', s. split; [done |]. split; [by eapply reports_is_wait |].
    apply F. apply elem_of_app. right. by apply list_elem_of_singleton.
Qed.

Lemma C7_wait_budget_is_five_witness :
  submits (TO_optInToAsset toy_alice 1001) = true /\
  exists v, (@run toy (TO_optInToAsset toy_alice 1001) toy_world).1 = Normal v /\
  exists t' s,
    trace (@run toy (TO_optInToAsset toy_alice 1001) toy_world).2
    = trace toy_world ++ t' ++ [s] /\ is_wait s /\ budget_ok s.
Proof.
  split; [reflexivity |].
  destruct (@C7_wait_budget_is_five toy (TO_optInToAsset toy_alice 1001)
              toy_world) as (t & E & _ & _ & Hend).
  eexists. split; [vm_compute; reflexivity |].
  destruct (Hend eq_refl _ eq_refl) as (t' & s & -> & Hs).
  by exists t', s.
Defined.

(** C2. [createMultisigAccount] performs no network call and is
    deterministic: the completion it produces (the multisig parameters
    and address, or the SDK's error) is the same in any two worlds, the
    hidden state of the node is left as it was, and the only step added
    is the local address derivation.  Both copies of the function. *)
Theorem C2_createMultisigAccount_deterministic `{Platform}
    (addresses : list AddressLike) (threshold : Z) (w1 w2 : World) :
  ((AccountManagement.createMultisigAccount addresses threshold w1).1
   = (AccountManagement.createMultisigAccount addresses threshold w2).1 /\
   remote (AccountManagement.createMultisigAccount addresses threshold w1).2
   = remote w1 /\
   exists t,
     trace (AccountManagement.createMultisigAccount addresses threshold w1).2
     = trace w1 ++ t /\ Forall local_step t) /\
  ((Examples.createMultisigAccount addresses threshold w1).1
   = (Examples.createMultisigAccount addresses threshold w2).1 /\
   remote (Examples.createMultisigAccount addresses threshold w1).2
   = remote w1 /\
   exists t,
     trace (Examples.createMultisigAccount addresses threshold w1).2
     = trace w1 ++ t /\ Forall local_step t).
Proof.
  split.
  - unfold AccountManagement.createMultisigAccount. cbv zeta.
    rewrite !bind_run. unfold algosdk_multisigAddress, pure_call, external.
    destruct (sdk_multisigAddress _) as [a|e]; simpl.
    + repeat split. eexists. split; [reflexivity |]. by repeat constructor.
    + repeat split. eexists. split; [reflexivity |]. by repeat constructor.
  - unfold Examples.createMultisigAccount. cbv zeta.
    rewrite !bind_run. unfold algosdk_multisigAddress, pure_call, external.
    destruct (sdk_multisigAddress _) as [a|e]; simpl.
    + repeat split. eexists. split; [reflexivity |]. by repeat constructor.
    + repeat split. eexists. split; [reflexivity |]. by repeat constructor.
Qed.

(** C3, as stated, fails: [createAsset] hands back the asset id, a
    number, and not the confirmation record. *)
Lemma C3_createAsset_returns_id :
  ~ @returns_reported_confirmation toy
      (TO_createAsset toy_alice "Example Token" "EX" 1000000 0 None None)
      toy_world.
Proof.
  intros Hc.
  destruct (Hc (RIndex (Some 1001%Z)) eq_refl) as (t & client & id & c & _ & Hv).
  discriminate Hv.
Qed.

(** C3, amended. A submitting operation that returns normally has ended
    on a successful confirmation wait (the composer's execution for the
    ABI call) and hands back what it makes of the reported record: the
    record itself, except that [createAsset] hands back its
    [assetIndex], [createApplication] its [applicationIndex], and
    [callABIMethod] the execution result.  If any step failed, the
    operation raised that step's error. *)
Theorem C3_submitters_return_what_was_reported `{Platform}
    (op : Operation) (w : World) :
  submits op = true ->
  (forall v, (run op w).1 = Normal v ->
     exists t s, trace (run op w).2 = trace w ++ t ++ [s] /\ reports op s v) /\
  (exists t, trace (run op w).2 = trace w ++ t /\
     forall s e, s ∈ t -> failed_with e s -> (run op w).1 = Throw e).
Proof.
  intros Hsub. split.
  - intros v Hv. by apply run_ends_with.
  - destruct (run_faithful op (submits_not_driver op Hsub) w) as (t & E & D).
    exists t. split; [done |]. intros s e Hs Hf.
    assert (Hclean : forall t0, Forall succeeded t0 -> s ∈ t0 -> False).
    { intros t0 F0 H0. rewrite Forall_forall in F0. specialize (F0 s H0).
      unfold succeeded in F0. unfold failed_with in Hf. by rewrite Hf in F0. }
    inversion D as [t0 a F|t0 s0 e0 F Hs0|t0 e0 F He0]; subst.
    + by destruct (Hclean t F).
    + apply elem_of_app in Hs as [Hs|Hs]; [by destruct (Hclean t0 F) |].
      apply list_elem_of_singleton in Hs. subst s0.
      unfold failed_with in *. congruence.
    + by destruct (Hclean t F).
Qed.

Lemma C3_submitters_return_what_was_reported_witness :
  exists t s,
    trace (@run toy (SC_createApplication toy_alice "approve" "clear"
                       None None None None) toy_world).2
    = trace toy_world ++ t ++ [s] /\
    reports (SC_createApplication toy_alice "approve" "clear"
               None None None None) s (RIndex (Some 2002%Z)).
Proof.
  exact (proj1 (@C3_submitters_return_what_was_reported toy
                  (SC_createApplication toy_alice "approve" "clear"
                     None None None None) toy_world eq_refl)
           (RIndex (Some 2002%Z)) eq_refl).
Defined.




(** * Single operations *)

Section Decoding.
Context `{Platform}.

Lemma js_assign_lookup key v (o : gmap string StateVal) k :
  js_assign key v o !! k =
  if bool_decide (key = "__proto__") then o !! k
  else if bool_decide (key = k) then Some v else o !! k.
Proof.
  unfold js_assign. repeat case_bool_decide; subst; try done.
  - by rewrite lookup_insert_eq.
  - by rewrite lookup_insert_ne.
Qed.

Lemma decode_into_decoded item o :
  exists v, decode_into o item = js_assign (base64_text (si_key item)) v o /\
            decoded_as item v.
Proof.
  unfold decode_into, decoded_as. cbv zeta.
  case_bool_decide as Ht; eexists; (split; [reflexivity |]); split; congruence.
Qed.

(** Every binding the loop leaves was there before or decodes an item. *)
Lemma decode_fold_sound items : forall (o : gmap string StateVal) k v,
  fold_left decode_into items o !! k = Some v ->
  o !! k = Some v \/
  exists item, item ∈ items /\ base64_text (si_key item) = k /\
               decoded_as item v.
Proof.
  induction items as [|item items IH]; intros o k v Hk; cbn [fold_left] in *.
  - by left.
  - destruct (IH _ _ _ Hk) as [Ho|(it & Hin & Hkey & Hd)].
    + destruct (decode_into_decoded item o) as (v' & E & Hd).
      rewrite E, js_assign_lookup in Ho.
      repeat case_bool_decide; simplify_eq; eauto.
      right. exists item. split; [apply list_elem_of_here | done].
    + right. exists it. split; [by apply list_elem_of_further | done].
Qed.

Lemma decode_fold_other items : forall (o : gmap string StateVal) k,
  (forall it, it ∈ items -> base64_text (si_key it) <> k) ->
  fold_left decode_into items o !! k = o !! k.
Proof.
  induction items as [|item items IH]; intros o k Hk; cbn [fold_left];
    [done |].
  rewrite IH.
  - destruct (decode_into_decoded item o) as (v' & E & _).
    rewrite E, js_assign_lookup. repeat case_bool_decide; try done.
    destruct (Hk item); [apply list_elem_of_here | done].
  - intros it Hit. apply Hk. by apply list_elem_of_further.
Qed.

(** The last entry under a key is the one that stays. *)
Lemma decode_fold_last before item after (o : gmap string StateVal) :
  base64_text (si_key item) <> "__proto__" ->
  (forall it, it ∈ after ->
     base64_text (si_key it) <> base64_text (si_key item)) ->
  exists v,
    fold_left decode_into (before ++ item :: after) o
      !! base64_text (si_key item) = Some v /\
    decoded_as item v.
Proof.
  intros Hproto Hafter. rewrite fold_left_app. cbn [fold_left].
  rewrite decode_fold_other by done.
  destruct (decode_into_decoded item (fold_left decode_into before o))
    as (v & E & Hd).
  exists v. split; [| done].
  rewrite E, js_assign_lookup. by repeat case_bool_decide.
Qed.

Lemma find_absent appId (apps : list AppLocalState) :
  (forall app, app ∈ apps -> als_id app <> appId) ->
  List.find (fun app => bool_decide (als_id app = appId)) apps = None.
Proof.
  induction apps as [|app apps IH]; intros Hall; simpl; [done |].
  case_bool_decide as Hid.
  - destruct (Hall app); [apply list_elem_of_here | done].
  - apply IH. intros a Ha. apply Hall. by apply list_elem_of_further.
Qed.

Lemma readGlobalState_run appId (w : World) app s :
  net_getApplicationByID testnet appId (remote w) = (Normal app, s) ->
  (SmartContracts.readGlobalState appId w).1 =
  Normal (match global_state (app_params app) with
          | Some items => fold_left decode_into items ∅
          | None => ∅
          end).
Proof.
  intros Hnet. unfold SmartContracts.readGlobalState.
  rewrite try_catch_run, bind_run. simpl.
  rewrite bind_run. unfold getApplicationByID, external.
  fold testnet. rewrite Hnet. simpl. done.
Qed.

Lemma readLocalState_run account appId (w : World) info s :
  net_accountInformation testnet (addressOf account) (remote w)
  = (Normal info, s) ->
  (SmartContracts.readLocalState account appId w).1 =
  Normal (match ai_apps_local_state info with
          | Some apps =>
              match List.find (fun app => bool_decide (als_id app = appId))
                      apps with
              | Some found =>
                  match als_key_value found with
                  | Some items => fold_left decode_into items ∅
                  | None => ∅
                  end
              | None => ∅
              end
          | None => ∅
          end).
Proof.
  intros Hnet. unfold SmartContracts.readLocalState.
  rewrite try_catch_run, bind_run. simpl.
  rewrite bind_run. unfold accountInformation, external.
  fold testnet. rewrite Hnet. simpl. done.
Qed.

Lemma reader_delivered r (w : World) items :
  delivered r w items -> (reader r w).1 = Normal (fold_left decode_into items ∅).
Proof.
  destruct r as [appId|account appId]; simpl.
  - intros (app & s & Hnet & Hitems).
    rewrite (readGlobalState_run _ _ _ _ Hnet). by rewrite Hitems.
  - intros (info & s & apps & found & Hnet & Happs & Hfind & Hitems).
    rewrite (readLocalState_run _ _ _ _ _ Hnet).
    by rewrite Happs, Hfind, Hitems.
Qed.
End Decoding.

(** C6. Whenever the node delivers a key/value list to
    [readGlobalState] or [readLocalState], the reader returns an object
    in which every property is the decoding of an entry of the list
    under its decoded key: the base64-decoded payload as text when the
    entry's type tag is 1, the entry's integer field for any other tag.
    Conversely the last entry under a key (other than [__proto__]) is
    the one found under that key. *)
Theorem C6_state_entries_decoded `{Platform}
    (r : Reading) (w : World) (items : list StateItem) :
  delivered r w items ->
  exists m,
    (reader r w).1 = Normal m /\
    (forall k v, m !! k = Some v ->
       exists item, item ∈ items /\ base64_text (si_key item) = k /\
                    decoded_as item v) /\
    (forall before item after,
       items = before ++ item :: after ->
       base64_text (si_key item) <> "__proto__" ->
       (forall it, it ∈ after ->
          base64_text (si_key it) <> base64_text (si_key item)) ->
       exists v, m !! base64_text (si_key item) = Some v /\
                 decoded_as item v).
Proof.
  intros Hd. eexists. split; [by apply reader_delivered |]. split.
  - intros k v Hk. destruct (decode_fold_sound _ _ _ _ Hk) as [He|Hi]; [| done].
    by rewrite lookup_empty in He.
  - intros before item after -> Hproto Hafter. by apply decode_fold_last.
Qed.

Lemma C6_state_entries_decoded_witness :
  @delivered toy (ReadGlobal 7) toy_world toy_items /\
  exists m,
    (@reader toy (ReadGlobal 7) toy_world).1 = Normal m /\
    m !! "owner" = Some (SVText "alice") /\
    m !! "counter" = Some (SVUint 7).
Proof.
  assert (Hd : @delivered toy (ReadGlobal 7) toy_world toy_items).
  { simpl. eexists _, _. split; reflexivity. }
  split; [exact Hd |].
  destruct (@C6_state_entries_decoded toy (ReadGlobal 7) toy_world toy_items Hd)
    as (m & Hm & _ & Hlast).
  exists m. split; [exact Hm |]. split.
  - destruct (Hlast [ {| si_key := "counter";
                         si_value := {| tv_type := 2; tv_bytes := "";
                                        tv_uint := 7 |} |} ]
                {| si_key := "owner";
                   si_value := {| tv_type := 1; tv_bytes := "alice";
                                  tv_uint := 0 |} |} [] eq_refl)
      as (v & Hv & Hdec & _).
    + vm_compute. discriminate.
    + intros it Hit. by apply elem_of_nil in Hit.
    + rewrite (Hdec eq_refl) in Hv. exact Hv.
  - destruct (Hlast []
                {| si_key := "counter";
                   si_value := {| tv_type := 2; tv_bytes := "";
                                  tv_uint := 7 |} |}
                [ {| si_key := "owner";
                     si_value := {| tv_type := 1; tv_bytes := "alice";
                                    tv_uint := 0 |} |} ] eq_refl)
      as (v & Hv & _ & Hdec).
    + vm_compute. discriminate.
    + intros it Hit. apply list_elem_of_singleton in Hit. subst it.
      vm_compute. discriminate.
    + rewrite Hdec in Hv by discriminate. exact Hv.
Defined.

(** C10. When the node's answer has no list to decode (no
    ['global-state'] for [readGlobalState]; no ['apps-local-state'], or
    no entry in it with the requested id, for [readLocalState]) the
    reader returns the empty object and does not raise. *)
Theorem C10_readers_return_empty_object `{Platform} (r : Reading) (w : World) :
  nothing_delivered r w -> (reader r w).1 = Normal ∅.
Proof.
  destruct r as [appId|account appId]; simpl.
  - intros (app & s & Hnet & Hnone).
    rewrite (readGlobalState_run _ _ _ _ Hnet). by rewrite Hnone.
  - intros (info & s & Hnet & Hcase).
    rewrite (readLocalState_run _ _ _ _ _ Hnet).
    destruct Hcase as [-> | (apps & -> & Hall)]; [done |].
    by rewrite find_absent.
Qed.

Lemma C10_readers_return_empty_object_witness :
  @nothing_delivered toy (ReadLocal (PartyStr "bob") 8) toy_world /\
  (@reader toy (ReadLocal (PartyStr "bob") 8) toy_world).1 = Normal ∅.
Proof.
  assert (Hn : @nothing_delivered toy (ReadLocal (PartyStr "bob") 8) toy_world).
  { simpl. eexists _, _. split; [reflexivity |]. right.
    eexists. split; [reflexivity |].
    intros app Happ. apply list_elem_of_singleton in Happ. by subst app. }
  split; [exact Hn |].
  exact (@C10_readers_return_empty_object toy
           (ReadLocal (PartyStr "bob") 8) toy_world Hn).
Defined.

Section Accounts.
Context `{Platform}.

Lemma AM_generateAccount_run (w : World) :
  forall m, sdk_secretKeyToMnemonic (sk (sdk_generateAccount (remote w)).1)
            = Normal m ->
  (AccountManagement.generateAccount w).1 =
  Normal {| AccountManagement.account := (sdk_generateAccount (remote w)).1;
            AccountManagement.mnemonic := m |}.
Proof.
  intros m Hm. unfold AccountManagement.generateAccount.
  rewrite bind_run. unfold algosdk_generateAccount, external.
  destruct (sdk_generateAccount (remote w)) as [a s]. simpl in *.
  rewrite bind_run. simpl. rewrite bind_run.
  unfold algosdk_secretKeyToMnemonic, pure_call, external. simpl.
  by rewrite Hm.
Qed.

Lemma EX_generateAccount_run (w : World) :
  forall m, sdk_secretKeyToMnemonic (sk (sdk_generateAccount (remote w)).1)
            = Normal m ->
  (Examples.generateAccount w).1 =
  Normal {| Examples.account := (sdk_generateAccount (remote w)).1;
            Examples.mnemonic := m |}.
Proof.
  intros m Hm. unfold Examples.generateAccount.
  rewrite bind_run. unfold algosdk_generateAccount, external.
  destruct (sdk_generateAccount (remote w)) as [a s]. simpl in *.
  rewrite bind_run. simpl. rewrite bind_run.
  unfold algosdk_secretKeyToMnemonic, pure_call, external. simpl.
  by rewrite Hm.
Qed.

Lemma AM_recoverAccount_run (w : World) m a :
  sdk_mnemonicToSecretKey m = Normal a ->
  (AccountManagement.recoverAccount m w).1 = Normal a.
Proof.
  intros Hm. unfold AccountManagement.recoverAccount.
  rewrite bind_run. unfold algosdk_mnemonicToSecretKey, pure_call, external.
  simpl. by rewrite Hm.
Qed.

Lemma EX_recoverAccount_run (w : World) m a :
  sdk_mnemonicToSecretKey m = Normal a ->
  (Examples.recoverAccount m w).1 = Normal a.
Proof.
  intros Hm. unfold Examples.recoverAccount.
  rewrite bind_run. unfold algosdk_mnemonicToSecretKey, pure_call, external.
  simpl. by rewrite Hm.
Qed.
End Accounts.

(** C1. Given the SDK's phrase round trip, [generateAccount] returns an
    account together with its phrase, and [recoverAccount] on that
    phrase, in whatever world it is called, returns an account with the
    identical address.  Both copies of the two functions. *)
Theorem C1_recover_generated_address `{Platform} (w : World) :
  phrase_round_trip ->
  (exists g,
     (AccountManagement.generateAccount w).1 = Normal g /\
     forall w', exists a,
       (AccountManagement.recoverAccount (AccountManagement.mnemonic g) w').1
       = Normal a /\
       addr a = addr (AccountManagement.account g) /\
       sdk_addressToString (addr a)
       = sdk_addressToString (addr (AccountManagement.account g))) /\
  (exists g,
     (Examples.generateAccount w).1 = Normal g /\
     forall w', exists a,
       (Examples.recoverAccount (Examples.mnemonic g) w').1 = Normal a /\
       addr a = addr (Examples.account g) /\
       sdk_addressToString (addr a)
       = sdk_addressToString (addr (Examples.account g))).
Proof.
  intros Hlaw. destruct (Hlaw (remote w)) as (m & a & Hm & Ha & Haddr).
  split.
  - eexists. split; [by apply AM_generateAccount_run |].
    intros w'. exists a. simpl.
    split; [by apply AM_recoverAccount_run |]. split; [done | by f_equal].
  - eexists. split; [by apply EX_generateAccount_run |].
    intros w'. exists a. simpl.
    split; [by apply EX_recoverAccount_run |]. split; [done | by f_equal].
Qed.

Lemma toy_phrase_round_trip : @phrase_round_trip toy.
Proof.
  intros s. simpl.
  exists (string_of_list_byte (toy_key s)), (toy_account (toy_key s)).
  split; [done |]. split; [| done].
  unfold toy_key. simpl.
  by rewrite list_byte_of_string_of_list_byte.
Qed.

Lemma C1_recover_generated_address_witness :
  @phrase_round_trip toy /\
  exists g,
    (@AccountManagement.generateAccount toy toy_world).1 = Normal g /\
    exists a,
      (@AccountManagement.recoverAccount toy
         (AccountManagement.mnemonic g) toy_world).1 = Normal a /\
      addr a = addr (AccountManagement.account g).
Proof.
  split; [exact toy_phrase_round_trip |].
  destruct (@C1_recover_generated_address toy toy_world toy_phrase_round_trip)
    as [(g & Hg & Hr) _].
  exists g. split; [exact Hg |].
  destruct (Hr toy_world) as (a & Ha & Haddr & _).
  by exists a.
Defined.

(** * What a script does first *)

Section Prefix.
Context `{Platform}.

Lemma adds_ret_bind {A B} (a : A) (k : A -> Js B) w P :
  adds (k a) w P -> adds (mret a ≫= k) w P.
Proof. done. Qed.

Lemma adds_try_catch {A} (body : Js A) context w P :
  adds body w P ->
  adds (try_catch body
          (fun error => console_error context error;; throw error)) w P.
Proof.
  intros (t & E & HP). exists t. split; [| done].
  rewrite try_catch_run. by destruct (body w) as [[a|e] w1].
Qed.

Lemma adds_external_ok {A B} c (show : A -> Payload) f (k : A -> Js B)
    w a s' (P : list Step -> Prop) :
  f (remote w) = (Normal a, s') ->
  (forall w1, adds (k a) w1 P) ->
  adds (external c show f ≫= k) w
    (fun t => exists t',
       t = {| step_call := c; step_reply := Gave (show a) |} :: t' /\ P t').
Proof.
  intros Hf Hk. unfold adds. rewrite bind_run. unfold external. rewrite Hf.
  simpl. edestruct Hk as (t' & -> & HP). simpl.
  eexists. split; [by rewrite <- app_assoc | eauto].
Qed.

Lemma adds_weaken {A} (m : Js A) w (P Q : list Step -> Prop) :
  adds m w P -> (forall t, P t -> Q t) -> adds m w Q.
Proof. intros (t & E & HP) HPQ. exists t. auto. Qed.

Lemma adds_makeTxn {A} req (k : TxnRef -> Js A) w :
  (forall x, Emits (fun _ => True) (k x)) ->
  adds (makeTxn req ≫= k) w
    (fun t => exists r t',
       t = {| step_call := CMakeTxn req; step_reply := r |} :: t').
Proof.
  intros Hk. unfold adds, makeTxn. rewrite !bind_run.
  unfold pure_call, external.
  destruct (sdk_makeTxn req) as [[]|e]; simpl.
  - edestruct (Hk (length (heap w))) as (t' & -> & _). simpl.
    eexists. split; [by rewrite <- app_assoc | eauto].
  - eexists. split; [done | eauto].
Qed.
End Prefix.

(** C5. [optInToAsset] builds its request as a zero-amount asset
    transfer from the account's address to itself: every request either
    copy of the function constructs is that transfer of the given asset
    id, constructing it is a local step (no call to the node), and as
    soon as the node has supplied the transaction parameters the very
    next step is that construction. *)
Theorem C5_optIn_is_zero_self_transfer `{Platform}
    (account : Account) (assetId : Z) (w : World) :
  forall optInToAsset,
    optInToAsset = TransactionOperations.optInToAsset \/
    optInToAsset = Examples.optInToAsset ->
    exists t,
      trace (optInToAsset account assetId w).2 = trace w ++ t /\
      (forall s req, s ∈ t -> step_call s = CMakeTxn req ->
         local_step s /\
         exists sp, req = zero_self_transfer (addr account) assetId sp) /\
      (forall sp s',
         net_getTransactionParams testnet (remote w) = (Normal sp, s') ->
         exists r t',
           t = {| step_call := CGetTransactionParams testnet;
                  step_reply := Gave (PParams sp) |}
               :: {| step_call :=
                       CMakeTxn (zero_self_transfer (addr account) assetId sp);
                     step_reply := r |}
               :: t').
Proof.
  intros optInToAsset Hwhich.
  assert (Hshape :
    Emits (fun s => forall req, step_call s = CMakeTxn req ->
             local_step s /\
             exists sp, req = zero_self_transfer (addr account) assetId sp)
      (optInToAsset account assetId)).
  { destruct Hwhich as [-> | ->];
      emits ltac:(simpl; intros ? ?; simplify_eq;
                  try (split; [done | by eexists])). }
  destruct (Hshape w) as (t & E & F). exists t. split; [done |]. split.
  - intros s req Hs. rewrite Forall_forall in F. by apply F.
  - intros sp s' Hp.
    assert (Hfirst :
      adds (optInToAsset account assetId) w
        (fun t => exists t',
           t = {| step_call := CGetTransactionParams testnet;
                  step_reply := Gave (PParams sp) |} :: t' /\
           exists r t'',
             t' = {| step_call :=
                       CMakeTxn (zero_self_transfer (addr account) assetId sp);
                     step_reply := r |} :: t'')).
    { destruct Hwhich as [-> | ->].
      - unfold TransactionOperations.optInToAsset,
          TransactionOperations.getAlgodClient.
        apply adds_try_catch, adds_ret_bind. unfold getTransactionParams.
        eapply adds_external_ok; [exact Hp | intros w1].
        apply adds_makeTxn. intros x. emits ltac:(exact I).
      - unfold Examples.optInToAsset, Examples.getAlgodClient.
        apply adds_try_catch, adds_ret_bind. unfold getTransactionParams.
        eapply adds_external_ok; [exact Hp | intros w1].
        apply adds_makeTxn. intros x. emits ltac:(exact I). }
    destruct Hfirst as (t0 & E0 & t' & -> & r & t'' & ->).
    rewrite E in E0. apply app_inv_head in E0. subst t. eauto.
Qed.

Lemma C5_optIn_is_zero_self_transfer_witness :
  exists r t',
    trace (@TransactionOperations.optInToAsset toy toy_alice 1001 toy_world).2
    = trace toy_world ++
      {| step_call := CGetTransactionParams testnet;
         step_reply := Gave (PParams (toy_params 0)) |}
      :: {| step_call :=
              CMakeTxn (zero_self_transfer (addr toy_alice) 1001 (toy_params 0));
            step_reply := r |}
      :: t'.
Proof.
  destruct (@C5_optIn_is_zero_self_transfer toy toy_alice 1001 toy_world
              _ (or_introl eq_refl)) as (t & E & _ & Hfirst).
  destruct (Hfirst (toy_params 0) 0%nat eq_refl) as (r & t' & ->).
  by exists r, t'.
Defined.

(** C9. In [sendPayment] of src/transaction-operations.js every payment
    request constructed has no note when the [note] argument is omitted
    or is the empty string, and has exactly the encoder's bytes of the
    string when it is a non-empty string; and as soon as the node has
    supplied the transaction parameters the very next step is the
    construction of a payment request. *)
Theorem C9_sendPayment_note `{Platform}
    (sender : Account) (receiver : Party) (amount : Z) (note : option string)
    (w : World) :
  exists t,
    trace (TransactionOperations.sendPayment sender receiver amount note w).2
    = trace w ++ t /\
    (forall s req, s ∈ t -> step_call s = CMakeTxn req ->
       exists f,
         req = MakePayment f /\
         (note = None \/ note = Some "" -> pay_note f = None) /\
         (forall text, note = Some text -> text <> "" ->
            pay_note f = Some (TextEncoder_encode text))) /\
    (forall sp s',
       net_getTransactionParams testnet (remote w) = (Normal sp, s') ->
       exists f r t',
         t = {| step_call := CGetTransactionParams testnet;
                step_reply := Gave (PParams sp) |}
             :: {| step_call := CMakeTxn (MakePayment f); step_reply := r |}
             :: t').
Proof.
  assert (Hshape :
    Emits (fun s => forall req, step_call s = CMakeTxn req ->
             exists f,
               req = MakePayment f /\
               (note = None \/ note = Some "" -> pay_note f = None) /\
               (forall text, note = Some text -> text <> "" ->
                  pay_note f = Some (TextEncoder_encode text)))
      (TransactionOperations.sendPayment sender receiver amount note)).
  { emits ltac:(simpl; intros ? ?; simplify_eq;
                try (eexists; split; [done |]; simpl; split;
                     [ by intros [-> | ->]
                     | intros text -> Htext; simpl; by destruct text ])). }
  destruct (Hshape w) as (t & E & F). exists t. split; [done |]. split.
  - intros s req Hs. rewrite Forall_forall in F. by apply F.
  - intros sp s' Hp.
    assert (Hfirst :
      adds (TransactionOperations.sendPayment sender receiver amount note) w
        (fun t => exists t',
           t = {| step_call := CGetTransactionParams testnet;
                  step_reply := Gave (PParams sp) |} :: t' /\
           exists f r t'',
             t' = {| step_call := CMakeTxn (MakePayment f);
                     step_reply := r |} :: t'')).
    { unfold TransactionOperations.sendPayment,
        TransactionOperations.getAlgodClient.
      apply adds_try_catch, adds_ret_bind. unfold getTransactionParams.
      eapply adds_external_ok; [exact Hp | intros w1].
      eapply adds_weaken;
        [apply adds_makeTxn; intros x; emits ltac:(exact I) |].
      intros t1 (r & t'' & ->). eauto. }
    destruct Hfirst as (t0 & E0 & t' & -> & f & r & t'' & ->).
    rewrite E in E0. apply app_inv_head in E0. subst t. eauto.
Qed.

Lemma C9_sendPayment_note_witness :
  exists f r t',
    trace (@TransactionOperations.sendPayment toy toy_alice
             (PartyAcct toy_bob) 1000000 (Some "Example payment")
             toy_world).2
    = trace toy_world ++
      {| step_call := CGetTransactionParams testnet;
         step_reply := Gave (PParams (toy_params 0)) |}
      :: {| step_call := CMakeTxn (MakePayment f); step_reply := r |}
      :: t' /\
    pay_note f = Some (@TextEncoder_encode toy "Example payment").
Proof.
  destruct (@C9_sendPayment_note toy toy_alice (PartyAcct toy_bob) 1000000
              (Some "Example payment") toy_world)
    as (t & E & Hshape & Hfirst).
  destruct (Hfirst (toy_params 0) 0%nat eq_refl) as (f & r & t' & ->).
  exists f, r, t'. split; [exact E |].
  destruct (Hshape _ (MakePayment f)
              (list_elem_of_further _ _ _ (list_elem_of_here _ _)) eq_refl)
    as (f' & [= <-] & _ & Hnote).
  by apply Hnote.
Defined.

(** * Atomic groups *)

Section GroupFacts.
Context `{Platform}.







(** ** Allocation *)

Lemma makeTxn_run req (w : World) :
  makeTxn req w =
  match sdk_makeTxn req with
  | Normal _ =>
      (Normal (length (heap w)),
       {| remote := remote w;
          heap := heap w ++ [{| txn_fields := req; txn_group := None |}];
          console := console w;
          trace := trace w ++
                   [{| step_call := CMakeTxn req; step_reply := Gave PUnit |}]
       |})
  | Throw e =>
      (Throw e,
       {| remote := remote w; heap := heap w; console := console w;
          trace := trace w ++
                   [{| step_call := CMakeTxn req; step_reply := Threw e |}]
       |})
  end.
Proof.
  unfold makeTxn. rewrite bind_run. unfold pure_call, external.
  by destruct (sdk_makeTxn req) as [[]|e].
Qed.


(** ** Writing the identifier *)

Lemma set_group_idem gid o : set_group gid (set_group gid o) = set_group gid o.
Proof. done. Qed.


Lemma deref_all_run refs (w : World) :
  mapM deref refs w = (Normal (map (fun r => heap w !! r) refs), w).
Proof.
  induction refs as [|r refs IH]; simpl; [done |].
  rewrite bind_run. unfold deref at 1. rewrite bind_run, IH. done.
Qed.

Lemma write_all_run gid refs : forall (w : World),
  exists w',
    mapM (write_group gid) refs w = (Normal (map (fun _ => tt) refs), w') /\
    heap w' = foldl (fun h r => alter (set_group gid) r h) (heap w) refs /\
    trace w' = trace w.
Proof.
  induction refs as [|r refs IH]; intros w; simpl.
  - by exists w.
  - rewrite bind_run. unfold write_group at 1. rewrite bind_run.
    destruct (IH {| remote := remote w;
                    heap := alter (set_group gid) r (heap w);
                    console := console w; trace := trace w |})
      as (w' & -> & Hh & Ht).
    by exists w'.
Qed.

(** [assignGroupID] either fails, leaving the objects alone, or
    succeeds with one identifier, written into every object listed. *)
Lemma assignGroupID_run refs (w : World) :
  (exists e,
     (algosdk_assignGroupID refs w).1 = Throw e /\
     trace (algosdk_assignGroupID refs w).2
     = trace w ++ [{| step_call := CAssignGroupID refs;
                      step_reply := Threw e |}] /\
     heap (algosdk_assignGroupID refs w).2 = heap w) \/
  (exists gid,
     (algosdk_assignGroupID refs w).1 = Normal tt /\
     trace (algosdk_assignGroupID refs w).2
     = trace w ++ [assigned refs gid] /\
     heap (algosdk_assignGroupID refs w).2
     = foldl (fun h r => alter (set_group gid) r h) (heap w) refs).
Proof.
  unfold algosdk_assignGroupID. rewrite bind_run, deref_all_run.
  rewrite bind_run. unfold pure_call, external.
  destruct (sdk_computeGroupID _) as [gid|e]; simpl.
  - right. exists gid. rewrite bind_run.
    destruct (write_all_run gid refs
      {| remote := remote w; heap := heap w; console := console w;
         trace := trace w ++ [assigned refs gid] |}) as (w' & E & Hh & Ht).
    unfold assigned in *. simpl in *. rewrite E. simpl. by rewrite Hh, Ht.
  - left. by exists e.
Qed.

End GroupFacts.



Section AtomicGroups.
Context `{Platform}.






End AtomicGroups.



(** * Further properties of the scripts *)

Section RunEquations.
Context `{Platform}.

Lemma console_log_run args (w : World) :
  console_log args w =
  (Normal tt,
   {| remote := remote w; heap := heap w;
      console := console w ++ [ConsoleLog args]; trace := trace w |}).
Proof. reflexivity. Qed.

Lemma console_error_run context e (w : World) :
  console_error context e w =
  (Normal tt,
   {| remote := remote w; heap := heap w;
      console := console w ++ [ConsoleError context e]; trace := trace w |}).
Proof. reflexivity. Qed.

Lemma throw_run {A} e (w : World) : @throw _ A e w = (Throw e, w).
Proof. reflexivity. Qed.

Lemma external_run {A} c (show : A -> Payload) f (w : World) :
  external c show f w =
  (let '(r, s) := f (remote w) in
   (r, {| remote := s; heap := heap w; console := console w;
          trace := trace w ++
                   [{| step_call := c; step_reply := reply_of show r |}] |})).
Proof. reflexivity. Qed.

Lemma pure_call_run {A} c (show : A -> Payload) (r : Completion A)
    (w : World) :
  pure_call c show r w =
  (r, {| remote := remote w; heap := heap w; console := console w;
         trace := trace w ++
                  [{| step_call := c; step_reply := reply_of show r |}] |}).
Proof. reflexivity. Qed.

Lemma signTxn_run ref key (w : World) :
  signTxn ref key w =
  (match heap w !! ref with
   | Some t => sdk_signTxn t key
   | None => Throw (TypeError "signTxn")
   end,
   {| remote := remote w; heap := heap w; console := console w;
      trace := trace w ++
               [{| step_call := CSignTxn ref (heap w !! ref) key;
                   step_reply :=
                     reply_of PBytes
                       (match heap w !! ref with
                        | Some t => sdk_signTxn t key
                        | None => Throw (TypeError "signTxn")
                        end) |}] |}).
Proof. reflexivity. Qed.

Lemma lookup_fresh {A} (l : list A) (x : A) : (l ++ [x]) !! length l = Some x.
Proof. by apply list_lookup_middle. Qed.

(** Binding a value that is already there. *)
Lemma ret_bind {A B} (a : A) (k : A -> Js B) : (mret a ≫= k) = k a.
Proof. reflexivity. Qed.

Lemma returning_run {A} (wrap : A -> Returned) (m : Js A) (w : World) :
  returning wrap m w =
  match m w with
  | (Normal a, w') => (Normal (wrap a), w')
  | (Throw e, w') => (Throw e, w')
  end.
Proof. reflexivity. Qed.

(** The sequence, whatever the request and the logging around it. *)
Lemma workflow_body {B} client req key
    (line : SubmitResponse -> list Shown) (tail : Confirmation -> Js B)
    (g : Confirmation -> B) (w : World) :
  (forall c w1, (tail c w1).1 = Normal (g c) /\
                trace (tail c w1).2 = trace w1) ->
  exists t o,
    trace ((getTransactionParams client ≫= fun sp =>
            makeTxn (req sp) ≫= fun txn =>
            signTxn txn key ≫= fun signedTxn =>
            sendRawTransaction client (OneBlob signedTxn) ≫= fun submitted =>
            console_log (line submitted) ≫= fun _ =>
            algosdk_waitForConfirmation client (txId submitted) 5 ≫= tail)
             w).2
    = trace w ++ t /\
    Workflow client req key (length (heap w)) t o /\
    ((getTransactionParams client ≫= fun sp =>
      makeTxn (req sp) ≫= fun txn =>
      signTxn txn key ≫= fun signedTxn =>
      sendRawTransaction client (OneBlob signedTxn) ≫= fun submitted =>
      console_log (line submitted) ≫= fun _ =>
      algosdk_waitForConfirmation client (txId submitted) 5 ≫= tail) w).1
    = match o with
      | Normal c => Normal (g c)
      | Throw e => Throw e
      end.
Proof.
  intros Htail.
  match goal with
  | |- context [trace (?m w).2] => remember (m w) as fin eqn:E
  end.
  rewrite bind_run in E.
  unfold getTransactionParams in E. rewrite external_run in E.
  destruct (net_getTransactionParams client (remote w)) as [[sp|e] s];
    cbv iota beta zeta in E.
  2:{ subst fin. exists [threw (CGetTransactionParams client) e], (Throw e).
      split; [done |]. split; [constructor | done]. }
  rewrite bind_run, makeTxn_run in E. cbn [remote heap console trace] in E.
  destruct (sdk_makeTxn (req sp)) as [[]|e]; cbv iota beta zeta in E.
  2:{ subst fin. eexists [_; _], (Throw e). simpl. rewrite <- app_assoc.
      split; [done |]. split; [apply wf_not_built | done]. }
  rewrite bind_run, signTxn_run in E. cbn [remote heap console trace] in E.
  rewrite lookup_fresh in E.
  destruct (sdk_signTxn _ key) as [blob|e]; cbv iota beta zeta in E.
  2:{ subst fin. eexists [_; _; _], (Throw e). simpl. rewrite <- !app_assoc.
      split; [done |]. split; [apply wf_not_signed | done]. }
  rewrite bind_run in E. unfold sendRawTransaction in E.
  rewrite external_run in E. cbn [remote heap console trace] in E.
  destruct (net_sendRawTransaction client (OneBlob blob) s)
    as [[submitted|e] s2]; cbv iota beta zeta in E.
  2:{ subst fin. eexists [_; _; _; _], (Throw e). simpl.
      rewrite <- !app_assoc.
      split; [done |]. split; [apply wf_not_submitted | done]. }
  rewrite bind_run, console_log_run in E. cbv iota beta zeta in E.
  rewrite bind_run in E. unfold algosdk_waitForConfirmation in E.
  rewrite external_run in E. cbn [remote heap console trace] in E.
  destruct (net_waitForConfirmation client (txId submitted) 5 s2)
    as [[c|e] s3]; cbv iota beta zeta in E.
  2:{ subst fin. eexists [_; _; _; _; _], (Throw e). simpl.
      rewrite <- !app_assoc.
      split; [done |]. split; [apply wf_not_confirmed | done]. }
  match type of E with
  | context [tail c ?w1] =>
      destruct (Htail c w1) as [Hr Ht]; destruct (tail c w1) as [r w'];
      simpl in Hr, Ht; subst r
  end.
  subst fin. eexists [_; _; _; _; _], (Normal c). simpl.
  rewrite Ht. simpl. rewrite <- !app_assoc.
  split; [done |]. split; [apply wf_confirmed | done].
Qed.

(** A [catch] that logs and rethrows changes neither the steps nor
    the completion. *)
Lemma rethrow_transparent {A} (body : Js A) context (w : World) :
  trace (try_catch body
           (fun error => console_error context error;; throw error) w).2
  = trace (body w).2 /\
  heap (try_catch body
          (fun error => console_error context error;; throw error) w).2
  = heap (body w).2 /\
  (try_catch body
     (fun error => console_error context error;; throw error) w).1
  = (body w).1.
Proof. rewrite try_catch_run. by destruct (body w) as [[a|e] w1]. Qed.

Lemma returning_transparent {A} (wrap : A -> Returned) (m : Js A) (w : World) :
  trace (returning wrap m w).2 = trace (m w).2 /\
  heap (returning wrap m w).2 = heap (m w).2 /\
  console (returning wrap m w).2 = console (m w).2 /\
  (returning wrap m w).1 =
  match (m w).1 with
  | Normal a => Normal (wrap a)
  | Throw e => Throw e
  end.
Proof. rewrite returning_run. by destruct (m w) as [[a|e] w1]. Qed.

Lemma workflow_run {B} (wrap : B -> Returned) client req key
    (line : SubmitResponse -> list Shown) (tail : Confirmation -> Js B)
    (g : Confirmation -> B) (h : Confirmation -> Returned) context (w : World) :
  (forall c w1, (tail c w1).1 = Normal (g c) /\
                trace (tail c w1).2 = trace w1) ->
  (forall c, wrap (g c) = h c) ->
  exists t o,
    trace (returning wrap
      (try_catch
         (getTransactionParams client ≫= fun sp =>
          makeTxn (req sp) ≫= fun txn =>
          signTxn txn key ≫= fun signedTxn =>
          sendRawTransaction client (OneBlob signedTxn) ≫= fun submitted =>
          console_log (line submitted) ≫= fun _ =>
          algosdk_waitForConfirmation client (txId submitted) 5 ≫= tail)
         (fun error => console_error context error;; throw error)) w).2
    = trace w ++ t /\
    Workflow client req key (length (heap w)) t o /\
    (returning wrap
      (try_catch
         (getTransactionParams client ≫= fun sp =>
          makeTxn (req sp) ≫= fun txn =>
          signTxn txn key ≫= fun signedTxn =>
          sendRawTransaction client (OneBlob signedTxn) ≫= fun submitted =>
          console_log (line submitted) ≫= fun _ =>
          algosdk_waitForConfirmation client (txId submitted) 5 ≫= tail)
         (fun error => console_error context error;; throw error)) w).1
    = match o with
      | Normal c => Normal (h c)
      | Throw e => Throw e
      end.
Proof.
  intros Htail Hwrap.
  destruct (workflow_body client req key line tail g w Htail)
    as (t & o & E & W & R).
  exists t, o.
  match goal with
  | |- context [returning wrap ?m w] =>
      destruct (returning_transparent wrap m w) as (-> & _ & _ & ->)
  end.
  match goal with
  | |- context [try_catch ?b _ w] =>
      destruct (rethrow_transparent b context w) as (-> & _ & ->)
  end.
  split; [done |]. split; [done |]. rewrite R.
  destruct o; [by rewrite Hwrap | done].
Qed.
End RunEquations.

(** Step inside an operation: past the wrapper of the collection and
    the [catch] that logs and rethrows, naming the run of the body. *)
Ltac enter_body :=
  match goal with
  | |- context [returning ?wrap ?m ?w] =>
      destruct (returning_transparent wrap m w) as (-> & _ & _ & ->)
  end;
  match goal with
  | |- context [try_catch ?b (fun error => console_error ?c error;; _) ?w] =>
      destruct (rethrow_transparent b c w) as (-> & _ & ->);
      let fin := fresh "fin" in
      let E := fresh "E" in
      remember (b w) as fin eqn:E
  end.

(** X1. Each plain operation is one fetch, build, sign, submit, wait
    sequence against the TestNet client.  Whatever the node and the SDK
    do, the steps it adds and its completion are one of six shapes: it
    stops at the first step that fails and raises that step's error, or
    all five succeed.  The object signed is the one just built from the
    fetched parameters, unchanged and ungrouped, under the key of the
    operation's signer; what is submitted is exactly what signing
    returned; the id waited for is the one the submission returned;
    what is returned is read off the record the wait gave.  The
    request's sender is the address of the operation's sender account:
    for [sendWithRekeyedAccount] that is the original account, while
    the key is the auth account's. *)
Theorem X1_plain_workflow_outcomes `{Platform} (op : Operation) (w : World) :
  plain_workflow op = true ->
  exists signer sender req,
    signer_of op = Some signer /\
    sender_of op = Some sender /\
    (forall sp, request_sender (req sp) = AddrObj (addr sender)) /\
    exists t o,
      trace (run op w).2 = trace w ++ t /\
      Workflow testnet req (sk signer) (length (heap w)) t o /\
      (run op w).1 = match o with
                     | Normal c => Normal (handed_back op (PConfirmation c))
                     | Throw e => Throw e
                     end.
Proof.
  destruct op; try discriminate; intros _; simpl run;
    lazymatch goal with
    | |- context [returning _ ?m] => let h := script_head m in unfold h
    end;
    unfold TransactionOperations.getAlgodClient, SmartContracts.getAlgodClient,
      Examples.getAlgodClient;
    cbv zeta; rewrite ?ret_bind; cbv beta;
    eexists _, _, _;
    (split; [reflexivity |]); (split; [reflexivity |]);
    (split;
     [| eapply workflow_run;
        [intros c w1; split; reflexivity | intros c; reflexivity]]);
    intros sp; reflexivity.
Qed.

Lemma X1_plain_workflow_outcomes_witness :
  plain_workflow (AM_sendWithRekeyedAccount toy_alice toy_bob "carol" 5)
  = true /\
  exists req t o,
    (forall sp, request_sender (req sp) = AddrObj (addr toy_alice)) /\
    trace (@run toy (AM_sendWithRekeyedAccount toy_alice toy_bob "carol" 5)
             toy_world).2
    = trace toy_world ++ t /\
    Workflow testnet req (sk toy_bob) 0 t o.
Proof.
  split; [reflexivity |].
  destruct (@X1_plain_workflow_outcomes toy
              (AM_sendWithRekeyedAccount toy_alice toy_bob "carol" 5)
              toy_world eq_refl)
    as (signer & sender & req & Hs & Hd & Hreq & t & o & E & W & R).
  simpl in Hs, Hd. injection Hs as <-. injection Hd as <-.
  exists req, t, o. split; [exact Hreq |]. split; [exact E | exact W].
Defined.

Section DeploymentFacts.
Context `{Platform}.

Lemma SC_compileProgram_run source (w : World) :
  SmartContracts.compileProgram source w = compile_outcome source w.
Proof.
  unfold SmartContracts.compileProgram, SmartContracts.getAlgodClient,
    compile_outcome.
  cbv zeta. rewrite ret_bind. cbv beta.
  rewrite try_catch_run, bind_run. unfold compile. rewrite external_run.
  fold testnet.
  by destruct (net_compile testnet source (remote w)) as [[r|e] s].
Qed.

Lemma EX_compileProgram_run source (w : World) :
  Examples.compileProgram source w = compile_outcome source w.
Proof.
  unfold Examples.compileProgram, Examples.getAlgodClient, compile_outcome.
  cbv zeta. rewrite ret_bind. cbv beta.
  rewrite try_catch_run, bind_run. unfold compile. rewrite external_run.
  fold testnet.
  by destruct (net_compile testnet source (remote w)) as [[r|e] s].
Qed.

Lemma deployment_run {B} (wrap : B -> Returned)
    (compileProgram : string -> Js bytes) approval clear req key
    (line : SubmitResponse -> list Shown) (tail : Confirmation -> Js B)
    (g : Confirmation -> B) (h : Confirmation -> Returned) context (w : World) :
  (forall source w1, compileProgram source w1 = compile_outcome source w1) ->
  (forall c w1, (tail c w1).1 = Normal (g c) /\
                trace (tail c w1).2 = trace w1) ->
  (forall c, wrap (g c) = h c) ->
  exists t o,
    trace (returning wrap
      (try_catch
         (compileProgram approval ≫= fun compiledApprovalProgram =>
          compileProgram clear ≫= fun compiledClearProgram =>
          getTransactionParams testnet ≫= fun sp =>
          makeTxn (req compiledApprovalProgram compiledClearProgram sp)
            ≫= fun txn =>
          signTxn txn key ≫= fun signedTxn =>
          sendRawTransaction testnet (OneBlob signedTxn) ≫= fun submitted =>
          console_log (line submitted) ≫= fun _ =>
          algosdk_waitForConfirmation testnet (txId submitted) 5 ≫= tail)
         (fun error => console_error context error;; throw error)) w).2
    = trace w ++ t /\
    Deployment approval clear req key (length (heap w)) t o /\
    (returning wrap
      (try_catch
         (compileProgram approval ≫= fun compiledApprovalProgram =>
          compileProgram clear ≫= fun compiledClearProgram =>
          getTransactionParams testnet ≫= fun sp =>
          makeTxn (req compiledApprovalProgram compiledClearProgram sp)
            ≫= fun txn =>
          signTxn txn key ≫= fun signedTxn =>
          sendRawTransaction testnet (OneBlob signedTxn) ≫= fun submitted =>
          console_log (line submitted) ≫= fun _ =>
          algosdk_waitForConfirmation testnet (txId submitted) 5 ≫= tail)
         (fun error => console_error context error;; throw error)) w).1
    = match o with
      | Normal c => Normal (h c)
      | Throw e => Throw e
      end.
Proof.
  intros Hc Htail Hwrap.
  match goal with
  | |- context [returning wrap ?m w] =>
      destruct (returning_transparent wrap m w) as (-> & _ & _ & ->)
  end.
  match goal with
  | |- context [try_catch ?b _ w] =>
      destruct (rethrow_transparent b context w) as (-> & _ & ->);
      remember (b w) as fin eqn:E
  end.
  rewrite bind_run, Hc in E. unfold compile_outcome in E.
  destruct (net_compile testnet approval (remote w)) as [[ra|e] s];
    cbv iota beta zeta in E.
  2:{ subst fin. eexists [_], (Throw e). simpl.
      split; [done |]. split; [apply dp_no_approval | done]. }
  rewrite bind_run, Hc in E. unfold compile_outcome in E.
  cbn [remote heap console trace] in E.
  destruct (net_compile testnet clear s) as [[rc|e] s2];
    cbv iota beta zeta in E.
  2:{ subst fin. eexists [_; _], (Throw e). simpl. rewrite <- app_assoc.
      split; [done |]. split; [apply dp_no_clear | done]. }
  match type of E with
  | _ = ?m ?w2 =>
      destruct (workflow_body testnet
                  (req (program_bytes ra) (program_bytes rc)) key line tail g
                  w2 Htail) as (t & o & Et & W & R)
  end.
  rewrite <- E in Et, R. simpl in Et, W.
  exists (gave (CCompile testnet approval) (PCompiled ra)
          :: gave (CCompile testnet clear) (PCompiled rc) :: t), o.
  rewrite Et, <- !app_assoc. split; [done |].
  split; [by apply dp_compiled |]. rewrite R.
  destruct o; [by rewrite Hwrap | done].
Qed.
End DeploymentFacts.

(** X2. [createApplication] (both copies) and [updateApplication]
    compile the approval program first and the clear program second,
    each with its own request to the node, and only then run the fetch,
    build, sign, submit, wait sequence.  A failed compilation ends the
    operation at once with the node's error: when the approval program
    fails the clear program is never sent.  The request that is built
    carries the decoded bytes of the two answers, approval as approval
    and clear as clear, is sent from the creator's address and is
    signed with the creator's key. *)
Theorem X2_deployment_outcomes `{Platform} (op : Operation) (w : World)
    (creator : Account) (approval clear : string) :
  deployment_of op = Some (creator, approval, clear) ->
  exists req,
    (forall pa pc sp,
       programs_of (req pa pc sp) = Some (pa, pc) /\
       request_sender (req pa pc sp) = AddrObj (addr creator)) /\
    exists t o,
      trace (run op w).2 = trace w ++ t /\
      Deployment approval clear req (sk creator) (length (heap w)) t o /\
      (run op w).1 = match o with
                     | Normal c => Normal (handed_back op (PConfirmation c))
                     | Throw e => Throw e
                     end.
Proof.
  destruct op; try discriminate; intros [= <- <- <-]; simpl run;
    lazymatch goal with
    | |- context [returning _ ?m] => let h := script_head m in unfold h
    end;
    unfold SmartContracts.getAlgodClient, Examples.getAlgodClient;
    cbv zeta; rewrite ?ret_bind; cbv beta; fold testnet;
    eexists;
    (split;
     [| eapply deployment_run;
        [first [apply SC_compileProgram_run | apply EX_compileProgram_run]
        | intros c w1; split; reflexivity | intros c; reflexivity]]);
    intros pa pc sp; split; reflexivity.
Qed.

Lemma X2_deployment_outcomes_witness :
  deployment_of (SC_updateApplication toy_alice 2002 "approve" "clear")
  = Some (toy_alice, "approve", "clear") /\
  exists req t o,
    (forall pa pc sp, programs_of (req pa pc sp) = Some (pa, pc)) /\
    trace (@run toy (SC_updateApplication toy_alice 2002 "approve" "clear")
             toy_world).2
    = trace toy_world ++ t /\
    @Deployment toy "approve" "clear" req (sk toy_alice) 0 t o.
Proof.
  split; [reflexivity |].
  destruct (@X2_deployment_outcomes toy
              (SC_updateApplication toy_alice 2002 "approve" "clear")
              toy_world toy_alice "approve" "clear" eq_refl)
    as (req & Hreq & t & o & E & D & R).
  exists req, t, o. split; [intros pa pc sp; apply Hreq |].
  split; [exact E | exact D].
Defined.

(** As [emits], keeping the client a script builds for itself. *)
Ltac emits_client side :=
  repeat
    lazymatch goal with
    | |- Emits _ (mbind _ (mret _)) => rewrite ret_bind; cbv beta
    | |- Emits _ (mbind _ TransactionOperations.getAlgodClient) =>
        unfold TransactionOperations.getAlgodClient at 1; cbv zeta
    | |- Emits _ (mbind _ SmartContracts.getAlgodClient) =>
        unfold SmartContracts.getAlgodClient at 1; cbv zeta
    | |- Emits _ (mbind _ Examples.getAlgodClient) =>
        unfold Examples.getAlgodClient at 1; cbv zeta
    | |- Emits _ (mret _) => apply Emits_ret
    | |- Emits _ (throw _) => apply Emits_throw
    | |- Emits _ (mbind _ _) => apply Emits_bind; [| intros ?]
    | |- Emits _ (try_catch _ _) => apply Emits_try_catch; [| intros ?]
    | |- Emits _ (console_log _) => apply Emits_console_log
    | |- Emits _ (console_error _ _) => apply Emits_console_error
    | |- Emits _ (alloc _) => apply Emits_alloc
    | |- Emits _ (deref _) => apply Emits_deref
    | |- Emits _ (write_group _ _) => apply Emits_write_group
    | |- Emits _ (external _ _ _) => apply Emits_external; intros ?; side
    | |- Emits _ (mapM _ _) => apply Emits_mapM; intros ?
    | |- Emits _ (mapM_indexed _ _ _) => apply Emits_mapM_indexed; intros ? ?
    | |- Emits _ (for_each_acc _ _ _) => apply Emits_for_each_acc; intros ? ?
    | |- Emits _ (match ?x with _ => _ end) => destruct x
    | |- Emits _ (let _ := _ in _) => cbv zeta
    | |- Emits _ ?m => let h := script_head m in unfold h
    end.

(** X3. Whatever the arguments, every request an operation sends to
    the node (account information, parameters, compilation, application
    lookup, submission, confirmation wait, composer execution) goes
    through a client for the one fixed TestNet endpoint with an empty
    token and port; no operation talks to any other endpoint. *)
Theorem X3_requests_go_to_testnet `{Platform} (op : Operation) (w : World) :
  exists t, trace (run op w).2 = trace w ++ t /\ Forall to_testnet t.
Proof.
  revert w. change (Emits to_testnet (run op)).
  destruct op; simpl run;
    emits_client ltac:(by intros client0 [= <-]).
Qed.

Section Footprint.
Context `{Platform}.

Lemma run_never_transacts (op : Operation) :
  submits op = false ->
  Emits (fun s => transacts (step_call s) = false) (run op).
Proof.
  destruct op; try discriminate; intros _; simpl run; emits ltac:(done).
Qed.

Lemma run_offline (op : Operation) :
  offline op = true -> Emits local_step (run op).
Proof.
  destruct op; try discriminate; intros _; simpl run; emits ltac:(done).
Qed.
End Footprint.

(** X4. An operation that is not one of the submitting ones (reading
    an account or a state, compiling, making a logic signature, handling
    keys and phrases, building a client, and the four drivers) never
    builds, groups, signs, submits or awaits a transaction.  Those that
    handle keys, phrases and clients only, and the drivers, never
    contact the node at all. *)
Theorem X4_only_submitters_transact `{Platform} (op : Operation) (w : World) :
  submits op = false ->
  exists t,
    trace (run op w).2 = trace w ++ t /\
    Forall (fun s => transacts (step_call s) = false) t /\
    (offline op = true -> Forall local_step t).
Proof.
  intros Hs. destruct (run_never_transacts op Hs w) as (t & E & F).
  exists t. split; [done |]. split; [done |].
  intros Ho. destruct (run_offline op Ho w) as (t' & E' & F').
  rewrite E in E'. apply app_inv_head in E'. by subst t'.
Qed.

Lemma X4_only_submitters_transact_witness :
  submits AM_runAccountExamples = false /\
  offline AM_runAccountExamples = true /\
  exists t,
    trace (@run toy AM_runAccountExamples toy_world).2 = trace toy_world ++ t /\
    Forall (fun s => transacts (step_call s) = false) t /\
    Forall local_step t.
Proof.
  split; [reflexivity |]. split; [reflexivity |].
  destruct (@X4_only_submitters_transact toy AM_runAccountExamples toy_world
              eq_refl) as (t & E & F & L).
  exists t. split; [exact E |]. split; [exact F | exact (L eq_refl)].
Defined.

(** * Error lines on the console *)

Section AccountingRules.
Context `{Platform}.

Lemma error_lines_app l1 l2 :
  error_lines (l1 ++ l2) = error_lines l1 ++ error_lines l2.
Proof. apply List.filter_app. Qed.

Lemma Logged_unchanged {A} b (m : Js A) :
  (forall w, console (m w).2 = console w) -> Logged b m.
Proof.
  intros Hm w. exists []. rewrite Hm, app_nil_r. split; [done |].
  destruct (m w).1; [done | by left].
Qed.

Lemma Logged_ret {A} b (a : A) : Logged b (mret a).
Proof. by apply Logged_unchanged. Qed.

Lemma Logged_throw {A} b e : Logged b (@throw _ A e).
Proof. by apply Logged_unchanged. Qed.

Lemma Logged_alloc b t : Logged b (alloc t).
Proof. by apply Logged_unchanged. Qed.

Lemma Logged_deref b r : Logged b (deref r).
Proof. by apply Logged_unchanged. Qed.

Lemma Logged_write_group b gid r : Logged b (write_group gid r).
Proof. by apply Logged_unchanged. Qed.

Lemma Logged_external {A} b c (show : A -> Payload) f :
  Logged b (external c show f).
Proof.
  apply Logged_unchanged. intros w. unfold external.
  by destruct (f (remote w)).
Qed.

Lemma Logged_console_log b args : Logged b (console_log args).
Proof. intros w. by exists [ConsoleLog args]. Qed.

Lemma Logged_bind {A B} b (m : Js A) (f : A -> Js B) :
  Logged b m -> (forall a, Logged b (f a)) -> Logged b (m ≫= f).
Proof.
  intros Hm Hf w. rewrite bind_run.
  destruct (Hm w) as (l1 & E1 & R1).
  destruct (m w) as [[a|e] w1]; simpl in *.
  - destruct (Hf a w1) as (l2 & E2 & R2).
    exists (l1 ++ l2). rewrite E2, E1, app_assoc. split; [done |].
    rewrite error_lines_app, R1. done.
  - by exists l1.
Qed.

Lemma Logged_mapM {A B} b (f : A -> Js B) l :
  (forall x, Logged b (f x)) -> Logged b (mapM f l).
Proof.
  intros Hf. induction l as [|x l IH]; simpl.
  - apply Logged_ret.
  - apply Logged_bind; [apply Hf | intros y].
    apply Logged_bind; [apply IH | intros ys]. apply Logged_ret.
Qed.

Lemma Logged_mapM_indexed {A B} b (f : A -> nat -> Js B) i l :
  (forall x j, Logged b (f x j)) -> Logged b (mapM_indexed f i l).
Proof.
  intros Hf. revert i. induction l as [|x l IH]; intros i; simpl.
  - apply Logged_ret.
  - apply Logged_bind; [apply Hf | intros y].
    apply Logged_bind; [apply IH | intros ys]. apply Logged_ret.
Qed.

Lemma Logged_for_each_acc {A B} b (step : B -> A -> Js B) acc l :
  (forall a x, Logged b (step a x)) -> Logged b (for_each_acc step acc l).
Proof.
  intros Hf. revert acc. induction l as [|x l IH]; intros acc; simpl.
  - apply Logged_ret.
  - apply Logged_bind; [apply Hf | intros y]. apply IH.
Qed.

Lemma Logged_compile_outcome (compileProgram : string -> Js bytes) source :
  (forall w, compileProgram source w = compile_outcome source w) ->
  Logged true (compileProgram source).
Proof.
  intros Hc w. rewrite Hc. unfold compile_outcome.
  destruct (net_compile testnet source (remote w)) as [[r|e] s]; simpl.
  - by eexists [_].
  - eexists [_]. split; [done |]. by right.
Qed.

Lemma Logged_SC_compileProgram source :
  Logged true (SmartContracts.compileProgram source).
Proof. apply Logged_compile_outcome, SC_compileProgram_run. Qed.

Lemma Logged_EX_compileProgram source :
  Logged true (Examples.compileProgram source).
Proof. apply Logged_compile_outcome, EX_compileProgram_run. Qed.

(** The [catch] block adds the one line of its own. *)
Lemma Logged_run {A} b (wrap : A -> Returned) (body : Js A) context w :
  Logged b body ->
  exists l,
    console (returning wrap
               (try_catch body
                  (fun error => console_error context error;; throw error))
               w).2
    = console w ++ l /\
    match (returning wrap
             (try_catch body
                (fun error => console_error context error;; throw error))
             w).1 with
    | Normal _ => error_lines l = []
    | Throw e =>
        error_lines l = [ConsoleError context e] \/
        (b = true /\
         error_lines l = [ConsoleError "Error compiling program:" e;
                          ConsoleError context e])
    end.
Proof.
  intros Hb. rewrite returning_run, try_catch_run.
  destruct (Hb w) as (l & E & R).
  destruct (body w) as [[a|e] w1]; simpl in *.
  - by exists l.
  - exists (l ++ [ConsoleError context e]). rewrite E, app_assoc.
    split; [done |]. rewrite error_lines_app. simpl.
    destruct R as [-> | [-> ->]]; [by left | right; by split].
Qed.
End AccountingRules.

Ltac logged :=
  repeat
    lazymatch goal with
    | |- Logged _ (SmartContracts.compileProgram _) =>
        apply Logged_SC_compileProgram
    | |- Logged _ (Examples.compileProgram _) =>
        apply Logged_EX_compileProgram
    | |- Logged _ (mret _) => apply Logged_ret
    | |- Logged _ (throw _) => apply Logged_throw
    | |- Logged _ (mbind _ _) => apply Logged_bind; [| intros ?]
    | |- Logged _ (console_log _) => apply Logged_console_log
    | |- Logged _ (alloc _) => apply Logged_alloc
    | |- Logged _ (deref _) => apply Logged_deref
    | |- Logged _ (write_group _ _) => apply Logged_write_group
    | |- Logged _ (external _ _ _) => apply Logged_external
    | |- Logged _ (mapM _ _) => apply Logged_mapM; intros ?
    | |- Logged _ (mapM_indexed _ _ _) => apply Logged_mapM_indexed; intros ? ?
    | |- Logged _ (for_each_acc _ _ _) => apply Logged_for_each_acc; intros ? ?
    | |- Logged _ (match ?x with _ => _ end) => destruct x
    | |- Logged _ (let _ := _ in _) => cbv zeta
    | |- Logged _ ?m => let h := script_head m in unfold h
    end.

(** X5. An operation written with a [catch] block that logs and
    rethrows puts no error line on the console when it returns.  When
    it raises [e] it has put exactly one error line, [e] under its own
    context string, with one exception: in an operation that calls
    [compileProgram] the error may have been logged by
    [compileProgram] first, and then the console holds exactly two
    error lines for the one failure, in that order. *)
Theorem X5_error_lines_per_failure `{Platform}
    (op : Operation) (context : string) (w : World) :
  rethrow_context op = Some context ->
  exists l,
    console (run op w).2 = console w ++ l /\
    match (run op w).1 with
    | Normal _ => error_lines l = []
    | Throw e =>
        error_lines l = [ConsoleError context e] \/
        (compiles op = true /\
         error_lines l = [ConsoleError "Error compiling program:" e;
                          ConsoleError context e])
    end.
Proof.
  destruct op; try discriminate; intros [= <-]; simpl run;
    lazymatch goal with
    | |- context [returning _ ?m] => let h := script_head m in unfold h
    end;
    cbv zeta; apply Logged_run; logged.
Qed.

Lemma X5_error_lines_per_failure_witness :
  exists l,
    console (@run toy_bare (SC_createApplication toy_alice "approve" "clear"
                              None None None None) toy_bare_world).2
    = console toy_bare_world ++ l /\
    error_lines l =
      [ConsoleError "Error compiling program:" (toy_error "compile failed");
       ConsoleError "Error creating application:" (toy_error "compile failed")].
Proof.
  destruct (@X5_error_lines_per_failure toy_bare
              (SC_createApplication toy_alice "approve" "clear"
                 None None None None)
              "Error creating application:" toy_bare_world eq_refl)
    as (l & E & R).
  exists l. split; [exact E |].
  vm_compute in E. subst l. reflexivity.
Defined.

(** * The drivers *)

Section Drivers.
Context `{Platform}.

(** A driver: the body inside a [catch] that logs and returns. *)
Lemma driver_run (body : Js unit) context (w : World) :
  Faithful (fun _ => False) body ->
  Logged false body ->
  exists t l,
    (returning (fun _ => RUndefined)
       (try_catch body (fun error => console_error context error)) w).1
    = Normal RUndefined /\
    trace (returning (fun _ => RUndefined)
             (try_catch body (fun error => console_error context error)) w).2
    = trace w ++ t /\
    console (returning (fun _ => RUndefined)
               (try_catch body (fun error => console_error context error))
               w).2
    = console w ++ l /\
    ((Forall succeeded t /\ error_lines l = []) \/
     exists t0 s e,
       t = t0 ++ [s] /\ Forall succeeded t0 /\ failed_with e s /\
       error_lines l = [ConsoleError context e] /\
       last l = Some (ConsoleError context e)).
Proof.
  intros Hf Hl. rewrite returning_run, try_catch_run.
  destruct (Hf w) as (t & Et & D). destruct (Hl w) as (l & El & R).
  destruct (body w) as [[[]|e] w1]; simpl in *.
  - exists t, l. repeat split; [done | done |]. left.
    split; [by inversion D | done].
  - exists t, (l ++ [ConsoleError context e]).
    rewrite El, app_assoc. repeat split; [done |]. right.
    destruct R as [R | [? _]]; [| done].
    inversion D as [| t0 s e0 F Hs | t0 e0 F []]; subst.
    exists t0, s, e. repeat split; [done | done | |].
    + by rewrite error_lines_app, R.
    + apply last_snoc.
Qed.

Lemma console_grows {A} b (m : Js A) (w : World) line :
  Logged b m -> line ∈ console w -> line ∈ console (m w).2.
Proof.
  intros Hm Hin. destruct (Hm w) as (l & -> & _).
  apply elem_of_app. by left.
Qed.

Lemma AM_generateAccount_world (w : World) m :
  sdk_secretKeyToMnemonic (sk (sdk_generateAccount (remote w)).1) = Normal m ->
  AccountManagement.generateAccount w =
  (Normal {| AccountManagement.account := (sdk_generateAccount (remote w)).1;
             AccountManagement.mnemonic := m |},
   {| remote := (sdk_generateAccount (remote w)).2;
      heap := heap w;
      console :=
        (console w ++
         [ConsoleLog
            [ShStr "Generated Account Address:";
             ShStr (sdk_addressToString
                      (addr (sdk_generateAccount (remote w)).1))]]) ++
        [ConsoleLog [ShStr "Account Mnemonic:"; ShStr m]];
      trace :=
        (trace w ++
         [gave CGenerateAccount
            (PAccount (sdk_generateAccount (remote w)).1)]) ++
        [gave (CSecretKeyToMnemonic
                 (sk (sdk_generateAccount (remote w)).1)) (PString m)] |}).
Proof.
  intros Hm. unfold AccountManagement.generateAccount.
  rewrite bind_run. unfold algosdk_generateAccount, external.
  destruct (sdk_generateAccount (remote w)) as [a s]. simpl in *.
  rewrite bind_run. simpl. rewrite bind_run.
  unfold algosdk_secretKeyToMnemonic, pure_call, external. simpl.
  by rewrite Hm.
Qed.

Lemma EX_generateAccount_world (w : World) m :
  sdk_secretKeyToMnemonic (sk (sdk_generateAccount (remote w)).1) = Normal m ->
  Examples.generateAccount w =
  (Normal {| Examples.account := (sdk_generateAccount (remote w)).1;
             Examples.mnemonic := m |},
   {| remote := (sdk_generateAccount (remote w)).2;
      heap := heap w;
      console :=
        (console w ++
         [ConsoleLog
            [ShStr "Account Address:";
             ShStr (sdk_addressToString
                      (addr (sdk_generateAccount (remote w)).1))]]) ++
        [ConsoleLog [ShStr "Account Mnemonic:"; ShStr m]];
      trace :=
        (trace w ++
         [gave CGenerateAccount
            (PAccount (sdk_generateAccount (remote w)).1)]) ++
        [gave (CSecretKeyToMnemonic
                 (sk (sdk_generateAccount (remote w)).1)) (PString m)] |}).
Proof.
  intros Hm. unfold Examples.generateAccount.
  rewrite bind_run. unfold algosdk_generateAccount, external.
  destruct (sdk_generateAccount (remote w)) as [a s]. simpl in *.
  rewrite bind_run. simpl. rewrite bind_run.
  unfold algosdk_secretKeyToMnemonic, pure_call, external. simpl.
  by rewrite Hm.
Qed.

Lemma AM_recoverAccount_world (w : World) m a :
  sdk_mnemonicToSecretKey m = Normal a ->
  AccountManagement.recoverAccount m w =
  (Normal a,
   {| remote := remote w; heap := heap w;
      console :=
        console w ++
        [ConsoleLog [ShStr "Recovered Account Address:";
                     ShStr (sdk_addressToString (addr a))]];
      trace := trace w ++ [gave (CMnemonicToSecretKey m) (PAccount a)] |}).
Proof.
  intros Hm. unfold AccountManagement.recoverAccount.
  rewrite bind_run. unfold algosdk_mnemonicToSecretKey, pure_call, external.
  simpl. by rewrite Hm.
Qed.

Lemma EX_recoverAccount_world (w : World) m a :
  sdk_mnemonicToSecretKey m = Normal a ->
  Examples.recoverAccount m w =
  (Normal a,
   {| remote := remote w; heap := heap w;
      console :=
        console w ++
        [ConsoleLog [ShStr "Recovered Account Address:";
                     ShStr (sdk_addressToString (addr a))]];
      trace := trace w ++ [gave (CMnemonicToSecretKey m) (PAccount a)] |}).
Proof.
  intros Hm. unfold Examples.recoverAccount.
  rewrite bind_run. unfold algosdk_mnemonicToSecretKey, pure_call, external.
  simpl. by rewrite Hm.
Qed.

Lemma AM_runAccountExamples_checks (w : World) :
  phrase_round_trip ->
  self_check_passed ∈ console (AccountManagement.runAccountExamples w).2.
Proof.
  intros Hlaw. unfold AccountManagement.runAccountExamples.
  rewrite try_catch_run.
  match goal with
  | |- context [match ?b w with _ => _ end] =>
      assert (Hb : self_check_passed ∈ console (b w).2)
  end.
  2:{ match type of Hb with
      | context [console (?b w).2] => destruct (b w) as [[[]|e] w1]
      end; simpl in *; [done |]. apply elem_of_app. by left. }
  rewrite bind_run, console_log_run. cbv iota beta.
  rewrite bind_run, console_log_run. cbv iota beta.
  destruct (Hlaw (remote w)) as (m1 & a1 & Hm1 & Ha1 & Haddr1).
  destruct (Hlaw (sdk_generateAccount (remote w)).2)
    as (m2 & a2 & Hm2 & _ & _).
  destruct (Hlaw (sdk_generateAccount (sdk_generateAccount (remote w)).2).2)
    as (m3 & a3 & Hm3 & _ & _).
  rewrite bind_run, (AM_generateAccount_world _ m1) by exact Hm1.
  cbv iota beta. cbn [remote heap console trace].
  rewrite bind_run, (AM_generateAccount_world _ m2) by exact Hm2.
  cbv iota beta. cbn [remote heap console trace].
  rewrite bind_run, (AM_generateAccount_world _ m3) by exact Hm3.
  cbv iota beta. cbn [remote heap console trace].
  rewrite bind_run, console_log_run. cbv iota beta.
  cbn [AccountManagement.mnemonic AccountManagement.account].
  rewrite bind_run, (AM_recoverAccount_world _ m1 a1) by exact Hm1 || exact Ha1.
  cbv iota beta. cbn [remote heap console trace].
  rewrite bind_run, console_log_run. cbv iota beta.
  rewrite Haddr1, bool_decide_eq_true_2 by done.
  apply (console_grows false); [logged |].
  cbn [console]. apply elem_of_app. right. by apply list_elem_of_singleton.
Qed.

Lemma EX_runExamples_checks (w : World) :
  phrase_round_trip ->
  self_check_passed ∈ console (Examples.runExamples w).2.
Proof.
  intros Hlaw. unfold Examples.runExamples.
  rewrite try_catch_run.
  match goal with
  | |- context [match ?b w with _ => _ end] =>
      assert (Hb : self_check_passed ∈ console (b w).2)
  end.
  2:{ match type of Hb with
      | context [console (?b w).2] => destruct (b w) as [[[]|e] w1]
      end; simpl in *; [done |]. apply elem_of_app. by left. }
  rewrite bind_run, console_log_run. cbv iota beta.
  rewrite bind_run, console_log_run. cbv iota beta.
  destruct (Hlaw (remote w)) as (m1 & a1 & Hm1 & Ha1 & Haddr1).
  destruct (Hlaw (sdk_generateAccount (remote w)).2)
    as (m2 & a2 & Hm2 & _ & _).
  destruct (Hlaw (sdk_generateAccount (sdk_generateAccount (remote w)).2).2)
    as (m3 & a3 & Hm3 & _ & _).
  rewrite bind_run, (EX_generateAccount_world _ m1) by exact Hm1.
  cbv iota beta. cbn [remote heap console trace].
  rewrite bind_run, (EX_generateAccount_world _ m2) by exact Hm2.
  cbv iota beta. cbn [remote heap console trace].
  rewrite bind_run, (EX_generateAccount_world _ m3) by exact Hm3.
  cbv iota beta. cbn [remote heap console trace].
  cbn [Examples.mnemonic Examples.account].
  rewrite bind_run, (EX_recoverAccount_world _ m1 a1) by exact Ha1.
  cbv iota beta. cbn [remote heap console trace].
  rewrite bind_run, console_log_run. cbv iota beta.
  rewrite Haddr1, bool_decide_eq_true_2 by done.
  apply (console_grows false); [logged |].
  cbn [console]. apply elem_of_app. right. by apply list_elem_of_singleton.
Qed.
End Drivers.

(** X6. A driver never raises.  It returns [undefined] whatever the
    SDK does; it never contacts the node; either every step it made
    succeeded and it put no error line on the console, or its last step
    failed with some [e], nothing was attempted after it, and the one
    error line, [e] under the driver's context string, is the last line
    on the console. *)
Theorem X6_drivers_never_raise `{Platform} (op : Operation) (w : World) :
  is_driver op = true ->
  exists context t l,
    driver_context op = Some context /\
    (run op w).1 = Normal RUndefined /\
    trace (run op w).2 = trace w ++ t /\
    console (run op w).2 = console w ++ l /\
    Forall local_step t /\
    ((Forall succeeded t /\ error_lines l = []) \/
     exists t0 s e,
       t = t0 ++ [s] /\ Forall succeeded t0 /\ failed_with e s /\
       error_lines l = [ConsoleError context e] /\
       last l = Some (ConsoleError context e)).
Proof.
  intros Hd.
  assert (Ho : offline op = true) by (by destruct op).
  destruct (run_offline op Ho w) as (t' & E' & F').
  revert E'.
  destruct op; try discriminate; simpl run;
    lazymatch goal with
    | |- context [returning _ ?m] => let h := script_head m in unfold h
    end;
    intros E';
    lazymatch goal with
    | |- context [try_catch ?b (fun error => console_error ?c error)] =>
        destruct (driver_run b c w) as (t & l & R & Et & El & Hcase);
        [faithful | logged |]
    end;
    (eexists _, t, l; split; [reflexivity |]);
    rewrite Et in E'; apply app_inv_head in E'; subst t'; done.
Qed.

Lemma X6_drivers_never_raise_witness :
  is_driver EX_runExamples = true /\
  (@run toy EX_runExamples toy_world).1 = Normal RUndefined /\
  exists t,
    trace (@run toy EX_runExamples toy_world).2 = trace toy_world ++ t /\
    Forall local_step t.
Proof.
  split; [reflexivity |].
  destruct (@X6_drivers_never_raise toy EX_runExamples toy_world eq_refl)
    as (context & t & l & _ & R & Et & _ & F & _).
  split; [exact R |]. exists t. split; [exact Et | exact F].
Defined.

(** X7. Given the SDK's phrase round trip, the two drivers that check
    themselves ([runAccountExamples] and [runExamples]) print
    [Account recovery successful: true]: the account they recover is
    recovered from the phrase of the first of the three accounts they
    generated, and its address is compared with that first account's. *)
Theorem X7_driver_self_check `{Platform} (op : Operation) (w : World) :
  phrase_round_trip ->
  self_checking op = true ->
  self_check_passed ∈ console (run op w).2.
Proof.
  intros Hlaw.
  destruct op; try discriminate; intros _; simpl run;
    rewrite returning_run;
    [pose proof (AM_runAccountExamples_checks w Hlaw) as Hin
    |pose proof (EX_runExamples_checks w Hlaw) as Hin];
    match type of Hin with
    | context [console (?m w).2] => by destruct (m w) as [[[]|e] w1]
    end.
Qed.

Lemma X7_driver_self_check_witness :
  @phrase_round_trip toy /\
  self_checking AM_runAccountExamples = true /\
  self_check_passed ∈ console (@run toy AM_runAccountExamples toy_world).2.
Proof.
  split; [exact toy_phrase_round_trip |]. split; [reflexivity |].
  exact (@X7_driver_self_check toy AM_runAccountExamples toy_world
           toy_phrase_round_trip eq_refl).
Defined.

(** * The state readers, at the edges *)

Section ReaderFacts.
Context `{Platform}.


(** The loop never writes the key [__proto__]. *)
Lemma decode_fold_proto items : forall (o : gmap string StateVal),
  fold_left decode_into items o !! "__proto__" = o !! "__proto__".
Proof.
  induction items as [|item items IH]; intros o; cbn [fold_left]; [done |].
  rewrite IH. destruct (decode_into_decoded item o) as (v & -> & _).
  rewrite js_assign_lookup. by repeat case_bool_decide.
Qed.

Lemma reader_run (r : Reading) (w : World) m :
  (reader r w).1 = Normal m ->
  exists s label,
    trace (reader r w).2 = trace w ++ [s] /\
    is_network (step_call s) = true /\
    console (reader r w).2
    = console w ++ [ConsoleLog [ShStr label; ShState m]] /\
    exists items, m = fold_left decode_into items ∅.
Proof.
  destruct r as [appId|account appId]; simpl.
  - unfold SmartContracts.readGlobalState, SmartContracts.getAlgodClient.
    cbv zeta. rewrite ret_bind, try_catch_run, bind_run.
    unfold getApplicationByID. rewrite external_run.
    destruct (net_getApplicationByID _ appId (remote w)) as [[app|e] s];
      simpl; [| done].
    intros [= <-]. eexists _, _. repeat split.
    destruct (global_state (app_params app)) as [items|];
      [by exists items | by exists []].
  - unfold SmartContracts.readLocalState, SmartContracts.getAlgodClient.
    cbv zeta. rewrite ret_bind, try_catch_run, bind_run.
    unfold accountInformation. rewrite external_run.
    destruct (net_accountInformation _ _ (remote w)) as [[info|e] s];
      simpl; [| done].
    intros [= <-]. eexists _, _. repeat split.
    destruct (ai_apps_local_state info) as [apps|]; [| by exists []].
    destruct (List.find _ apps) as [found|]; [| by exists []].
    destruct (als_key_value found) as [items|];
      [by exists items | by exists []].
Qed.
End ReaderFacts.



(** X9. A state reader that returns has sent exactly one request to
    the node and has printed one line, which shows the very object it
    returns; and that object never has an own property [__proto__]: an
    entry whose key decodes to [__proto__] is dropped. *)
Theorem X9_readers_one_request_no_proto `{Platform}
    (r : Reading) (w : World) (m : gmap string StateVal) :
  (reader r w).1 = Normal m ->
  m !! "__proto__" = None /\
  exists s label,
    trace (reader r w).2 = trace w ++ [s] /\
    is_network (step_call s) = true /\
    console (reader r w).2 = console w ++ [ConsoleLog [ShStr label; ShState m]].
Proof.
  intros Hm. destruct (reader_run r w m Hm) as (s & label & Et & Hs & El & Hi).
  split; [| by exists s, label].
  destruct Hi as (items & ->). by rewrite decode_fold_proto.
Qed.

Lemma X9_readers_one_request_no_proto_witness :
  exists m,
    (@reader toy (ReadGlobal 7) toy_world).1 = Normal m /\
    m !! "__proto__" = None.
Proof.
  eexists. split; [reflexivity |].
  exact (proj1 (@X9_readers_one_request_no_proto toy (ReadGlobal 7) toy_world
                  _ eq_refl)).
Defined.

(** * Multisignature payments *)

Section Multisig.
Context `{Platform}.

Lemma signMultisig_run txn p key (w : World) :
  algosdk_signMultisigTransaction txn p key w =
  (match heap w !! txn with
   | Some t => sdk_signMultisigTransaction t p key
   | None => Throw (TypeError "signMultisigTransaction")
   end,
   {| remote := remote w; heap := heap w; console := console w;
      trace := trace w ++
               [{| step_call := CSignMultisigTransaction txn (heap w !! txn)
                                  p key;
                   step_reply :=
                     reply_of PSigned
                       (match heap w !! txn with
                        | Some t => sdk_signMultisigTransaction t p key
                        | None => Throw (TypeError "signMultisigTransaction")
                        end) |}] |}).
Proof. reflexivity. Qed.

Lemma appendSign_run blob p key (w : World) :
  algosdk_appendSignMultisigTransaction blob p key w =
  (sdk_appendSignMultisigTransaction blob p key,
   {| remote := remote w; heap := heap w; console := console w;
      trace := trace w ++
               [{| step_call := CAppendSignMultisigTransaction blob p key;
                   step_reply :=
                     reply_of PSigned
                       (sdk_appendSignMultisigTransaction blob p key) |}] |}).
Proof. reflexivity. Qed.

(** The loop over the co-signers. *)
Lemma cosign_loop p others : forall (b0 : SignedBlob) (w : World),
  exists t,
    trace (for_each_acc
             (fun signedTxn signer =>
                algosdk_appendSignMultisigTransaction
                  (sb_blob signedTxn) p (sk signer)) b0 others w).2
    = trace w ++ t /\
    forall b,
      (for_each_acc
         (fun signedTxn signer =>
            algosdk_appendSignMultisigTransaction
              (sb_blob signedTxn) p (sk signer)) b0 others w).1 = Normal b ->
      Cosigned p (sb_blob b0) others t (sb_blob b).
Proof.
  induction others as [|signer others IH]; intros b0 w; cbn [for_each_acc].
  - exists []. rewrite ret_run, app_nil_r. split; [done |].
    intros b [= <-]. constructor.
  - rewrite bind_run, appendSign_run.
    destruct (sdk_appendSignMultisigTransaction (sb_blob b0) p (sk signer))
      as [b1|e]; cbv iota beta.
    + match goal with
      | |- context [for_each_acc _ b1 others ?w1] =>
          destruct (IH b1 w1) as (t & Et & Hc)
      end.
      rewrite Et. cbn [trace reply_of]. rewrite <- app_assoc.
      eexists. split; [reflexivity |].
      intros b Hb. apply cosigned_next. by apply Hc.
    + eexists. split; [reflexivity |]. intros b Hb. discriminate Hb.
Qed.
Lemma not_all_succeeded t c e : ~ Forall succeeded (t ++ [threw c e]).
Proof.
  intros F. apply Forall_app in F as [_ F]. by inversion F.
Qed.
End Multisig.

(** X10. With an empty list of signers [sendMultisigTransaction]
    always raises, and never signs, submits or waits.  When fetching
    the parameters, deriving the multisig address and building the
    payment all succeed, the payment has been built for nothing and the
    error is the [TypeError] of reading [sk] of [undefined]. *)
Theorem X10_multisig_without_signers `{Platform}
    (p : MultisigMetadata) (receiver : Account) (amount : Z) (w : World) :
  exists t e,
    (run (EX_sendMultisigTransaction p [] receiver amount) w).1 = Throw e /\
    trace (run (EX_sendMultisigTransaction p [] receiver amount) w).2
    = trace w ++ t /\
    Forall (fun s => signs_or_submits (step_call s) = false) t /\
    (Forall succeeded t ->
     e = TypeError "Cannot read properties of undefined (reading 'sk')" /\
     exists sp a,
       t = [gave (CGetTransactionParams testnet) (PParams sp);
            gave (CMultisigAddress p) (PAddress a);
            gave (CMakeTxn (multisig_payment a receiver amount sp)) PUnit]).
Proof.
  simpl run. unfold Examples.sendMultisigTransaction, Examples.getAlgodClient.
  cbv zeta. rewrite ret_bind. cbv beta.
  enter_body.
  rewrite bind_run in E. unfold getTransactionParams in E.
  rewrite external_run in E.
  destruct (net_getTransactionParams _ (remote w)) as [[sp|e] s];
    cbv iota beta zeta in E.
  2:{ subst fin. eexists [_], e. simpl.
      split; [done |]. split; [done |]. split; [by repeat constructor |].
      intros F. by apply (not_all_succeeded []) in F. }
  rewrite bind_run in E. unfold algosdk_multisigAddress in E.
  rewrite pure_call_run in E. cbn [remote heap console trace] in E.
  destruct (sdk_multisigAddress p) as [a|e]; cbv iota beta zeta in E.
  2:{ subst fin. eexists [_; _], e. simpl. rewrite <- app_assoc.
      split; [done |]. split; [done |]. split; [by repeat constructor |].
      intros F. by apply (not_all_succeeded [_]) in F. }
  rewrite bind_run, makeTxn_run in E. cbn [remote heap console trace] in E.
  fold (multisig_payment a receiver amount sp) in E.
  destruct (sdk_makeTxn _) as [[]|e]; cbv iota beta zeta in E.
  2:{ subst fin. eexists [_; _; _], e. simpl. rewrite <- !app_assoc.
      split; [done |]. split; [done |]. split; [by repeat constructor |].
      intros F. by apply (not_all_succeeded [_; _]) in F. }
  rewrite bind_run, throw_run in E. cbv iota beta in E.
  subst fin. eexists [_; _; _], _. simpl. rewrite <- !app_assoc.
  split; [done |]. split; [done |]. split; [by repeat constructor |].
  intros _. split; [done |]. by exists sp, a.
Qed.

Lemma X10_multisig_without_signers_witness :
  (@run toy
     (EX_sendMultisigTransaction
        {| msig_version := 1; msig_threshold := 2; msig_addrs := [] |}
        [] toy_bob 5) toy_world).1
  = Throw (TypeError "Cannot read properties of undefined (reading 'sk')").
Proof.
  destruct (@X10_multisig_without_signers toy
              {| msig_version := 1; msig_threshold := 2; msig_addrs := [] |}
              toy_bob 5 toy_world) as (t & e & Hr & Et & _ & Hs).
  rewrite Hr. f_equal. apply Hs.
  vm_compute in Et. subst t. by repeat constructor.
Defined.

(** X11. When [sendMultisigTransaction] returns, the payment, sent
    from the derived multisig address, was signed first with the first
    signer's key and then once by every further signer in the order of
    the list, each appending to the blob the signer before returned;
    the blob submitted is the one the last signer returned, and the
    record handed back is the one the wait for the submission's id
    reported. *)
Theorem X11_multisig_signing_order `{Platform}
    (p : MultisigMetadata) (first : Account) (others : list Account)
    (receiver : Account) (amount : Z) (w : World) (v : Returned) :
  (run (EX_sendMultisigTransaction p (first :: others) receiver amount) w).1
  = Normal v ->
  exists sp a b0 t final submitted c,
    trace (run (EX_sendMultisigTransaction p (first :: others) receiver amount)
             w).2
    = trace w ++
      [gave (CGetTransactionParams testnet) (PParams sp);
       gave (CMultisigAddress p) (PAddress a);
       gave (CMakeTxn (multisig_payment a receiver amount sp)) PUnit;
       gave (CSignMultisigTransaction (length (heap w))
               (Some (fresh (multisig_payment a receiver amount sp)))
               p (sk first)) (PSigned b0)] ++
      t ++
      [gave (CSendRawTransaction testnet (OneBlob final))
         (PSubmitted submitted);
       gave (CWaitForConfirmation testnet (txId submitted) 5)
         (PConfirmation c)] /\
    Cosigned p (sb_blob b0) others t final /\
    v = RConfirmation c.
Proof.
  simpl run. unfold Examples.sendMultisigTransaction, Examples.getAlgodClient.
  cbv zeta. rewrite ret_bind. cbv beta.
  enter_body.
  intros Hv.
  rewrite bind_run in E. unfold getTransactionParams in E.
  rewrite external_run in E.
  destruct (net_getTransactionParams _ (remote w)) as [[sp|e] s];
    cbv iota beta zeta in E; [| by subst fin].
  rewrite bind_run in E. unfold algosdk_multisigAddress in E.
  rewrite pure_call_run in E. cbn [remote heap console trace] in E.
  destruct (sdk_multisigAddress p) as [a|e]; cbv iota beta zeta in E;
    [| by subst fin].
  rewrite bind_run, makeTxn_run in E. cbn [remote heap console trace] in E.
  fold (multisig_payment a receiver amount sp) in E.
  destruct (sdk_makeTxn _) as [[]|e]; cbv iota beta zeta in E;
    [| by subst fin].
  rewrite !bind_run, signMultisig_run in E.
  cbn [remote heap console trace] in E. rewrite lookup_fresh in E.
  destruct (sdk_signMultisigTransaction _ p (sk first)) as [b0|e];
    cbv iota beta zeta in E; [| by subst fin].
  match type of E with
  | context [for_each_acc ?f b0 others ?w1] =>
      destruct (cosign_loop p others b0 w1) as (t & Et & Hc);
      destruct (for_each_acc f b0 others w1) as [[b|e] w2];
      cbv iota beta zeta in E; [| by subst fin]
  end.
  specialize (Hc b eq_refl). cbn [fst snd trace reply_of] in Et.
  rewrite bind_run in E. unfold sendRawTransaction in E.
  rewrite external_run in E.
  destruct (net_sendRawTransaction _ _ (remote w2)) as [[submitted|e] s2];
    cbv iota beta zeta in E; [| by subst fin].
  rewrite bind_run, console_log_run in E. cbv iota beta zeta in E.
  rewrite bind_run in E. unfold algosdk_waitForConfirmation in E.
  rewrite external_run in E. cbn [remote heap console trace] in E.
  destruct (net_waitForConfirmation _ _ 5 s2) as [[c|e] s3];
    cbv iota beta zeta in E; [| by subst fin].
  rewrite bind_run, console_log_run in E. cbv iota beta zeta in E.
  rewrite ret_run in E. subst fin. simpl in Hv |- *.
  injection Hv as <-.
  exists sp, a, b0, t, (sb_blob b), submitted, c.
  rewrite Et. rewrite <- !app_assoc. simpl. done.
Qed.

Lemma X11_multisig_signing_order_witness :
  (@run toy
     (EX_sendMultisigTransaction
        {| msig_version := 1; msig_threshold := 2; msig_addrs := [] |}
        [toy_alice; toy_bob; toy_alice] toy_bob 5) toy_world).1
  = Normal (RConfirmation (toy_confirmation 1)) /\
  exists b0 t final,
    Cosigned {| msig_version := 1; msig_threshold := 2; msig_addrs := [] |}
      (sb_blob b0) [toy_bob; toy_alice] t final.
Proof.
  assert (Hv : (@run toy
     (EX_sendMultisigTransaction
        {| msig_version := 1; msig_threshold := 2; msig_addrs := [] |}
        [toy_alice; toy_bob; toy_alice] toy_bob 5) toy_world).1
  = Normal (RConfirmation (toy_confirmation 1))) by (vm_compute; reflexivity).
  split; [exact Hv |].
  destruct (@X11_multisig_signing_order toy
              {| msig_version := 1; msig_threshold := 2; msig_addrs := [] |}
              toy_alice [toy_bob; toy_alice] toy_bob 5 toy_world _ Hv)
    as (sp & a & b0 & t & final & submitted & c & E & C & _).
  exists b0, t, final. exact C.
Defined.

(** * The composer example *)




(** * Atomic groups, request by request *)

Section AtomicRequests.
Context `{Platform}.

Lemma make_loop_steps {A} (req : A -> nat -> TxnRequest) l :
  forall (i : nat) (w w' : World) refs,
    mapM_indexed (fun x j => makeTxn (req x j)) i l w = (Normal refs, w') ->
    refs = seq (length (heap w)) (length l) /\
    length (heap w') = (length (heap w) + length l)%nat /\
    exists t,
      trace w' = trace w ++ t /\
      requests_built t = imap (fun j x => req x (i + j)%nat) l /\
      signatures t = [] /\ submissions t = [].
Proof.
  induction l as [|x l IH]; intros i w w' refs; cbn [mapM_indexed].
  - rewrite ret_run. intros [= <- <-]. split; [done |].
    split; [simpl; lia |]. exists []. by rewrite app_nil_r.
  - rewrite bind_run, makeTxn_run.
    destruct (sdk_makeTxn (req x i)) as [[]|e]; cbv iota beta; [| done].
    rewrite bind_run.
    match goal with
    | |- context [mapM_indexed _ (S i) l ?w1] =>
        destruct (mapM_indexed (fun x j => makeTxn (req x j)) (S i) l w1)
          as [[refs1|e] w2] eqn:Em; cbv iota beta; [| done]
    end.
    rewrite ret_run. intros [= <- <-].
    destruct (IH _ _ _ _ Em) as (-> & Hlen & t & Et & Hr & Hs & Hp).
    cbn [heap trace] in *. rewrite length_app in *. simpl in *.
    split; [by rewrite Nat.add_1_r |]. split; [lia |].
    eexists ([_] ++ t). rewrite Et, <- app_assoc. split; [done |].
    unfold requests_built, signatures, submissions in *.
    rewrite !omap_app, Hr, Hs, Hp. simpl. rewrite Nat.add_0_r.
    split; [| done].
    f_equal. apply imap_ext. intros j y _. simpl. f_equal. lia.
Qed.

Lemma sign_loop_steps key refs :
  forall (w w' : World) blobs,
    mapM (fun txn => signTxn txn key) refs w = (Normal blobs, w') ->
    length blobs = length refs /\
    exists t,
      trace w' = trace w ++ t /\
      requests_built t = [] /\
      signatures t = zip_with (fun ref blob => (ref, key, blob)) refs blobs /\
      submissions t = [].
Proof.
  induction refs as [|ref refs IH]; intros w w' blobs; cbn [mapM].
  - rewrite ret_run. intros [= <- <-]. split; [done |].
    exists []. by rewrite app_nil_r.
  - rewrite bind_run, signTxn_run.
    destruct (match heap w !! ref with
              | Some t => sdk_signTxn t key
              | None => Throw (TypeError "signTxn")
              end) as [blob|e]; cbv iota beta; [| done].
    rewrite bind_run.
    match goal with
    | |- context [mapM _ refs ?w1] =>
        destruct (mapM (fun txn => signTxn txn key) refs w1)
          as [[blobs1|e] w2] eqn:Em; cbv iota beta; [| done]
    end.
    rewrite ret_run. intros [= <- <-].
    destruct (IH _ _ _ Em) as (Hlen & t & Et & Hr & Hs & Hp).
    cbn [trace] in *. split; [simpl; by rewrite Hlen |].
    eexists ([_] ++ t). rewrite Et, <- app_assoc. split; [done |].
    unfold requests_built, signatures, submissions in *.
    by rewrite !omap_app, Hr, Hs, Hp.
Qed.

Lemma assign_steps refs (w : World) :
  (algosdk_assignGroupID refs w).1 = Normal tt ->
  exists s,
    trace (algosdk_assignGroupID refs w).2 = trace w ++ [s] /\
    requests_built [s] = [] /\ signatures [s] = [] /\ submissions [s] = [].
Proof.
  intros Hr.
  destruct (assignGroupID_run refs w) as [(e & He & _) | (gid & _ & Ht & _)].
  - congruence.
  - by exists (assigned refs gid).
Qed.

Lemma TO_sendAtomicTransactions_steps sender receivers amount
    (w : World) v :
  (run (TO_sendAtomicTransactions sender receivers amount) w).1 = Normal v ->
  exists t sp blobs c,
    trace (run (TO_sendAtomicTransactions sender receivers amount) w).2
    = trace w ++ t /\
    requests_built t = imap (atomic_payment sender amount sp) receivers /\
    signatures t =
      zip_with (fun ref blob => (ref, sk sender, blob))
        (seq (length (heap w)) (length receivers)) blobs /\
    length blobs = length receivers /\
    submissions t = [ManyBlobs blobs] /\
    v = RConfirmation c.
Proof.
  simpl run. unfold TransactionOperations.sendAtomicTransactions,
    TransactionOperations.getAlgodClient.
  cbv zeta. rewrite ret_bind. cbv beta.
  enter_body.
  intros Hv.
  rewrite bind_run in E. unfold getTransactionParams in E.
  rewrite external_run in E.
  destruct (net_getTransactionParams _ (remote w)) as [[sp|e] s];
    cbv iota beta zeta in E; [| by subst fin].
  rewrite bind_run in E.
  match type of E with
  | context [mapM_indexed ?f 0%nat receivers ?w1] =>
      destruct (mapM_indexed f 0%nat receivers w1) as [[refs|e] w2] eqn:Em;
      cbv iota beta zeta in E; [| by subst fin]
  end.
  apply make_loop_steps in Em as (-> & Hlen & t1 & Et1 & Hr1 & Hs1 & Hp1).
  cbn [heap trace] in Hlen, Et1.
  rewrite bind_run in E.
  pose proof (assign_steps (seq (length (heap w)) (length receivers)) w2)
    as Ha.
  destruct (algosdk_assignGroupID _ w2) as [[[]|e] w3];
    cbv iota beta zeta in E; [| by subst fin].
  destruct (Ha eq_refl) as (sa & Eta & Hra & Hsa & Hpa).
  cbn [fst snd] in Eta.
  rewrite bind_run in E.
  match type of E with
  | context [mapM ?f ?refs w3] =>
      destruct (mapM f refs w3) as [[blobs|e] w4] eqn:Es;
      cbv iota beta zeta in E; [| by subst fin]
  end.
  apply sign_loop_steps in Es as (Hlb & t2 & Et2 & Hr2 & Hs2 & Hp2).
  rewrite length_seq in Hlb.
  rewrite bind_run in E. unfold sendRawTransaction in E.
  rewrite external_run in E.
  destruct (net_sendRawTransaction _ _ (remote w4)) as [[submitted|e] s2];
    cbv iota beta zeta in E; [| by subst fin].
  rewrite bind_run, console_log_run in E. cbv iota beta zeta in E.
  rewrite bind_run in E. unfold algosdk_waitForConfirmation in E.
  rewrite external_run in E. cbn [remote heap console trace] in E.
  destruct (net_waitForConfirmation _ _ 5 s2) as [[c|e] s3];
    cbv iota beta zeta in E; [| by subst fin].
  rewrite bind_run, console_log_run in E. cbv iota beta zeta in E.
  rewrite ret_run in E. subst fin. simpl in Hv |- *.
  injection Hv as <-.
  eexists _, sp, blobs, c.
  rewrite Et2, Eta, Et1, <- !app_assoc.
  split; [reflexivity |].
  unfold requests_built, signatures, submissions in *.
  rewrite !omap_app, Hr1, Hs1, Hp1, Hra, Hsa, Hpa, Hr2, Hs2, Hp2.
  simpl. rewrite !app_nil_r. done.
Qed.

Lemma EX_sendAtomicTransactions_steps sender receiver1 receiver2 amount
    (w : World) v :
  (run (EX_sendAtomicTransactions sender receiver1 receiver2 amount) w).1
  = Normal v ->
  exists t sp blobs c,
    trace (run (EX_sendAtomicTransactions sender receiver1 receiver2 amount)
             w).2
    = trace w ++ t /\
    requests_built t =
      [noted_payment sender receiver1 amount
         "First payment in atomic group" sp;
       noted_payment sender receiver2 amount
         "Second payment in atomic group" sp] /\
    signatures t =
      zip_with (fun ref blob => (ref, sk sender, blob))
        (seq (length (heap w)) 2) blobs /\
    length blobs = 2%nat /\
    submissions t = [ManyBlobs blobs] /\
    v = RConfirmation c.
Proof.
  simpl run. unfold Examples.sendAtomicTransactions, Examples.getAlgodClient.
  cbv zeta. rewrite ret_bind. cbv beta.
  enter_body.
  intros Hv.
  rewrite bind_run in E. unfold getTransactionParams in E.
  rewrite external_run in E.
  destruct (net_getTransactionParams _ (remote w)) as [[sp|e] s];
    cbv iota beta zeta in E; [| by subst fin].
  rewrite bind_run, makeTxn_run in E. cbn [remote heap console trace] in E.
  fold (noted_payment sender receiver1 amount
          "First payment in atomic group" sp) in E.
  destruct (sdk_makeTxn _) as [[]|e]; cbv iota beta zeta in E;
    [| by subst fin].
  rewrite bind_run, makeTxn_run in E. cbn [remote heap console trace] in E.
  fold (noted_payment sender receiver2 amount
          "Second payment in atomic group" sp) in E.
  destruct (sdk_makeTxn (noted_payment sender receiver2 _ _ _)) as [[]|e];
    cbv iota beta zeta in E; [| by subst fin].
  rewrite bind_run in E.
  match type of E with
  | context [algosdk_assignGroupID ?refs ?w2] =>
      pose proof (assign_steps refs w2) as Ha;
      destruct (algosdk_assignGroupID refs w2) as [[[]|e] w3];
      cbv iota beta zeta in E; [| by subst fin]
  end.
  destruct (Ha eq_refl) as (sa & Eta & Hra & Hsa & Hpa).
  cbn [fst snd trace] in Eta.
  rewrite bind_run, signTxn_run in E.
  match type of E with
  | context [reply_of PBytes ?r] =>
      destruct r as [blob1|e]; cbv iota beta zeta in E; [| by subst fin]
  end.
  cbn [reply_of] in E.
  rewrite bind_run, signTxn_run in E. cbn [remote heap console trace] in E.
  match type of E with
  | context [reply_of PBytes ?r] =>
      destruct r as [blob2|e]; cbv iota beta zeta in E; [| by subst fin]
  end.
  rewrite bind_run in E. unfold sendRawTransaction in E.
  rewrite external_run in E. cbn [remote heap console trace] in E.
  destruct (net_sendRawTransaction _ _ (remote w3)) as [[submitted|e] s2];
    cbv iota beta zeta in E; [| by subst fin].
  rewrite bind_run, console_log_run in E. cbv iota beta zeta in E.
  rewrite bind_run in E. unfold algosdk_waitForConfirmation in E.
  rewrite external_run in E. cbn [remote heap console trace] in E.
  destruct (net_waitForConfirmation _ _ 5 s2) as [[c|e] s3];
    cbv iota beta zeta in E; [| by subst fin].
  rewrite bind_run, console_log_run in E. cbv iota beta zeta in E.
  rewrite ret_run in E. subst fin. simpl in Hv |- *.
  injection Hv as <-.
  eexists _, sp, [blob1; blob2], c.
  rewrite Eta, <- !app_assoc.
  split; [reflexivity |].
  unfold requests_built, signatures, submissions in *.
  rewrite !omap_app, Hra, Hsa, Hpa.
  rewrite length_app. simpl. rewrite Nat.add_1_r. done.
Qed.
End AtomicRequests.

(** X13. When an atomic group operation returns, it has built
    exactly the requests of its group in order: for
    [sendAtomicTransactions] of src/transaction-operations.js one
    payment per receiver, of the one amount, with the note
    [Payment i in atomic group] numbered from 1; for the one of
    src/algorand-examples.js the first and the second payment.  It has
    signed each of the objects built once, in the same order, with the
    sender's key, and the one submission it made carries these
    signatures as one array in that order. *)
Theorem X13_atomic_group_in_order `{Platform}
    (op : Operation) (sender : Account)
    (requests : SuggestedParams -> list TxnRequest)
    (w : World) (v : Returned) :
  atomic_group_of op = Some (sender, requests) ->
  (run op w).1 = Normal v ->
  exists t sp blobs c,
    trace (run op w).2 = trace w ++ t /\
    requests_built t = requests sp /\
    signatures t =
      zip_with (fun ref blob => (ref, sk sender, blob))
        (seq (length (heap w)) (length (requests sp))) blobs /\
    length blobs = length (requests sp) /\
    submissions t = [ManyBlobs blobs] /\
    v = RConfirmation c.
Proof.
  destruct op; try discriminate; intros [= <- <-] Hv.
  - destruct (TO_sendAtomicTransactions_steps _ _ _ _ _ Hv)
      as (t & sp & blobs & c & Et & Hr & Hs & Hl & Hp & ->).
    exists t, sp, blobs, c. rewrite length_imap. done.
  - destruct (EX_sendAtomicTransactions_steps _ _ _ _ _ _ Hv)
      as (t & sp & blobs & c & Et & Hr & Hs & Hl & Hp & ->).
    by exists t, sp, blobs, c.
Qed.

Lemma X13_atomic_group_in_order_witness :
  exists t sp blobs,
    trace (@run toy (TO_sendAtomicTransactions toy_alice
                       [PartyAcct toy_bob; PartyStr "carol"] 1000000)
             toy_world).2 = trace toy_world ++ t /\
    requests_built t =
      [@atomic_payment toy toy_alice 1000000 sp 0 (PartyAcct toy_bob);
       @atomic_payment toy toy_alice 1000000 sp 1 (PartyStr "carol")] /\
    submissions t = [ManyBlobs blobs] /\
    length blobs = 2%nat.
Proof.
  assert (Hv : (@run toy (TO_sendAtomicTransactions toy_alice
                            [PartyAcct toy_bob; PartyStr "carol"] 1000000)
                  toy_world).1 = Normal (RConfirmation (toy_confirmation 1)))
    by (vm_compute; reflexivity).
  destruct (@X13_atomic_group_in_order toy
              (TO_sendAtomicTransactions toy_alice
                 [PartyAcct toy_bob; PartyStr "carol"] 1000000)
              toy_alice
              (fun sp => imap (@atomic_payment toy toy_alice 1000000 sp)
                           [PartyAcct toy_bob; PartyStr "carol"])
              toy_world _ eq_refl Hv)
    as (t & sp & blobs & c & Et & Hr & _ & Hl & Hp & _).
  exists t, sp, blobs. split; [exact Et |]. split; [exact Hr |].
  split; [exact Hp | exact Hl].
Defined.

(** * Asset configuration and account reports *)

Section Reports.
Context `{Platform}.

Lemma role_sent_optional (given : option Party) :
  role_sent given (optionalAddressOf given).
Proof. by destruct given as [[[|c s]|a]|]. Qed.

End Reports.

(** X14. Every request [configureAsset] builds is an asset
    configuration sent from the manager for the asset given, with
    strict empty-address checking switched off, in which a role the
    caller omitted, or gave as the empty string, is absent; a role
    given as a non-empty string is that string, and a role given as an
    account is the string form of its address. *)
Theorem X14_configureAsset_roles `{Platform}
    (manager : Account) (assetId : Z)
    (newManager newReserve newFreeze newClawback : option Party) (w : World) :
  exists t,
    trace (run (TO_configureAsset manager assetId
                  newManager newReserve newFreeze newClawback) w).2
    = trace w ++ t /\
    Forall (configures manager assetId
              newManager newReserve newFreeze newClawback) t.
Proof.
  revert w.
  change (Emits (configures manager assetId
                   newManager newReserve newFreeze newClawback)
            (run (TO_configureAsset manager assetId
                    newManager newReserve newFreeze newClawback))).
  simpl run.
  emits ltac:(unfold configures; cbn [step_call];
              first [exact I | repeat split; apply role_sent_optional]).
Qed.


(** * Logic signatures *)

Section LogicSigFacts.
Context `{Platform}.

Lemma new_LogicSigAccount_run program args (w : World) :
  new_LogicSigAccount program args w =
  match sdk_checkLogicSig program args with
  | Normal _ =>
      (Normal {| lsig_program := program; lsig_args := args;
                 lsig_sig := None |},
       {| remote := remote w; heap := heap w; console := console w;
          trace := trace w ++
                   [gave (CNewLogicSigAccount program args) PUnit] |})
  | Throw e =>
      (Throw e,
       {| remote := remote w; heap := heap w; console := console w;
          trace := trace w ++
                   [threw (CNewLogicSigAccount program args) e] |})
  end.
Proof.
  unfold new_LogicSigAccount. rewrite bind_run, pure_call_run.
  by destruct (sdk_checkLogicSig program args) as [[]|e].
Qed.

Lemma lsig_sign_run l key (w : World) :
  lsig_sign l key w =
  match sdk_logicSigSign l key with
  | Normal sig =>
      (Normal {| lsig_program := lsig_program l; lsig_args := lsig_args l;
                 lsig_sig := Some sig |},
       {| remote := remote w; heap := heap w; console := console w;
          trace := trace w ++ [gave (CLogicSigSign l key) (PBytes sig)] |})
  | Throw e =>
      (Throw e,
       {| remote := remote w; heap := heap w; console := console w;
          trace := trace w ++ [threw (CLogicSigSign l key) e] |})
  end.
Proof.
  unfold lsig_sign. rewrite bind_run, pure_call_run.
  by destruct (sdk_logicSigSign l key) as [sig|e].
Qed.

Lemma lsig_address_run l (w : World) :
  lsig_address l w =
  (sdk_logicSigAddress l,
   {| remote := remote w; heap := heap w; console := console w;
      trace := trace w ++
               [{| step_call := CLogicSigAddress l;
                   step_reply := reply_of PAddress (sdk_logicSigAddress l) |}]
   |}).
Proof. reflexivity. Qed.

Lemma signLogicSig_run txn l (w : World) :
  algosdk_signLogicSigTransaction txn l w =
  (match heap w !! txn with
   | Some t => sdk_signLogicSigTransaction t l
   | None => Throw (TypeError "signLogicSigTransaction")
   end,
   {| remote := remote w; heap := heap w; console := console w;
      trace := trace w ++
               [{| step_call := CSignLogicSigTransaction txn (heap w !! txn) l;
                   step_reply :=
                     reply_of PSigned
                       (match heap w !! txn with
                        | Some t => sdk_signLogicSigTransaction t l
                        | None =>
                            Throw (TypeError "signLogicSigTransaction")
                        end) |}] |}).
Proof. reflexivity. Qed.

(** A logic signature made without delegation. *)
Lemma plain_signature_run (compileProgram : string -> Js bytes)
    source args context (w : World) l :
  (forall w1, compileProgram source w1 = compile_outcome source w1) ->
  (returning RLogicSig
     (try_catch
        (compileProgram source ≫= fun programBytes =>
         new_LogicSigAccount programBytes args ≫= fun logicSigAccount =>
         lsig_address logicSigAccount ≫= fun address =>
         console_log [ShStr "LogicSig Address:";
                      ShStr (sdk_addressToString address)] ≫= fun _ =>
         mret logicSigAccount)
        (fun error => console_error context error;; throw error)) w).1
  = Normal (RLogicSig l) ->
  exists r a,
    l = {| lsig_program := program_bytes r; lsig_args := args;
           lsig_sig := None |} /\
    trace (returning RLogicSig
     (try_catch
        (compileProgram source ≫= fun programBytes =>
         new_LogicSigAccount programBytes args ≫= fun logicSigAccount =>
         lsig_address logicSigAccount ≫= fun address =>
         console_log [ShStr "LogicSig Address:";
                      ShStr (sdk_addressToString address)] ≫= fun _ =>
         mret logicSigAccount)
        (fun error => console_error context error;; throw error)) w).2
    = trace w ++
      [gave (CCompile testnet source) (PCompiled r);
       gave (CNewLogicSigAccount (program_bytes r) args) PUnit;
       gave (CLogicSigAddress l) (PAddress a)].
Proof.
  intros Hc.
  enter_body.
  intros Hv.
  rewrite bind_run, Hc in E. unfold compile_outcome in E.
  destruct (net_compile testnet source (remote w)) as [[r|e] s];
    cbv iota beta zeta in E; [| by subst fin].
  rewrite bind_run, new_LogicSigAccount_run in E.
  destruct (sdk_checkLogicSig _ args) as [[]|e]; cbv iota beta zeta in E;
    [| by subst fin].
  rewrite bind_run, lsig_address_run in E.
  destruct (sdk_logicSigAddress _) as [a|e]; cbv iota beta zeta in E;
    [| by subst fin].
  rewrite bind_run, console_log_run in E. cbv iota beta zeta in E.
  rewrite ret_run in E. subst fin. simpl in Hv |- *.
  injection Hv as <-. exists r, a. split; [done |].
  by rewrite <- !app_assoc.
Qed.
End LogicSigFacts.

(** X16. When an operation that makes a logic signature returns, it
    has compiled the source, made the signature account from the
    decoded bytes of the node's answer and the caller's arguments (none
    when omitted), and then either asked it for its address
    ([createLogicSignature], both copies), returning it without a
    signature, or had it signed with the delegating account's key
    ([createDelegatedLogicSignature]), returning it with exactly the
    signature that gave. *)
Theorem X16_logic_signature_made `{Platform}
    (op : Operation) (source : string) (args : list bytes)
    (delegate : option Account) (w : World) (v : Returned) :
  logic_signature_of op = Some (source, args, delegate) ->
  (run op w).1 = Normal v ->
  exists r last,
    trace (run op w).2
    = trace w ++
      [gave (CCompile testnet source) (PCompiled r);
       gave (CNewLogicSigAccount (program_bytes r) args) PUnit;
       last] /\
    match delegate with
    | None =>
        v = RLogicSig {| lsig_program := program_bytes r; lsig_args := args;
                         lsig_sig := None |} /\
        exists a,
          last = gave (CLogicSigAddress
                         {| lsig_program := program_bytes r;
                            lsig_args := args; lsig_sig := None |})
                   (PAddress a)
    | Some delegatingAccount =>
        exists sig,
          v = RLogicSig {| lsig_program := program_bytes r;
                           lsig_args := args; lsig_sig := Some sig |} /\
          last = gave (CLogicSigSign
                         {| lsig_program := program_bytes r;
                            lsig_args := args; lsig_sig := None |}
                         (sk delegatingAccount))
                   (PBytes sig)
    end.
Proof.
  destruct op; try discriminate; intros [= <- <- <-]; simpl run.
  - (* createLogicSignature *)
    unfold SmartContracts.createLogicSignature. cbv zeta. intros Hv.
    assert (Hl : exists l, v = RLogicSig l).
    { revert Hv. rewrite returning_run.
      match goal with
      | |- context [try_catch ?b ?h w] =>
          destruct (try_catch b h w) as [[l|e] w1]
      end; simpl; [| done]. intros [= <-]. by exists l. }
    destruct Hl as (l & ->).
    destruct (plain_signature_run SmartContracts.compileProgram programSource
                _ _ _ _ (SC_compileProgram_run programSource) Hv)
      as (r & a & -> & Et).
    exists r. eexists. split; [exact Et |]. split; [done | by exists a].
  - (* createDelegatedLogicSignature *)
    unfold SmartContracts.createDelegatedLogicSignature. cbv zeta.
    enter_body.
    intros Hv.
    rewrite bind_run, SC_compileProgram_run in E. unfold compile_outcome in E.
    destruct (net_compile testnet programSource (remote w)) as [[r|e] s];
      cbv iota beta zeta in E; [| by subst fin].
    rewrite bind_run, new_LogicSigAccount_run in E.
    destruct (sdk_checkLogicSig _ _) as [[]|e]; cbv iota beta zeta in E;
      [| by subst fin].
    rewrite bind_run, lsig_sign_run in E.
    destruct (sdk_logicSigSign _ _) as [sig|e]; cbv iota beta zeta in E;
      [| by subst fin].
    rewrite bind_run, console_log_run in E. cbv iota beta zeta in E.
    rewrite ret_run in E. subst fin. simpl in Hv |- *.
    injection Hv as <-. exists r. eexists. rewrite <- !app_assoc.
    split; [reflexivity |]. by exists sig.
  - (* the copy of createLogicSignature *)
    unfold Examples.createLogicSignature. intros Hv.
    assert (Hl : exists l, v = RLogicSig l).
    { revert Hv. rewrite returning_run.
      match goal with
      | |- context [try_catch ?b ?h w] =>
          destruct (try_catch b h w) as [[l|e] w1]
      end; simpl; [| done]. intros [= <-]. by exists l. }
    destruct Hl as (l & ->).
    destruct (plain_signature_run Examples.compileProgram programSource
                _ _ _ _ (EX_compileProgram_run programSource) Hv)
      as (r & a & -> & Et).
    exists r. eexists. split; [exact Et |]. split; [done | by exists a].
Qed.

Lemma X16_logic_signature_made_witness :
  exists r sig,
    (@run toy (SC_createDelegatedLogicSignature "int 1" toy_alice None)
       toy_world).1
    = Normal (RLogicSig {| lsig_program := @program_bytes toy r;
                           lsig_args := [];
                           lsig_sig := Some sig |}).
Proof.
  assert (Hv : (@run toy (SC_createDelegatedLogicSignature "int 1" toy_alice
                            None) toy_world).1
               = Normal (RLogicSig
                           {| lsig_program := list_byte_of_string "int 1";
                              lsig_args := [];
                              lsig_sig := Some (sk toy_alice) |}))
    by (vm_compute; reflexivity).
  destruct (@X16_logic_signature_made toy
              (SC_createDelegatedLogicSignature "int 1" toy_alice None)
              "int 1" [] (Some toy_alice) toy_world _ eq_refl Hv)
    as (r & last & _ & sig & Hr & _).
  exists r, sig. rewrite Hv. exact (f_equal Normal Hr).
Defined.

(** X17. When [sendWithLogicSignature] returns, the payment was sent
    from the address of the logic signature, in its string form, and
    was signed by the logic signature itself: no secret key is used.
    The blob submitted is the one that signing returned, and the
    record handed back is the one the wait for the submission's id
    reported. *)
Theorem X17_logic_signature_payment `{Platform}
    (l : LogicSigAccount) (receiver : Party) (amount : Z)
    (w : World) (v : Returned) :
  (run (SC_sendWithLogicSignature l receiver amount) w).1 = Normal v ->
  exists sp a signed submitted c,
    trace (run (SC_sendWithLogicSignature l receiver amount) w).2
    = trace w ++
      [gave (CGetTransactionParams testnet) (PParams sp);
       gave (CLogicSigAddress l) (PAddress a);
       gave (CMakeTxn (lsig_payment a receiver amount sp)) PUnit;
       gave (CSignLogicSigTransaction (length (heap w))
               (Some (fresh (lsig_payment a receiver amount sp))) l)
         (PSigned signed);
       gave (CSendRawTransaction testnet (OneBlob (sb_blob signed)))
         (PSubmitted submitted);
       gave (CWaitForConfirmation testnet (txId submitted) 5)
         (PConfirmation c)] /\
    v = RConfirmation c.
Proof.
  simpl run. unfold SmartContracts.sendWithLogicSignature,
    SmartContracts.getAlgodClient.
  cbv zeta. rewrite ret_bind. cbv beta.
  enter_body.
  intros Hv.
  rewrite bind_run in E. unfold getTransactionParams in E.
  rewrite external_run in E.
  destruct (net_getTransactionParams _ (remote w)) as [[sp|e] s];
    cbv iota beta zeta in E; [| by subst fin].
  rewrite bind_run, lsig_address_run in E.
  destruct (sdk_logicSigAddress l) as [a|e]; cbv iota beta zeta in E;
    [| by subst fin].
  rewrite bind_run, makeTxn_run in E. cbn [remote heap console trace] in E.
  fold (lsig_payment a receiver amount sp) in E.
  destruct (sdk_makeTxn _) as [[]|e]; cbv iota beta zeta in E;
    [| by subst fin].
  rewrite bind_run, signLogicSig_run in E.
  cbn [remote heap console trace] in E. rewrite lookup_fresh in E.
  destruct (sdk_signLogicSigTransaction _ l) as [signed|e];
    cbv iota beta zeta in E; [| by subst fin].
  rewrite bind_run in E. unfold sendRawTransaction in E.
  rewrite external_run in E. cbn [remote heap console trace] in E.
  destruct (net_sendRawTransaction _ _ s) as [[submitted|e] s2];
    cbv iota beta zeta in E; [| by subst fin].
  rewrite bind_run, console_log_run in E. cbv iota beta zeta in E.
  rewrite bind_run in E. unfold algosdk_waitForConfirmation in E.
  rewrite external_run in E. cbn [remote heap console trace] in E.
  destruct (net_waitForConfirmation _ _ 5 s2) as [[c|e] s3];
    cbv iota beta zeta in E; [| by subst fin].
  rewrite bind_run, console_log_run in E. cbv iota beta zeta in E.
  rewrite ret_run in E. subst fin. simpl in Hv |- *.
  injection Hv as <-.
  exists sp, a, signed, submitted, c. by rewrite <- !app_assoc.
Qed.

Lemma X17_logic_signature_payment_witness :
  exists sp a signed submitted,
    trace (@run toy (SC_sendWithLogicSignature
                       {| lsig_program := [Byte.x01]; lsig_args := [];
                          lsig_sig := None |} (PartyAcct toy_bob) 5)
             toy_world).2
    = [gave (CGetTransactionParams testnet) (PParams sp);
       gave (CLogicSigAddress {| lsig_program := [Byte.x01]; lsig_args := [];
                                 lsig_sig := None |}) (PAddress a);
       gave (CMakeTxn (@lsig_payment toy a (PartyAcct toy_bob) 5 sp)) PUnit;
       gave (CSignLogicSigTransaction 0
               (Some (fresh (@lsig_payment toy a (PartyAcct toy_bob) 5 sp)))
               {| lsig_program := [Byte.x01]; lsig_args := [];
                  lsig_sig := None |})
         (PSigned signed);
       gave (CSendRawTransaction testnet (OneBlob (sb_blob signed)))
         (PSubmitted submitted);
       gave (CWaitForConfirmation testnet (txId submitted) 5)
         (PConfirmation (toy_confirmation 1))].
Proof.
  assert (Hv : (@run toy (SC_sendWithLogicSignature
                            {| lsig_program := [Byte.x01]; lsig_args := [];
                               lsig_sig := None |} (PartyAcct toy_bob) 5)
                  toy_world).1
               = Normal (RConfirmation (toy_confirmation 1)))
    by (vm_compute; reflexivity).
  destruct (@X17_logic_signature_payment toy _ _ _ toy_world _ Hv)
    as (sp & a & signed & submitted & c & Et & Hc).
  injection Hc as <-. by exists sp, a, signed, submitted.
Defined.

(** * What a wait waits for *)

Section ChainRules.
Context `{Platform}.

Lemma linked_app prev t1 t2 :
  linked prev t1 -> (forall q, linked q t2) -> linked prev (t1 ++ t2).
Proof.
  revert prev. induction t1 as [|s t1 IH]; intros prev H1 H2; simpl.
  - apply H2.
  - destruct H1 as [Hs H1]. split; [done |]. by apply IH.
Qed.

Lemma Chain_silent {A} (m : Js A) :
  (forall w, trace (m w).2 = trace w) -> Chain m.
Proof. intros Hm w. exists []. by rewrite Hm, app_nil_r. Qed.

Lemma Chain_ret {A} (a : A) : Chain (mret a).
Proof. by apply Chain_silent. Qed.

Lemma Chain_throw {A} e : Chain (@throw _ A e).
Proof. by apply Chain_silent. Qed.

Lemma Chain_console_log args : Chain (console_log args).
Proof. by apply Chain_silent. Qed.

Lemma Chain_console_error context e : Chain (console_error context e).
Proof. by apply Chain_silent. Qed.

Lemma Chain_alloc t : Chain (alloc t).
Proof. by apply Chain_silent. Qed.

Lemma Chain_deref r : Chain (deref r).
Proof. by apply Chain_silent. Qed.

Lemma Chain_write_group gid r : Chain (write_group gid r).
Proof. by apply Chain_silent. Qed.

Lemma Chain_external {A} c (show : A -> Payload) f :
  match c with
  | CWaitForConfirmation _ _ _ => False
  | _ => True
  end ->
  Chain (external c show f).
Proof.
  intros Hc w. rewrite external_run. destruct (f (remote w)) as [r s].
  eexists [_]. split; [reflexivity |]. intros prev. simpl.
  by destruct c.
Qed.

Lemma Chain_bind {A B} (m : Js A) (f : A -> Js B) :
  Chain m -> (forall a, Chain (f a)) -> Chain (m ≫= f).
Proof.
  intros Hm Hf w. rewrite bind_run.
  destruct (Hm w) as (t1 & E1 & L1).
  destruct (m w) as [[a|e] w1]; simpl in *.
  - destruct (Hf a w1) as (t2 & E2 & L2).
    exists (t1 ++ t2). rewrite E2, E1, app_assoc. split; [done |].
    intros prev. by apply linked_app.
  - by exists t1.
Qed.

Lemma Chain_try_catch {A} (body : Js A) handler :
  Chain body -> (forall e, Chain (handler e)) -> Chain (try_catch body handler).
Proof.
  intros Hm Hf w. rewrite try_catch_run.
  destruct (Hm w) as (t1 & E1 & L1).
  destruct (body w) as [[a|e] w1]; simpl in *.
  - by exists t1.
  - destruct (Hf e w1) as (t2 & E2 & L2).
    exists (t1 ++ t2). rewrite E2, E1, app_assoc. split; [done |].
    intros prev. by apply linked_app.
Qed.

Lemma Chain_mapM {A B} (f : A -> Js B) l :
  (forall x, Chain (f x)) -> Chain (mapM f l).
Proof.
  intros Hf. induction l as [|x l IH]; simpl.
  - apply Chain_ret.
  - apply Chain_bind; [apply Hf | intros y].
    apply Chain_bind; [apply IH | intros ys]. apply Chain_ret.
Qed.

Lemma Chain_mapM_indexed {A B} (f : A -> nat -> Js B) i l :
  (forall x j, Chain (f x j)) -> Chain (mapM_indexed f i l).
Proof.
  intros Hf. revert i. induction l as [|x l IH]; intros i; simpl.
  - apply Chain_ret.
  - apply Chain_bind; [apply Hf | intros y].
    apply Chain_bind; [apply IH | intros ys]. apply Chain_ret.
Qed.

Lemma Chain_for_each_acc {A B} (step : B -> A -> Js B) acc l :
  (forall b x, Chain (step b x)) -> Chain (for_each_acc step acc l).
Proof.
  intros Hf. revert acc. induction l as [|x l IH]; intros acc; simpl.
  - apply Chain_ret.
  - apply Chain_bind; [apply Hf | intros y]. apply IH.
Qed.

(** Submit, print the id, wait for it. *)
Lemma Chain_submit_wait {B} client payload
    (line : SubmitResponse -> list Shown) waitRounds
    (k : Confirmation -> Js B) :
  (forall c, Chain (k c)) ->
  Chain (sendRawTransaction client payload ≫= fun submitted =>
         console_log (line submitted) ≫= fun _ =>
         algosdk_waitForConfirmation client (txId submitted) waitRounds
           ≫= k).
Proof.
  intros Hk w. rewrite bind_run. unfold sendRawTransaction.
  rewrite external_run.
  destruct (net_sendRawTransaction client payload (remote w))
    as [[submitted|e] s]; cbv iota beta zeta.
  2:{ eexists [_]. split; [reflexivity |]. by intros prev. }
  rewrite bind_run, console_log_run. cbv iota beta.
  rewrite bind_run. unfold algosdk_waitForConfirmation.
  rewrite external_run. cbn [remote heap console trace].
  destruct (net_waitForConfirmation client (txId submitted) waitRounds s)
    as [[c|e] s2]; cbv iota beta zeta.
  - match goal with
    | |- context [k c ?w1] => destruct (Hk c w1) as (t & Et & Lt)
    end.
    eexists (_ :: _ :: t). rewrite Et. cbn [trace].
    rewrite <- !app_assoc. split; [reflexivity |].
    intros prev. simpl. split; [done |].
    split; [by eexists _, _ | apply Lt].
  - eexists [_; _]. cbn [snd trace]. rewrite <- !app_assoc.
    split; [reflexivity |].
    intros prev. simpl. split; [done |]. split; [by eexists _, _ | done].
Qed.
End ChainRules.

Ltac chain :=
  repeat
    lazymatch goal with
    | |- Chain (mbind _ (sendRawTransaction _ _)) =>
        eapply Chain_submit_wait; intros ?
    | |- Chain (mret _) => apply Chain_ret
    | |- Chain (throw _) => apply Chain_throw
    | |- Chain (mbind _ _) => apply Chain_bind; [| intros ?]
    | |- Chain (try_catch _ _) => apply Chain_try_catch; [| intros ?]
    | |- Chain (console_log _) => apply Chain_console_log
    | |- Chain (console_error _ _) => apply Chain_console_error
    | |- Chain (alloc _) => apply Chain_alloc
    | |- Chain (deref _) => apply Chain_deref
    | |- Chain (write_group _ _) => apply Chain_write_group
    | |- Chain (external _ _ _) => apply Chain_external; exact I
    | |- Chain (mapM _ _) => apply Chain_mapM; intros ?
    | |- Chain (mapM_indexed _ _ _) => apply Chain_mapM_indexed; intros ? ?
    | |- Chain (for_each_acc _ _ _) => apply Chain_for_each_acc; intros ? ?
    | |- Chain (match ?x with _ => _ end) => destruct x
    | |- Chain (let _ := _ in _) => cbv zeta
    | |- Chain ?m => let h := script_head m in unfold h
    end.

(** X18. No operation ever waits for a confirmation except right
    after a submission of its own that succeeded, through the same
    client, and for the very id that submission returned: in the steps
    a run adds, every confirmation wait, successful or not, is
    immediately preceded by such a submission. *)
Theorem X18_waits_follow_submissions `{Platform} (op : Operation) (w : World) :
  exists t, trace (run op w).2 = trace w ++ t /\ linked None t.
Proof.
  assert (Hc : Chain (run op)) by (destruct op; simpl run; chain).
  destruct (Hc w) as (t & Et & Lt). by exists t.
Qed.

(** * Backup phrases on the console *)

Section DisclosureRules.
Context `{Platform}.

Lemma Discloses_quiet {A} (m : Js A) :
  (forall w, trace (m w).2 = trace w /\
             exists l, console (m w).2 = console w ++ l) ->
  Discloses m.
Proof.
  intros Hm w. destruct (Hm w) as (Et & l & El).
  exists [], l. rewrite Et, app_nil_r. split; [done |]. split; [done |].
  intros s mnemonic Hs. by apply elem_of_nil in Hs.
Qed.

Lemma Discloses_ret {A} (a : A) : Discloses (mret a).
Proof.
  apply Discloses_quiet. intros w. split; [done |].
  exists []. by rewrite app_nil_r.
Qed.

Lemma Discloses_throw {A} e : Discloses (@throw _ A e).
Proof.
  apply Discloses_quiet. intros w. split; [done |].
  exists []. by rewrite app_nil_r.
Qed.

Lemma Discloses_console_log args : Discloses (console_log args).
Proof. apply Discloses_quiet. intros w. split; [done |]. by eexists [_]. Qed.

Lemma Discloses_console_error context e :
  Discloses (console_error context e).
Proof. apply Discloses_quiet. intros w. split; [done |]. by eexists [_]. Qed.

Lemma Discloses_alloc t : Discloses (alloc t).
Proof.
  apply Discloses_quiet. intros w. split; [done |].
  exists []. by rewrite app_nil_r.
Qed.

Lemma Discloses_deref r : Discloses (deref r).
Proof.
  apply Discloses_quiet. intros w. split; [done |].
  exists []. by rewrite app_nil_r.
Qed.

Lemma Discloses_write_group gid r : Discloses (write_group gid r).
Proof.
  apply Discloses_quiet. intros w. split; [done |].
  exists []. by rewrite app_nil_r.
Qed.

Lemma Discloses_external {A} c (show : A -> Payload) f :
  match c with
  | CSecretKeyToMnemonic _ => False
  | _ => True
  end ->
  Discloses (external c show f).
Proof.
  intros Hc w. rewrite external_run. destruct (f (remote w)) as [r s].
  eexists [_], []. rewrite app_nil_r. split; [reflexivity |].
  split; [reflexivity |].
  intros s0 mnemonic Hs0. apply list_elem_of_singleton in Hs0. subst s0.
  unfold derived_phrase. simpl. by destruct c.
Qed.

Lemma Discloses_bind {A B} (m : Js A) (f : A -> Js B) :
  Discloses m -> (forall a, Discloses (f a)) -> Discloses (m ≫= f).
Proof.
  intros Hm Hf w. rewrite bind_run.
  destruct (Hm w) as (t1 & l1 & Et1 & El1 & H1).
  destruct (m w) as [[a|e] w1]; simpl in *.
  - destruct (Hf a w1) as (t2 & l2 & Et2 & El2 & H2).
    exists (t1 ++ t2), (l1 ++ l2).
    rewrite Et2, Et1, El2, El1, !app_assoc. split; [done |]. split; [done |].
    intros s mnemonic Hs Hd. apply elem_of_app.
    apply elem_of_app in Hs as [Hs|Hs]; [left | right]; eauto.
  - by exists t1, l1.
Qed.

Lemma Discloses_try_catch {A} (body : Js A) handler :
  Discloses body -> (forall e, Discloses (handler e)) ->
  Discloses (try_catch body handler).
Proof.
  intros Hm Hf w. rewrite try_catch_run.
  destruct (Hm w) as (t1 & l1 & Et1 & El1 & H1).
  destruct (body w) as [[a|e] w1]; simpl in *.
  - by exists t1, l1.
  - destruct (Hf e w1) as (t2 & l2 & Et2 & El2 & H2).
    exists (t1 ++ t2), (l1 ++ l2).
    rewrite Et2, Et1, El2, El1, !app_assoc. split; [done |]. split; [done |].
    intros s mnemonic Hs Hd. apply elem_of_app.
    apply elem_of_app in Hs as [Hs|Hs]; [left | right]; eauto.
Qed.

Lemma Discloses_mapM {A B} (f : A -> Js B) l :
  (forall x, Discloses (f x)) -> Discloses (mapM f l).
Proof.
  intros Hf. induction l as [|x l IH]; simpl.
  - apply Discloses_ret.
  - apply Discloses_bind; [apply Hf | intros y].
    apply Discloses_bind; [apply IH | intros ys]. apply Discloses_ret.
Qed.

Lemma Discloses_mapM_indexed {A B} (f : A -> nat -> Js B) i l :
  (forall x j, Discloses (f x j)) -> Discloses (mapM_indexed f i l).
Proof.
  intros Hf. revert i. induction l as [|x l IH]; intros i; simpl.
  - apply Discloses_ret.
  - apply Discloses_bind; [apply Hf | intros y].
    apply Discloses_bind; [apply IH | intros ys]. apply Discloses_ret.
Qed.

Lemma Discloses_for_each_acc {A B} (step : B -> A -> Js B) acc l :
  (forall b x, Discloses (step b x)) -> Discloses (for_each_acc step acc l).
Proof.
  intros Hf. revert acc. induction l as [|x l IH]; intros acc; simpl.
  - apply Discloses_ret.
  - apply Discloses_bind; [apply Hf | intros y]. apply IH.
Qed.

(** Derive the phrase, print it. *)
Lemma Discloses_phrase {B} key (k : string -> Js B) :
  (forall mnemonic, Discloses (k mnemonic)) ->
  Discloses (algosdk_secretKeyToMnemonic key ≫= fun mnemonic =>
             console_log [ShStr "Account Mnemonic:"; ShStr mnemonic]
               ≫= fun _ => k mnemonic).
Proof.
  intros Hk w. rewrite bind_run. unfold algosdk_secretKeyToMnemonic.
  rewrite pure_call_run.
  destruct (sdk_secretKeyToMnemonic key) as [mnemonic|e]; cbv iota beta.
  - rewrite bind_run, console_log_run. cbv iota beta.
    match goal with
    | |- context [k mnemonic ?w1] =>
        destruct (Hk mnemonic w1) as (t & l & Et & El & Hd)
    end.
    eexists (_ :: t), (phrase_line mnemonic :: l).
    rewrite Et, El. cbn [trace console]. rewrite <- !app_assoc.
    split; [reflexivity |]. split; [reflexivity |].
    intros s m Hs Hm. apply elem_of_cons in Hs as [-> | Hs].
    + injection Hm as <-. apply list_elem_of_here.
    + apply list_elem_of_further. eauto.
  - eexists [_], []. rewrite app_nil_r. split; [reflexivity |].
    split; [reflexivity |].
    intros s m Hs Hm. apply list_elem_of_singleton in Hs. by subst s.
Qed.
End DisclosureRules.

Ltac discloses :=
  repeat
    lazymatch goal with
    | |- Discloses (mbind _ (algosdk_secretKeyToMnemonic _)) =>
        eapply Discloses_phrase; intros ?
    | |- Discloses (mret _) => apply Discloses_ret
    | |- Discloses (throw _) => apply Discloses_throw
    | |- Discloses (mbind _ _) => apply Discloses_bind; [| intros ?]
    | |- Discloses (try_catch _ _) => apply Discloses_try_catch; [| intros ?]
    | |- Discloses (console_log _) => apply Discloses_console_log
    | |- Discloses (console_error _ _) => apply Discloses_console_error
    | |- Discloses (alloc _) => apply Discloses_alloc
    | |- Discloses (deref _) => apply Discloses_deref
    | |- Discloses (write_group _ _) => apply Discloses_write_group
    | |- Discloses (external _ _ _) => apply Discloses_external; exact I
    | |- Discloses (mapM _ _) => apply Discloses_mapM; intros ?
    | |- Discloses (mapM_indexed _ _ _) =>
        apply Discloses_mapM_indexed; intros ? ?
    | |- Discloses (for_each_acc _ _ _) =>
        apply Discloses_for_each_acc; intros ? ?
    | |- Discloses (match ?x with _ => _ end) => destruct x
    | |- Discloses (let _ := _ in _) => cbv zeta
    | |- Discloses ?m => let h := script_head m in unfold h
    end.

(** X19. Every backup phrase derived from a secret key during a run
    of any operation is printed: for each successful derivation among
    the steps the run adds, the console holds, among the lines the run
    adds, the line [Account Mnemonic:] followed by that phrase.  This
    covers [generateAccount] and the drivers that call it. *)
Theorem X19_phrases_are_printed `{Platform} (op : Operation) (w : World) :
  exists t l,
    trace (run op w).2 = trace w ++ t /\
    console (run op w).2 = console w ++ l /\
    forall s mnemonic,
      s ∈ t -> derived_phrase s = Some mnemonic -> phrase_line mnemonic ∈ l.
Proof.
  assert (Hd : Discloses (run op)) by (destruct op; simpl run; discloses).
  exact (Hd w).
Qed.

Lemma X19_phrases_are_printed_witness :
  phrase_line "a" ∈ console (@run toy AM_generateAccount toy_world).2.
Proof.
  destruct (@X19_phrases_are_printed toy AM_generateAccount toy_world)
    as (t & l & Et & El & Hd).
  rewrite El. apply elem_of_app. right.
  vm_compute in Et. subst t.
  apply (Hd (gave (CSecretKeyToMnemonic (toy_key 0)) (PString "a")) "a").
  - apply list_elem_of_further, list_elem_of_here.
  - reflexivity.
Defined.

(** X20. No operation but [rekeyAccount] ever builds a request with a
    rekey-to field, and the one [rekeyAccount] builds is a payment of
    nothing from the account to itself, without note or lease, naming
    the address of the account that receives the authority. *)
Theorem X20_only_rekeyAccount_rekeys `{Platform} (op : Operation) (w : World) :
  exists t,
    trace (run op w).2 = trace w ++ t /\ Forall (authority_kept op) t.
Proof.
  revert w. change (Emits (authority_kept op) (run op)).
  destruct op; simpl run;
    emits ltac:(unfold authority_kept; cbn [step_call];
                first [exact I | reflexivity | by eexists]).
Qed.

(** X21. No operation but [revokeAsset] ever builds a request that
    takes assets from an account other than its sender's, and the one
    [revokeAsset] builds is the transfer, sent by the clawback manager,
    of the given amount of the given asset from the one party's address
    to the other's. *)
Theorem X21_only_revokeAsset_claws_back `{Platform}
    (op : Operation) (w : World) :
  exists t,
    trace (run op w).2 = trace w ++ t /\ Forall (holdings_kept op) t.
Proof.
  revert w. change (Emits (holdings_kept op) (run op)).
  destruct op; simpl run;
    emits ltac:(unfold holdings_kept; cbn [step_call];
                first [exact I | reflexivity | by eexists]).
Qed.

(** X22. The functions that src/algorand-examples.js and
    src/smart-contracts.js repeat from another file behave exactly as
    the original called with the fixed values the copy has built in:
    the same completion, the same steps, the same console lines, the
    same effect on the node.  This holds for the client factory,
    [recoverAccount], [createMultisigAccount], [createAsset] (with the
    example URL and no metadata hash), [optInToAsset],
    [compileProgram], [createLogicSignature] (without arguments) and
    [createApplication] (with the four schema sizes left out). *)
Theorem X22_copies_agree `{Platform} (op original : Operation) (w : World) :
  original_of op = Some original ->
  run op w = run original w.
Proof.
  destruct op; try discriminate; intros [= <-]; try reflexivity.
  simpl run. unfold Examples.createMultisigAccount,
    AccountManagement.createMultisigAccount. cbv zeta.
  rewrite !returning_run, !bind_run.
  unfold algosdk_multisigAddress. rewrite pure_call_run.
  by destruct (sdk_multisigAddress _) as [a|e].
Qed.

Lemma X22_copies_agree_witness :
  @run toy (EX_createApplication toy_alice "approve" "clear") toy_world
  = @run toy (SC_createApplication toy_alice "approve" "clear"
                None None None None) toy_world.
Proof.
  exact (@X22_copies_agree toy
           (EX_createApplication toy_alice "approve" "clear")
           (SC_createApplication toy_alice "approve" "clear"
              None None None None) toy_world eq_refl).
Defined.

(** * One submission per call *)

Section DispatchRules.
Context `{Platform}.

Lemma dispatched_app t1 t2 :
  dispatched (t1 ++ t2) = dispatched t1 ++ dispatched t2.
Proof. apply List.filter_app. Qed.

Lemma dispatched_none t :
  Forall (fun s => dispatch (step_call s) = false) t -> dispatched t = [].
Proof.
  induction 1 as [|s t Hs _ IH]; [done |].
  unfold dispatched in *. simpl. by rewrite Hs.
Qed.

Lemma AtMostOnce_none {A} (m : Js A) :
  Emits (fun s => dispatch (step_call s) = false) m -> AtMostOnce m.
Proof.
  intros Hm w. destruct (Hm w) as (t & Et & F). exists t.
  split; [done |]. rewrite dispatched_none by done. simpl. lia.
Qed.

Lemma AtMostOnce_external {A} c (show : A -> Payload) f :
  AtMostOnce (external c show f).
Proof.
  intros w. rewrite external_run. destruct (f (remote w)) as [r s].
  eexists [_]. split; [reflexivity |].
  unfold dispatched. simpl. destruct (dispatch c); simpl; lia.
Qed.

Lemma AtMostOnce_later {A B} (m : Js A) (f : A -> Js B) :
  Emits (fun s => dispatch (step_call s) = false) m ->
  (forall a, AtMostOnce (f a)) -> AtMostOnce (m ≫= f).
Proof.
  intros Hm Hf w. rewrite bind_run.
  destruct (Hm w) as (t1 & E1 & F1).
  destruct (m w) as [[a|e] w1]; simpl in *.
  - destruct (Hf a w1) as (t2 & E2 & L2).
    exists (t1 ++ t2). rewrite E2, E1, app_assoc. split; [done |].
    by rewrite dispatched_app, (dispatched_none t1).
  - exists t1. split; [done |]. rewrite dispatched_none by done. simpl. lia.
Qed.

Lemma AtMostOnce_first {A B} (m : Js A) (f : A -> Js B) :
  AtMostOnce m ->
  (forall a, Emits (fun s => dispatch (step_call s) = false) (f a)) ->
  AtMostOnce (m ≫= f).
Proof.
  intros Hm Hf w. rewrite bind_run.
  destruct (Hm w) as (t1 & E1 & L1).
  destruct (m w) as [[a|e] w1]; simpl in *.
  - destruct (Hf a w1) as (t2 & E2 & F2).
    exists (t1 ++ t2). rewrite E2, E1, app_assoc. split; [done |].
    by rewrite dispatched_app, (dispatched_none t2), app_nil_r.
  - by exists t1.
Qed.

Lemma AtMostOnce_try_catch {A} (body : Js A) handler :
  AtMostOnce body ->
  (forall e, Emits (fun s => dispatch (step_call s) = false) (handler e)) ->
  AtMostOnce (try_catch body handler).
Proof.
  intros Hm Hf w. rewrite try_catch_run.
  destruct (Hm w) as (t1 & E1 & L1).
  destruct (body w) as [[a|e] w1]; simpl in *.
  - by exists t1.
  - destruct (Hf e w1) as (t2 & E2 & F2).
    exists (t1 ++ t2). rewrite E2, E1, app_assoc. split; [done |].
    by rewrite dispatched_app, (dispatched_none t2), app_nil_r.
Qed.
End DispatchRules.

Ltac at_most_once :=
  repeat
    lazymatch goal with
    | |- AtMostOnce (returning _ _) =>
        unfold returning;
        apply AtMostOnce_first; [| intros ?; apply Emits_ret]
    | |- AtMostOnce (mbind _ (sendRawTransaction _ _)) =>
        apply AtMostOnce_first;
        [unfold sendRawTransaction; apply AtMostOnce_external
        | intros ?; emits ltac:(done)]
    | |- AtMostOnce (mbind _ (atc_execute _ _ _)) =>
        apply AtMostOnce_first;
        [unfold atc_execute; apply AtMostOnce_external
        | intros ?; emits ltac:(done)]
    | |- AtMostOnce (mbind _ _) =>
        apply AtMostOnce_later; [emits ltac:(done) | intros ?]
    | |- AtMostOnce (try_catch _ _) =>
        apply AtMostOnce_try_catch; [| intros ?; emits ltac:(done)]
    | |- AtMostOnce (mret _) => apply AtMostOnce_none, Emits_ret
    | |- AtMostOnce (console_log _) =>
        apply AtMostOnce_none, Emits_console_log
    | |- AtMostOnce (let _ := _ in _) => cbv zeta
    | |- AtMostOnce ?m => let h := script_head m in unfold h
    end.

(** X23. No operation hands more than one thing to the network per
    call: among the steps a run adds there is at most one submission
    (an atomic group counts once) or composer execution, whether the
    run returns or raises.  Nothing is ever submitted again. *)
Theorem X23_at_most_one_submission `{Platform} (op : Operation) (w : World) :
  exists t,
    trace (run op w).2 = trace w ++ t /\ (length (dispatched t) <= 1)%nat.
Proof.
  assert (Ho : AtMostOnce (run op)) by (destruct op; simpl run; at_most_once).
  exact (Ho w).
Qed.
